(** * Placement management portal: application workflow and authorization

    A shallow embedding of the route handlers and controllers of the portal
    (student apply, company status update, job and user deletion, login,
    role middleware) over an explicit model of the three Mongoose
    collections and of the session, followed by the properties of the
    application workflow and of the authorization gate.

    Conventions of the embedding:
    - a collection is a finite map from [_id] to document ([gmap]);
    - a handler is a computation in the monad [M]: it threads the
      collections, the session and a log of the store operations it
      issued, and it may throw; [try_catch] is the handler's
      [try { ... } catch (err) { ... }];
    - a route parameter that names a document is its [ObjectId] where the
      handler hands it to a query and does nothing else with it; where
      the handler compares the text of the parameter, as the deletion of
      a user does, the parameter is that text, and the query casts it;
    - a form field is [option string]: [None] when the field is absent;
      the fields of the login form, which reach a query filter as they
      come, are [Field]s: any value of a parsed body;
    - an attribute that the schema does not require is optional in the
      record of the document, where a modelled handler can leave it
      unset. *)

From stdpp Require Import gmap strings list fin_maps infinite.
From Stdlib Require Import ZArith String Ascii.

Local Open Scope string_scope.

Abbreviation ObjectId := N (only parsing).

(** ** JavaScript values the handlers rely on *)

(** A [Date] object: a time value in milliseconds, or the invalid date
    that [new Date(s)] yields for an unparsable [s]. *)
Inductive JsDate : Type :=
| ValidDate (ms : Z)
| InvalidDate.

#[global] Instance JsDate_eq_dec : EqDecision JsDate.
Proof. solve_decision. Defined.

(** A value of a parsed body ([express.json()] and
    [express.urlencoded({ extended: true })]): null, a boolean, a number
    [m * 10 ^ e], a text, an array or an object. *)
#[warnings="-register-all"] Inductive Value : Type :=
| VNull
| VBool (b : bool)
| VNumber (m e : Z)
| VText (s : string)
| VArray (items : list Value)
| VObject (members : list (string * Value)).

(** A field of [req.body]: [None] when the body has no such key. *)
Abbreviation Field := (option Value) (only parsing).

(** A form field as a body field. *)
Definition text (o : option string) : Field := VText <$> o.

(** [!!v] *)
Definition truthy_value (v : Field) : bool :=
  match v with
  | None | Some VNull => false
  | Some (VBool b) => b
  | Some (VNumber m _) => negb (bool_decide (m = 0%Z))
  | Some (VText s) => negb (bool_decide (s = ""))
  | Some (VArray _) | Some (VObject _) => true
  end.

(** [v === s] for a text [s]. *)
Definition is_text (s : string) (v : Field) : bool :=
  match v with
  | Some (VText s') => bool_decide (s' = s)
  | _ => false
  end.

(** [v === e] for a variable [e] of the environment, which holds a text
    or is undefined. *)
Definition strict_eq_env (v : Field) (e : option string) : bool :=
  match v, e with
  | None, None => true
  | Some (VText s), Some k => bool_decide (s = k)
  | _, _ => false
  end.

(** Truthiness of a form field or of an optional string attribute:
    [undefined], [null] and the empty string are falsy. *)
Definition truthy (o : option string) : bool :=
  match o with
  | Some s => negb (bool_decide (s = ""))
  | None => false
  end.

(** [a || b] on optional strings. *)
Definition or_default (o : option string) (d : string) : string :=
  match o with
  | Some s => if bool_decide (s = "") then d else s
  | None => d
  end.

(** [if (field) target = f(field)]: the assignment is made when the form
    field is truthy. *)
Definition when_supplied {A} (field : option string) (assign : string → A → A)
    (target : A) : A :=
  match field with
  | Some v => if bool_decide (v = "") then target else assign v target
  | None => target
  end.

Definition lower_ascii (c : ascii) : ascii :=
  let n := nat_of_ascii c in
  if (65 <=? n)%nat && (n <=? 90)%nat then ascii_of_nat (n + 32) else c.

(** [String.prototype.toLowerCase], on the ASCII letters. *)
Fixpoint toLowerCase (s : string) : string :=
  match s with
  | EmptyString => EmptyString
  | String c s' => String (lower_ascii c) (toLowerCase s')
  end.

(** ** Data model (models/User.js, models/Job.js, models/Application.js) *)

(** A document is its [_id] together with its attributes; a collection
    maps the one to the other, so that the [_id] of a stored document is
    the key it is stored under. *)
Abbreviation Doc A := (ObjectId * A)%type (only parsing).
Definition _id {A} (d : Doc A) : ObjectId := d.1.
Definition fields {A} (d : Doc A) : A := d.2.

Module User.
(** The attributes of the user schema that the modelled handlers read
    or write. The schema requires none of them: a user that the
    administrator adds without a name, an email or a password is stored
    without. [role] and [status] have defaults, and no modelled handler
    unsets them; they are plain strings: the schema's enum is enforced on
    validated saves only. *)
Record t : Type := mk {
  name : option string;
  email : option string;
  password : option string;
  role : string;
  resume : option string;
  companyName : option string;
  status : string
}.

Definition set_resume (r : string) (u : t) : t :=
  mk (name u) (email u) (password u) (role u) (Some r)
     (companyName u) (status u).
End User.

Module Job.
(** The attributes of the job schema that the modelled handlers read.
    [deadline] is [None] for a posting stored without one. *)
Record t : Type := mk {
  companyId : ObjectId;
  title : string;
  deadline : option Z;
  status : string
}.
End Job.

Module Application.
(** [status] has a default and is not required: assigning [undefined] to
    it unsets it. *)
Record t : Type := mk {
  studentId : ObjectId;
  jobId : ObjectId;
  companyId : ObjectId;
  status : option string;
  appliedDate : Z;
  resume : string;
  coverLetter : option string;
  interviewDate : option JsDate;
  interviewMode : option string;
  interviewLocation : option string;
  interviewLink : option string;
  feedback : option string
}.

Definition set_status (s : string) (a : t) : t :=
  mk (studentId a) (jobId a) (companyId a) (Some s) (appliedDate a)
     (resume a) (coverLetter a) (interviewDate a) (interviewMode a)
     (interviewLocation a) (interviewLink a) (feedback a).

(** [application.status = undefined] *)
Definition unset_status (a : t) : t :=
  mk (studentId a) (jobId a) (companyId a) None (appliedDate a)
     (resume a) (coverLetter a) (interviewDate a) (interviewMode a)
     (interviewLocation a) (interviewLink a) (feedback a).

Definition set_interviewDate (d : JsDate) (a : t) : t :=
  mk (studentId a) (jobId a) (companyId a) (status a)
     (appliedDate a) (resume a) (coverLetter a) (Some d) (interviewMode a)
     (interviewLocation a) (interviewLink a) (feedback a).

Definition set_interviewMode (m : string) (a : t) : t :=
  mk (studentId a) (jobId a) (companyId a) (status a)
     (appliedDate a) (resume a) (coverLetter a) (interviewDate a) (Some m)
     (interviewLocation a) (interviewLink a) (feedback a).

Definition set_interviewLocation (l : string) (a : t) : t :=
  mk (studentId a) (jobId a) (companyId a) (status a)
     (appliedDate a) (resume a) (coverLetter a) (interviewDate a)
     (interviewMode a) (Some l) (interviewLink a) (feedback a).

Definition set_interviewLink (l : string) (a : t) : t :=
  mk (studentId a) (jobId a) (companyId a) (status a)
     (appliedDate a) (resume a) (coverLetter a) (interviewDate a)
     (interviewMode a) (interviewLocation a) (Some l) (feedback a).

(** enum: ['pending', 'shortlisted', 'rejected', 'hired'] *)
Definition status_enum : list string :=
  ["pending"; "shortlisted"; "rejected"; "hired"].

(** enum: ['Online', 'Offline'] *)
Definition interviewMode_enum : list string := ["Online"; "Offline"].

(** The schema validation that [save] runs: [status] and
    [interviewMode] within their enums when they are set, [resume]
    required (a required string is rejected when empty), [interviewDate] a
    valid date. The three references are required too; they are always
    present in [t]. *)
Definition validate (a : t) : bool :=
  match status a with
  | Some st => bool_decide (st ∈ status_enum)
  | None => true
  end
  && negb (bool_decide (resume a = ""))
  && match interviewMode a with
     | Some m => bool_decide (m ∈ interviewMode_enum)
     | None => true
     end
  && match interviewDate a with
     | Some InvalidDate => false
     | _ => true
     end.
End Application.

(** ** Store, session and the handler monad *)

(** The store operations a handler can issue, as they are named in the
    source. *)
Inductive DbOp : Type :=
| User_findOne_op
| User_findByIdAndDelete_op
| User_findByIdAndUpdate_op
| Job_findById_op
| Job_findOne_op
| Job_find_op
| Job_deleteMany_op
| Job_findByIdAndDelete_op
| Application_findById_op
| Application_findOne_op
| Application_deleteMany_op
| Application_save_op.

Record State : Type := mkState {
  users : gmap N User.t;
  jobs : gmap N Job.t;
  applications : gmap N Application.t;
  (** [req.session.user] *)
  session_user : option (Doc User.t);
  (** store operations issued so far, oldest first *)
  oplog : list DbOp
}.

Inductive Exn : Type :=
| TypeError
| ValidationError
| ExternalServiceError
| CastError
| IllegalArguments
| BcryptError
| DuplicateKey.

Inductive result (A : Type) : Type :=
| Ok (a : A)
| Throw (e : Exn).
Arguments Ok {A} a.
Arguments Throw {A} e.

Definition M (A : Type) : Type := State → result A * State.

Definition ret {A} (a : A) : M A := λ s, (Ok a, s).

Definition bind {A B} (m : M A) (k : A → M B) : M B :=
  λ s, match m s with
       | (Ok a, s') => k a s'
       | (Throw e, s') => (Throw e, s')
       end.

Definition throw {A} (e : Exn) : M A := λ s, (Throw e, s).

Definition try_catch {A} (body : M A) (handler : Exn → M A) : M A :=
  λ s, match body s with
       | (Ok a, s') => (Ok a, s')
       | (Throw e, s') => handler e s'
       end.

Definition get : M State := λ s, (Ok s, s).

#[global] Instance M_ret : MRet M := @ret.
#[global] Instance M_bind : MBind M := λ A B k m, bind m k.

Definition log (op : DbOp) : M unit :=
  λ s, (Ok tt, mkState (users s) (jobs s) (applications s) (session_user s)
                       (oplog s ++ [op])).

Definition put_users (us : gmap N User.t) : M unit :=
  λ s, (Ok tt, mkState us (jobs s) (applications s) (session_user s) (oplog s)).

Definition put_jobs (js : gmap N Job.t) : M unit :=
  λ s, (Ok tt, mkState (users s) js (applications s) (session_user s) (oplog s)).

Definition put_applications (apps : gmap N Application.t) : M unit :=
  λ s, (Ok tt, mkState (users s) (jobs s) apps (session_user s) (oplog s)).

Definition set_session_user (u : option (Doc User.t)) : M unit :=
  λ s, (Ok tt, mkState (users s) (jobs s) (applications s) u (oplog s)).

(** The documents of a collection that satisfy a filter. *)
Definition matching {A} (P : Doc A → bool) (m : gmap N A) : gmap N A :=
  filter (λ kv, P kv = true) m.

(** Some document that satisfies the filter, or null. *)
Definition find_one {A} (P : Doc A → bool) (m : gmap N A) : option (Doc A) :=
  head (map_to_list (matching P m)).

Definition find_all {A} (P : Doc A → bool) (m : gmap N A) : list (Doc A) :=
  map_to_list (matching P m).

(** The collection without the documents that satisfy the filter. *)
Definition delete_many {A} (P : Doc A → bool) (m : gmap N A) : gmap N A :=
  filter (λ kv, P kv = false) m.

Definition find_by_id {A} (id : ObjectId) (m : gmap N A) : option (Doc A) :=
  (λ x, (id, x)) <$> m !! id.

(** *** Model statics *)

Definition User_findOne (P : Doc User.t → bool) : M (option (Doc User.t)) :=
  log User_findOne_op ;; s ← get ; ret (find_one P (users s)).

Definition User_findByIdAndDelete (id : ObjectId) : M unit :=
  log User_findByIdAndDelete_op ;; s ← get ; put_users (delete id (users s)).

(** [User.findByIdAndUpdate(id, { resume: r }, { new: true })]: the
    updated document, or null when there is none with this id. *)
Definition User_findByIdAndUpdate_resume (id : ObjectId) (r : string)
  : M (option (Doc User.t)) :=
  log User_findByIdAndUpdate_op ;;
  s ← get ;
  match users s !! id with
  | Some u =>
      let u' := User.set_resume r u in
      put_users (<[id := u']> (users s)) ;; ret (Some (id, u'))
  | None => ret None
  end.

Definition Job_findById (id : ObjectId) : M (option (Doc Job.t)) :=
  log Job_findById_op ;; s ← get ; ret (find_by_id id (jobs s)).

Definition Job_findOne (P : Doc Job.t → bool) : M (option (Doc Job.t)) :=
  log Job_findOne_op ;; s ← get ; ret (find_one P (jobs s)).

Definition Job_find (P : Doc Job.t → bool) : M (list (Doc Job.t)) :=
  log Job_find_op ;; s ← get ; ret (find_all P (jobs s)).

Definition Job_deleteMany (P : Doc Job.t → bool) : M unit :=
  log Job_deleteMany_op ;; s ← get ; put_jobs (delete_many P (jobs s)).

Definition Job_findByIdAndDelete (id : ObjectId) : M unit :=
  log Job_findByIdAndDelete_op ;; s ← get ; put_jobs (delete id (jobs s)).

Definition Application_findById (id : ObjectId)
  : M (option (Doc Application.t)) :=
  log Application_findById_op ;; s ← get ; ret (find_by_id id (applications s)).

Definition Application_findOne (P : Doc Application.t → bool)
  : M (option (Doc Application.t)) :=
  log Application_findOne_op ;; s ← get ; ret (find_one P (applications s)).

Definition Application_deleteMany (P : Doc Application.t → bool) : M unit :=
  log Application_deleteMany_op ;;
  s ← get ; put_applications (delete_many P (applications s)).

(** [doc.save()]: validation first (a failure throws before the store is
    reached), then the document is written under its [_id]. *)
Definition Application_save (a : Doc Application.t) : M unit :=
  if Application.validate (fields a) then
    log Application_save_op ;;
    s ← get ; put_applications (<[_id a := fields a]> (applications s))
  else throw ValidationError.

(** The [_id] that [new Application(...)] draws: one that no stored
    application carries. *)
Definition new_ObjectId : M ObjectId :=
  s ← get ; ret (fresh (dom (applications s))).

(** ** Responses *)

Inductive JsonBody : Type :=
| JError (error : string)
| JMessage (message : string)
| JSuccess (success : bool) (message : option string).

Inductive Response : Type :=
| Json (code : nat) (body : JsonBody)
| Render (code : nat) (view : string) (error : option string)
| Redirect (url : string)
| Send (code : nat) (text : string).

Definition status_code (r : Response) : nat :=
  match r with
  | Json c _ | Render c _ _ | Send c _ => c
  | Redirect _ => 302
  end.

(** The failures of the error taxonomy, as the handlers below send them. *)
Definition ResumeRequired : Response :=
  Json 400 (JError "Please upload your resume before applying").
Definition JobUnavailable : Response :=
  Json 404 (JError "Job not found or no longer active").
Definition DeadlinePassed : Response :=
  Json 400 (JError "Application deadline has passed").
Definition DuplicateApplication : Response :=
  Json 400 (JError "You have already applied to this job").
Definition InvalidAdminKey : Response :=
  Render 200 "pages/login" (Some "Invalid admin key. Access denied.").
Definition InvalidCredentials : Response :=
  Render 200 "pages/login" (Some "Invalid credentials").

(** ** Authorization gate (middleware/roleMiddleware.js and the
    [isAuthenticated]/[requireRole] pair) *)

(** What a middleware does with a request: call [next()], or answer it. *)
Inductive Gate : Type :=
| Next
| Respond (r : Response).

(** [req.session?.user?.role] *)
Definition session_role (s : State) : option string :=
  User.role ∘ fields <$> session_user s.

Definition isAdmin : M Gate :=
  s ← get ;
  if bool_decide (session_role s = Some "admin") then ret Next
  else ret (Respond (Render 403 "pages/error"
                       (Some "Access denied. Admin privileges required."))).

Definition isCompany : M Gate :=
  s ← get ;
  if bool_decide (session_role s = Some "company") then ret Next
  else ret (Respond (Render 403 "pages/error"
                       (Some "Access denied. Company account required."))).

Definition isStudent : M Gate :=
  s ← get ;
  if bool_decide (session_role s = Some "student") then ret Next
  else ret (Respond (Render 403 "pages/error"
                       (Some "Access denied. Student account required."))).

Definition checkRole (roles : list string) : M Gate :=
  s ← get ;
  match session_user s with
  | None => ret (Respond (Redirect "/auth/login"))
  | Some u =>
      if bool_decide (User.role (fields u) ∈ roles) then ret Next
      else ret (Respond (Render 403 "pages/error"
                           (Some "Access denied. Insufficient privileges.")))
  end.

Definition isAuthenticated : M Gate :=
  s ← get ;
  match session_user s with
  | Some _ => ret Next
  | None => ret (Respond (Redirect "/auth/login"))
  end.

Definition requireRole (role : string) : M Gate :=
  s ← get ;
  if bool_decide (session_role s = Some role) then ret Next
  else ret (Respond (Send 403 "Forbidden")).

(** [router.use(gate)] followed by a route: the handler runs when the
    gate calls [next()], and only then. *)
Definition guarded (gate : M Gate) (handler : M Response) : M Response :=
  g ← gate ;
  match g with
  | Next => handler
  | Respond r => ret r
  end.

(** [req.session.user] where a property of it is read next: reading a
    property of [undefined] throws. *)
Definition the_session_user : M (Doc User.t) :=
  s ← get ;
  match session_user s with
  | Some u => ret u
  | None => throw TypeError
  end.

(** ** Login (controllers/authController.js) *)

Definition LoginFailed : Response :=
  Render 200 "pages/login" (Some "Login failed. Please try again.").

Section Login.
(** [process.env.ADMIN_KEY]. *)
Variable ADMIN_KEY : option string.
(** [bcrypt.compare(plain, hash)] on two texts: [None] when it rejects,
    as it does for a hash of the length of a bcrypt hash that is not
    one. *)
Variable bcrypt_compare : string → string → option bool.
(** What Mongoose makes, in a filter on a String path, of a value that is
    not a text ([undefined], [null], a number, an object of operators such
    as [{ $ne: ... }], ...): the test that a stored value must pass, or
    [None] when the value cannot be cast and the query throws. *)
Variable String_filter : Field → option (option string → bool).

(** The test that the filter [{ path: v }] puts a stored value to: for a
    text, to be that text. *)
Definition filter_on (v : Field) : option (option string → bool) :=
  match v with
  | Some (VText s) => Some (λ stored, bool_decide (stored = Some s))
  | _ => String_filter v
  end.

(** The filter [{ email, role }]. *)
Definition by_email_and_role (email role : Field)
  : option (Doc User.t → bool) :=
  match filter_on email, filter_on role with
  | Some on_email, Some on_role =>
      Some (λ u, on_email (User.email (fields u))
                 && on_role (Some (User.role (fields u))))
  | _, _ => None
  end.

(** [user.comparePassword(password)]: bcryptjs rejects when one of the
    two is not a text. *)
Definition comparePassword (password : Field) (u : User.t) : M bool :=
  match password, User.password u with
  | Some (VText plain), Some hash =>
      match bcrypt_compare plain hash with
      | Some b => ret b
      | None => throw BcryptError
      end
  | _, _ => throw IllegalArguments
  end.

Definition loginUser (email password role adminKey : Field) : M Response :=
  try_catch
    (if is_text "admin" role
        && (negb (truthy_value adminKey)
            || negb (strict_eq_env adminKey ADMIN_KEY))
     then ret InvalidAdminKey
     else
       match by_email_and_role email role with
       | None => throw CastError
       | Some filter =>
           user ← User_findOne filter ;
           match user with
           | None => ret InvalidCredentials
           | Some u =>
               matches ← comparePassword password (fields u) ;
               if negb matches then ret InvalidCredentials
               else
                 set_session_user (Some u) ;;
                 ret (Redirect
                        (if bool_decide (User.role (fields u) = "admin")
                         then "/admin/dashboard"
                         else if bool_decide (User.role (fields u) = "company")
                         then "/company/dashboard"
                         else if bool_decide (User.role (fields u) = "student")
                         then "/student/dashboard"
                         else "/"))
           end
       end)
    (λ _, ret LoginFailed).
End Login.

(** ** Student routes *)

(** [job.deadline && new Date(job.deadline) < new Date()] *)
Definition deadline_passed (now : Z) (job : Job.t) : bool :=
  match Job.deadline job with
  | Some d => bool_decide (d < now)%Z
  | None => false
  end.

(** The filter [{ studentId, jobId }]. *)
Definition by_student_and_job (studentId jobId : ObjectId)
    (a : Doc Application.t) : bool :=
  bool_decide (Application.studentId (fields a) = studentId)
  && bool_decide (Application.jobId (fields a) = jobId).

(** The filter [{ jobId }]. *)
Definition by_job (jobId : ObjectId) (a : Doc Application.t) : bool :=
  bool_decide (Application.jobId (fields a) = jobId).

(** POST /student/jobs/:jobId/apply; [now] is the reading of the clock,
    the same for the deadline test and for [appliedDate]. *)
Definition student_post_jobs_apply (now : Z) (jobId : ObjectId) : M Response :=
  try_catch
    (s ← get ;
     match session_user s with
     | None => ret (Json 401 (JError "Please login to apply"))
     | Some user =>
         if negb (truthy (User.resume (fields user))) then ret ResumeRequired
         else
           found ← Job_findById jobId ;
           match found with
           | None => ret JobUnavailable
           | Some job =>
               if negb (bool_decide (Job.status (fields job) = "active"))
               then ret JobUnavailable
               else if deadline_passed now (fields job) then ret DeadlinePassed
               else
                 existingApplication ←
                   Application_findOne (by_student_and_job (_id user) (_id job)) ;
                 match existingApplication with
                 | Some _ => ret DuplicateApplication
                 | None =>
                     id ← new_ObjectId ;
                     Application_save
                       (id, Application.mk (_id user) (_id job)
                              (Job.companyId (fields job)) (Some "pending") now
                              (or_default (User.resume (fields user)) "")
                              None None None None None None) ;;
                     ret (Json 200 (JMessage "Application submitted successfully"))
                 end
           end
     end)
    (λ _, ret (Json 500
                 (JError "Failed to submit application. Please try again."))).

(** [haystack.includes(needle)] *)
Fixpoint includes (needle haystack : string) : bool :=
  String.prefix needle haystack
  || match haystack with
     | EmptyString => false
     | String _ rest => includes needle rest
     end.

(** An uploaded file: its MIME type, and whether moving it to the uploads
    directory succeeds. *)
Record UploadedFile : Type := mkUploadedFile {
  mimetype : string;
  mv_succeeds : bool
}.

Section Resume.
(** The rendering of an [ObjectId] and of a clock reading inside a file
    name. *)
Variable ObjectId_toString : ObjectId → string.
Variable Z_toString : Z → string.

(** POST /student/profile/resume; [wants_json] is
    [req.xhr || req.headers.accept?.includes('application/json')]. *)
Definition student_post_profile_resume (now : Z)
    (resumeFile : option UploadedFile) (wants_json : bool) : M Response :=
  try_catch
    (match resumeFile with
     | None =>
         if wants_json
         then ret (Json 400 (JSuccess false (Some "No resume file uploaded")))
         else ret (Redirect "/student/profile?error=No+resume+file+uploaded")
     | Some file =>
         if negb (includes "pdf" (mimetype file)) then
           if wants_json
           then ret (Json 400 (JSuccess false (Some "Only PDF files are allowed")))
           else ret (Redirect "/student/profile?error=Only+PDF+files+are+allowed")
         else
           me ← the_session_user ;
           let filename :=
             ObjectId_toString (_id me) ++ "-" ++ Z_toString now ++ ".pdf" in
           (if mv_succeeds file then ret tt else throw ExternalServiceError) ;;
           user ← User_findByIdAndUpdate_resume (_id me)
                    ("/uploads/resumes/" ++ filename) ;
           match user with
           | None => throw TypeError
           | Some u =>
               set_session_user (Some u) ;;
               if wants_json
               then ret (Json 200 (JSuccess true (Some "Resume updated successfully")))
               else ret (Redirect "/student/profile?success=Resume+updated+successfully")
           end
     end)
    (λ _, if wants_json
          then ret (Json 500 (JSuccess false (Some "Failed to upload resume")))
          else ret (Redirect "/student/profile?error=Failed+to+upload+resume")).
End Resume.

(** ** Company routes (routes/companyRoutes.js) *)

(** The filter [{ _id, companyId }] on jobs. *)
Definition by_id_and_company (jobId companyId : ObjectId) (j : Doc Job.t)
  : bool :=
  bool_decide (_id j = jobId)
  && bool_decide (Job.companyId (fields j) = companyId).

(** The filter [{ companyId }] on jobs. *)
Definition by_company (companyId : ObjectId) (j : Doc Job.t) : bool :=
  bool_decide (Job.companyId (fields j) = companyId).

(** DELETE /company/jobs/:jobId *)
Definition company_delete_job (jobId : ObjectId) : M Response :=
  try_catch
    (me ← the_session_user ;
     job ← Job_findOne (by_id_and_company jobId (_id me)) ;
     match job with
     | None => ret (Json 404 (JError "Job not found"))
     | Some _ =>
         Application_deleteMany (by_job jobId) ;;
         Job_findByIdAndDelete jobId ;;
         ret (Json 200 (JMessage "Job deleted successfully"))
     end)
    (λ _, ret (Json 500 (JError "Failed to delete job"))).

(** [Application.findById(id).populate("jobId")]: the application, with
    the job it references when that job is stored, null in its place
    otherwise. *)
Definition Application_findById_populate_jobId (id : ObjectId)
  : M (option (Doc Application.t * option (Doc Job.t))) :=
  application ← Application_findById id ;
  match application with
  | None => ret None
  | Some a =>
      job ← Job_findById (Application.jobId (fields a)) ;
      ret (Some (a, job))
  end.

(** The form fields of the two interview-related requests. *)
Record InterviewForm : Type := mkInterviewForm {
  interviewDate : option string;
  interviewMode : option string;
  interviewLocation : option string;
  interviewLink : option string
}.

Section CompanyApplications.
(** [new Date(s)] on a form field. *)
Variable Date_parse : string → JsDate.

(** The four guarded assignments shared by the status and the
    schedule-interview handlers: [if (req.body.f) application.f = ...]. *)
Definition assign_interview (form : InterviewForm) (a : Application.t)
  : Application.t :=
  let a1 := when_supplied (interviewDate form)
              (λ d, Application.set_interviewDate (Date_parse d)) a in
  let a2 := when_supplied (interviewMode form)
              Application.set_interviewMode a1 in
  let a3 := when_supplied (interviewLocation form)
              Application.set_interviewLocation a2 in
  when_supplied (interviewLink form) Application.set_interviewLink a3.

(** The guard of both handlers:
    [!application || application.jobId.companyId.toString() !==
     req.session.user._id.toString()]. It yields the application when
    the guard lets the request through, [None] when it answers 404. *)
Definition owned_application (applicationId : ObjectId)
  : M (option (Doc Application.t)) :=
  found ← Application_findById_populate_jobId applicationId ;
  match found with
  | None => ret None
  | Some (application, None) => throw TypeError
  | Some (application, Some job) =>
      me ← the_session_user ;
      if negb (bool_decide (Job.companyId (fields job) = _id me))
      then ret None
      else ret (Some application)
  end.

(** POST /company/applications/:applicationId/status *)
Definition company_post_application_status (applicationId : ObjectId)
    (status : option string) (form : InterviewForm) : M Response :=
  try_catch
    (owned ← owned_application applicationId ;
     match owned with
     | None => ret (Json 404 (JError "Application not found"))
     | Some application =>
         match status with
         | None => throw TypeError
         | Some st =>
             let a1 := Application.set_status (toLowerCase st)
                         (fields application) in
             let a2 :=
               if bool_decide (st = "shortlisted")
                  || bool_decide (st = "Shortlisted")
               then assign_interview form a1 else a1 in
             Application_save (_id application, a2) ;;
             ret (Json 200 (JMessage "Application status updated successfully"))
         end
     end)
    (λ _, ret (Json 500 (JError "Failed to update status"))).

(** POST /company/applications/:applicationId/schedule-interview *)
Definition company_post_schedule_interview (applicationId : ObjectId)
    (form : InterviewForm) : M Response :=
  try_catch
    (owned ← owned_application applicationId ;
     match owned with
     | None => ret (Json 404 (JError "Application not found"))
     | Some application =>
         Application_save
           (_id application, assign_interview form (fields application)) ;;
         ret (Json 200 (JMessage "Interview scheduled successfully"))
     end)
    (λ _, ret (Json 500 (JError "Failed to schedule interview"))).
End CompanyApplications.

(** ** Company and student controllers ([updateApplicationStatus] and
    [studentApply]) *)

Definition NotFound : Response :=
  Json 404 (JSuccess false (Some "Application not found")).
Definition NotAuthorized : Response :=
  Json 403 (JSuccess false (Some "Not authorized")).

(** [status] is the [status] field of the form, taken as supplied:
    [application.status = status] unsets the status when the form has no
    such field. *)
Definition updateApplicationStatus (appId : ObjectId) (status : option string)
  : M Response :=
  try_catch
    (found ← Application_findById appId ;
     match found with
     | None => ret NotFound
     | Some application =>
         me ← the_session_user ;
         if negb (bool_decide (Application.companyId (fields application) = _id me))
         then ret NotAuthorized
         else
           Application_save
             (_id application,
              match status with
              | Some st => Application.set_status st (fields application)
              | None => Application.unset_status (fields application)
              end) ;;
           ret (Json 200 (JSuccess true None))
     end)
    (λ _, ret (Json 500 (JSuccess false (Some "Error updating status")))).

(** The schema defaults fill [status] and [appliedDate]. *)
Definition studentApply (now : Z) (jobId : ObjectId)
    (coverLetter : option string) : M Response :=
  try_catch
    (found ← Job_findById jobId ;
     match found with
     | None => ret (Json 404 (JSuccess false (Some "Job not found")))
     | Some job =>
         me ← the_session_user ;
         existing ← Application_findOne (by_student_and_job (_id me) jobId) ;
         match existing with
         | Some _ => ret (Json 400 (JSuccess false (Some "Already applied")))
         | None =>
             id ← new_ObjectId ;
             Application_save
               (id, Application.mk (_id me) jobId (Job.companyId (fields job))
                      (Some "pending") now
                      (or_default (User.resume (fields me)) "")
                      (Some (or_default coverLetter ""))
                      None None None None None) ;;
             ret (Json 200 (JSuccess true (Some "Applied successfully")))
         end
     end)
    (λ _, ret (Json 500 (JSuccess false (Some "Error applying")))).

(** ** Admin routes *)

(** The filter [{ studentId }]. *)
Definition by_student (studentId : ObjectId) (a : Doc Application.t) : bool :=
  bool_decide (Application.studentId (fields a) = studentId).

(** The filter [{ jobId: { $in: jobIds } }]. *)
Definition by_job_in (jobIds : list ObjectId) (a : Doc Application.t) : bool :=
  bool_decide (Application.jobId (fields a) ∈ jobIds).

Section AdminUsers.
(** The rendering of an [ObjectId] as a text, and the cast of a text to
    an [ObjectId] that a query makes: [None] when the text is not the
    spelling of an id, and the query throws. *)
Variable ObjectId_toString : ObjectId → string.
Variable ObjectId_cast : string → option ObjectId.

(** A query that takes the text [t] where the schema has an [ObjectId]. *)
Definition with_ObjectId {A} (t : string) (query : ObjectId → M A) : M A :=
  match ObjectId_cast t with
  | Some id => query id
  | None => throw CastError
  end.

(** DELETE /admin/users/:id; [userId] is [req.params.id], a text, and
    [query_role] is [req.query.role]. *)
Definition admin_delete_user (userId : string) (query_role : option string)
  : M Response :=
  try_catch
    (me ← the_session_user ;
     if bool_decide (userId = ObjectId_toString (_id me))
     then ret (Json 400 (JError "You cannot delete your own account"))
     else
       (if bool_decide (query_role = Some "student") then
          with_ObjectId userId (λ id, Application_deleteMany (by_student id))
        else if bool_decide (query_role = Some "company") then
          found ← with_ObjectId userId (λ id, Job_find (by_company id)) ;
          let jobIds := _id <$> found in
          Application_deleteMany (by_job_in jobIds) ;;
          with_ObjectId userId (λ id, Job_deleteMany (by_company id))
        else ret tt) ;;
       with_ObjectId userId User_findByIdAndDelete ;;
       ret (Json 200 (JMessage "User deleted successfully")))
    (λ _, ret (Json 500 (JError "Failed to delete user"))).
End AdminUsers.

(** DELETE /admin/jobs/:id *)
Definition admin_delete_job (jobId : ObjectId) : M Response :=
  try_catch
    (Application_deleteMany (by_job jobId) ;;
     Job_findByIdAndDelete jobId ;;
     ret (Json 200 (JMessage "Job deleted successfully")))
    (λ _, ret (Json 500 (JError "Failed to delete job"))).

(** ** The routers: every route of a router runs behind its gate *)

Definition student_router (handler : M Response) : M Response :=
  guarded isStudent handler.
Definition company_router (handler : M Response) : M Response :=
  guarded isCompany handler.
Definition admin_router (handler : M Response) : M Response :=
  guarded isAdmin handler.

(** The gates that admit one role: the three of roleMiddleware.js, and
    [requireRole]. *)
Inductive role_gate : M Gate → string → Prop :=
| role_gate_isAdmin : role_gate isAdmin "admin"
| role_gate_isCompany : role_gate isCompany "company"
| role_gate_isStudent : role_gate isStudent "student"
| role_gate_requireRole role : role_gate (requireRole role) role.

(** ** A small portal, for the concrete runs below

    An administrator (1), two companies (2 and 3) and a student (4) with a
    resume on file; company 2 owns an active job (10) and a closed one
    (11), both with deadline 1000; the student has applied to both. *)
Module Demo.
Definition admin : Doc User.t :=
  (1%N, User.mk (Some "Root") (Some "root@campus.example") (Some "hash-root")
          "admin" None None "active").
Definition acme : Doc User.t :=
  (2%N, User.mk (Some "Acme") (Some "hr@acme.example") (Some "hash-acme")
          "company" None (Some "Acme") "active").
Definition bolt : Doc User.t :=
  (3%N, User.mk (Some "Bolt") (Some "hr@bolt.example") (Some "hash-bolt")
          "company" None (Some "Bolt") "active").
Definition sam : Doc User.t :=
  (4%N, User.mk (Some "Sam") (Some "sam@campus.example") (Some "hash-sam")
          "student" (Some "/uploads/resumes/4-1.pdf") None "active").

Definition dev_job : Job.t := Job.mk 2 "Developer" (Some 1000%Z) "active".
Definition ops_job : Job.t := Job.mk 2 "Operator" (Some 1000%Z) "closed".

Definition application_to (jobId : ObjectId) : Application.t :=
  Application.mk 4 jobId 2 (Some "pending") 100 "/uploads/resumes/4-1.pdf"
    None None None None None None.

Definition all_users : gmap N User.t :=
  <[1%N := fields admin]> (<[2%N := fields acme]>
    (<[3%N := fields bolt]> (<[4%N := fields sam]> ∅))).

Definition all_jobs : gmap N Job.t :=
  <[10%N := dev_job]> (<[11%N := ops_job]> ∅).

(** The portal before the student has applied to anything. *)
Definition fresh_portal (session : option (Doc User.t)) : State :=
  mkState all_users all_jobs ∅ session [].

(** The portal once the student has applied to both jobs. *)
Definition portal (session : option (Doc User.t)) : State :=
  mkState all_users all_jobs
    (<[20%N := application_to 10]> (<[21%N := application_to 11]> ∅))
    session [].

Definition accept_any (plain hash : string) : option bool := Some true.
Definition epoch (s : string) : JsDate := ValidDate 2000.
End Demo.

(** The three collections of a state. *)
Definition store (s : State)
  : gmap N User.t * gmap N Job.t * gmap N Application.t :=
  (users s, jobs s, applications s).

(** The application that a successful apply request stores. *)
Definition new_application (now : Z) (user : Doc User.t) (job : Doc Job.t)
  : Application.t :=
  Application.mk (_id user) (_id job) (Job.companyId (fields job))
    (Some "pending") now (or_default (User.resume (fields user)) "") None None
    None None None None.

(** ** The invariant of the application workflow *)

(** At most one application per (student, job) pair. *)
Definition unique_applications (apps : gmap N Application.t) : Prop :=
  map_Forall (λ i1 a1,
    map_Forall (λ i2 a2,
      Application.studentId a1 = Application.studentId a2 →
      Application.jobId a1 = Application.jobId a2 → i1 = i2) apps) apps.

(** The student has an application to the job on record. *)
Definition has_applied (s : State) (studentId jobId : ObjectId) : Prop :=
  ∃ i a, applications s !! i = Some a
         ∧ Application.studentId a = studentId
         ∧ Application.jobId a = jobId.

(** The answer of the apply handler to a student who has already applied
    to the job: that of the first guard, in the handler's order, that stops
    the request. *)
Definition second_apply_response (s : State) (now : Z) (user : Doc User.t)
    (jobId : ObjectId) : Response :=
  if negb (truthy (User.resume (fields user))) then ResumeRequired
  else match jobs s !! jobId with
       | None => JobUnavailable
       | Some job =>
           if negb (bool_decide (Job.status job = "active"))
           then JobUnavailable
           else if deadline_passed now job then DeadlinePassed
           else DuplicateApplication
       end.

#[global] Instance unique_applications_dec apps :
  Decision (unique_applications apps).
Proof. unfold unique_applications. apply _. Defined.

(** The four interview attributes of an application. *)
Definition interview_fields (a : Application.t)
  : option JsDate * option string * option string * option string :=
  (Application.interviewDate a, Application.interviewMode a,
   Application.interviewLocation a, Application.interviewLink a).

(** The document that the status route hands to [save]: the status in
    lower case, and the interview attributes assigned when the status came
    as "shortlisted" or "Shortlisted". *)
Definition updated_application (Date_parse : string → JsDate) (st : string)
    (form : InterviewForm) (a : Application.t) : Application.t :=
  let a1 := Application.set_status (toLowerCase st) a in
  if bool_decide (st = "shortlisted") || bool_decide (st = "Shortlisted")
  then assign_interview Date_parse form a1 else a1.

(** A handler that changes the applications only by re-saving one of them
    with its student and job, or by deleting some, keeps the invariant. *)
Definition keeps_pairs (before after : gmap N Application.t) : Prop :=
  after = before
  ∨ (∃ P, after = delete_many P before)
  ∨ ∃ i a a', before !! i = Some a
              ∧ Application.studentId a' = Application.studentId a
              ∧ Application.jobId a' = Application.jobId a
              ∧ after = <[i := a']> before.

(** ** Requests

    The requests that reach the modelled handlers, each routed as server.js
    and the routers mount it; the two controllers are handlers of their
    own. *)
Inductive Request : Type :=
| PostLogin (email password role adminKey : Field)
| PostStudentApply (jobId : ObjectId)
| PostStudentResume (resumeFile : option UploadedFile) (wants_json : bool)
| DeleteCompanyJob (jobId : ObjectId)
| PostCompanyStatus (applicationId : ObjectId) (status : option string)
    (form : InterviewForm)
| PostCompanyScheduleInterview (applicationId : ObjectId)
    (form : InterviewForm)
| DeleteAdminUser (userId : string) (query_role : option string)
| DeleteAdminJob (jobId : ObjectId)
| ControllerStudentApply (jobId : ObjectId) (coverLetter : option string)
| ControllerUpdateStatus (appId : ObjectId) (status : option string).

(** What the handlers take from their environment. *)
Record Env : Type := mkEnv {
  ADMIN_KEY : option string;
  bcrypt_compare : string → string → option bool;
  String_filter : Field → option (option string → bool);
  Date_parse : string → JsDate;
  ObjectId_toString : ObjectId → string;
  ObjectId_cast : string → option ObjectId;
  Z_toString : Z → string
}.

Definition handle (env : Env) (now : Z) (req : Request) : M Response :=
  match req with
  | PostLogin email password role adminKey =>
      loginUser (ADMIN_KEY env) (bcrypt_compare env) (String_filter env) email
        password role adminKey
  | PostStudentApply jobId =>
      student_router (student_post_jobs_apply now jobId)
  | PostStudentResume resumeFile wants_json =>
      student_router
        (student_post_profile_resume (ObjectId_toString env) (Z_toString env)
           now resumeFile wants_json)
  | DeleteCompanyJob jobId => company_router (company_delete_job jobId)
  | PostCompanyStatus applicationId status form =>
      company_router
        (company_post_application_status (Date_parse env) applicationId
           status form)
  | PostCompanyScheduleInterview applicationId form =>
      company_router
        (company_post_schedule_interview (Date_parse env) applicationId form)
  | DeleteAdminUser userId query_role =>
      admin_router
        (admin_delete_user (ObjectId_toString env) (ObjectId_cast env) userId
           query_role)
  | DeleteAdminJob jobId => admin_router (admin_delete_job jobId)
  | ControllerStudentApply jobId coverLetter =>
      studentApply now jobId coverLetter
  | ControllerUpdateStatus appId status => updateApplicationStatus appId status
  end.

(** A request arrives at some instant, with the session of its sender. *)
Record Arrival : Type := mkArrival {
  at_time : Z;
  session : option (Doc User.t);
  request : Request
}.

Definition with_session (u : option (Doc User.t)) (s : State) : State :=
  mkState (users s) (jobs s) (applications s) u (oplog s).

(** The state after a sequence of requests, handled one after the other. *)
Fixpoint serve (env : Env) (arrivals : list Arrival) (s : State) : State :=
  match arrivals with
  | [] => s
  | a :: rest =>
      serve env rest
        (handle env (at_time a) (request a) (with_session (session a) s)).2
  end.

(** * More of the portal *)

(** ** How a request may change the jobs and the applications *)

(** What no request changes in a stored application: whose it is, for
    which job, when it was made and with which resume and letter. *)
Definition application_core (a : Application.t)
  : ObjectId * ObjectId * ObjectId * Z * string * option string
    * option string :=
  (Application.studentId a, Application.jobId a, Application.companyId a,
   Application.appliedDate a, Application.resume a, Application.coverLetter a,
   Application.feedback a).

(** The ways in which the jobs and the applications of [s'] can differ
    from those of [s] after one request. *)
Inductive store_step (s s' : State) : Prop :=
| step_same :
    jobs s' = jobs s → applications s' = applications s → store_step s s'
| step_update i a a' :
    jobs s' = jobs s →
    applications s !! i = Some a →
    application_core a' = application_core a →
    Application.validate a' = true →
    applications s' = <[i := a']> (applications s) →
    store_step s s'
| step_create i a job :
    jobs s' = jobs s →
    applications s !! i = None →
    jobs s !! Application.jobId a = Some job →
    Application.companyId a = Job.companyId job →
    Application.status a = Some "pending" →
    Application.validate a = true →
    ¬ has_applied s (Application.studentId a) (Application.jobId a) →
    applications s' = <[i := a]> (applications s) →
    store_step s s'
| step_delete_job jobId :
    jobs s' = delete jobId (jobs s) →
    applications s' = delete_many (by_job jobId) (applications s) →
    store_step s s'
| step_delete_company userId :
    jobs s' = delete_many (by_company userId) (jobs s) →
    applications s'
    = delete_many (by_job_in (_id <$> find_all (by_company userId) (jobs s)))
        (applications s) →
    store_step s s'
| step_delete_student userId :
    jobs s' = jobs s →
    applications s' = delete_many (by_student userId) (applications s) →
    store_step s s'.

(** Every application refers to a stored job, and carries the company of
    that job. *)
Definition linked_applications (s : State) : Prop :=
  map_Forall (λ _ a,
    Job.companyId <$> jobs s !! Application.jobId a
    = Some (Application.companyId a)) (applications s).

#[global] Instance linked_applications_dec s :
  Decision (linked_applications s).
Proof. unfold linked_applications. apply _. Defined.

(** Every stored application passes the validation of its schema. *)
Definition valid_applications (apps : gmap N Application.t) : Prop :=
  map_Forall (λ _ a, Application.validate a = true) apps.

#[global] Instance valid_applications_dec apps :
  Decision (valid_applications apps).
Proof. unfold valid_applications. apply _. Defined.

(** An environment and a morning of requests for the small portal: the
    student applies once more to job 10, company 2 shortlists application
    20, company 3 tries to change it, the administrator deletes job 11 and
    then company 2. *)
(** The rendering of an [ObjectId], 24 hexadecimal digits in lower case,
    and the cast of a text to an [ObjectId], which takes 24 hexadecimal
    digits in either case, for the concrete runs. *)
Definition hex_digit (d : N) : ascii :=
  match d with
  | 0 => "0" | 1 => "1" | 2 => "2" | 3 => "3" | 4 => "4" | 5 => "5"
  | 6 => "6" | 7 => "7" | 8 => "8" | 9 => "9" | 10 => "a" | 11 => "b"
  | 12 => "c" | 13 => "d" | 14 => "e" | _ => "f"
  end%N%char.

Fixpoint hex_digits (width : nat) (n : N) (rest : string) : string :=
  match width with
  | O => rest
  | S w => hex_digits w (n / 16)%N (String (hex_digit (n mod 16)%N) rest)
  end.

Definition demo_ObjectId_toString (id : ObjectId) : string :=
  hex_digits 24 id "".

Definition hex_value (c : ascii) : option N :=
  let n := N_of_ascii c in
  if (48 <=? n)%N && (n <=? 57)%N then Some (n - 48)%N
  else if (97 <=? n)%N && (n <=? 102)%N then Some (n - 87)%N
  else if (65 <=? n)%N && (n <=? 70)%N then Some (n - 55)%N
  else None.

Fixpoint hex_number (t : string) (value : N) : option N :=
  match t with
  | EmptyString => Some value
  | String c rest =>
      match hex_value c with
      | Some d => hex_number rest (16 * value + d)%N
      | None => None
      end
  end.

Definition demo_ObjectId_cast (t : string) : option ObjectId :=
  if (String.length t =? 24)%nat then hex_number t 0 else None.

(** A reading of filter values that are not texts, for the concrete runs:
    [undefined] and [null] select the documents without a value,
    [{ $ne: text }] those whose value is not the text, and nothing else
    can be cast. *)
Definition demo_String_filter (v : Field) : option (option string → bool) :=
  match v with
  | None | Some VNull => Some (λ stored, bool_decide (stored = None))
  | Some (VObject [(operator, VText s)]) =>
      if bool_decide (operator = "$ne")
      then Some (λ stored, negb (bool_decide (stored = Some s)))
      else None
  | _ => None
  end.

Definition demo_env : Env :=
  mkEnv (Some "s3cret") Demo.accept_any demo_String_filter Demo.epoch
    demo_ObjectId_toString demo_ObjectId_cast (λ _, "0").

Definition demo_morning : list Arrival :=
  [ mkArrival 510 (Some Demo.sam) (PostStudentApply 10);
    mkArrival 520 (Some Demo.acme)
      (PostCompanyStatus 20 (Some "Shortlisted")
         (mkInterviewForm (Some "2030-01-01") (Some "Online") None None));
    mkArrival 530 (Some Demo.bolt)
      (PostCompanyStatus 20 (Some "hired")
         (mkInterviewForm None None None None));
    mkArrival 540 (Some Demo.admin) (DeleteAdminJob 11);
    mkArrival 550 (Some Demo.admin)
      (DeleteAdminUser "000000000000000000000002" (Some "company")) ].


(** The reference under which an uploaded resume is stored. *)
Definition resume_path (ObjectId_toString : ObjectId → string)
    (Z_toString : Z → string) (userId : ObjectId) (now : Z) : string :=
  "/uploads/resumes/"
  ++ (ObjectId_toString userId ++ "-" ++ Z_toString now ++ ".pdf").

(** ** Accounts and passwords (controllers/authController.js and the
    user routes of the admin router)

    [User.findById] and a user's [save] are not among the operations that
    the log names: the handlers below leave the log as it is. *)

(** enum: ["student", "company", "admin"] *)
Definition User_role_enum : list string := ["student"; "company"; "admin"].

(** The schema validation that [save] runs on a user: [role] within its
    enum. *)
Definition User_validate (u : User.t) : bool :=
  bool_decide (User.role u ∈ User_role_enum).

Definition User_set_password (p : string) (u : User.t) : User.t :=
  User.mk (User.name u) (User.email u) (Some p) (User.role u) (User.resume u)
    (User.companyName u) (User.status u).

Definition User_set_status (st : string) (u : User.t) : User.t :=
  User.mk (User.name u) (User.email u) (User.password u) (User.role u)
    (User.resume u) (User.companyName u) st.

Definition User_findById (id : ObjectId) : M (option (Doc User.t)) :=
  s ← get ; ret (find_by_id id (users s)).

(** The [_id] that [new User(...)] draws: one that no stored user
    carries. *)
Definition new_User_ObjectId : M ObjectId :=
  s ← get ; ret (fresh (dom (users s))).

(** The users that the unique index on [email] sets against a new user:
    those with the same email, a missing email being a value like
    another. *)
Definition same_email (u : User.t) (stored : Doc User.t) : bool :=
  bool_decide (User.email (fields stored) = User.email u).

(** A form field that is truthy, with its value. *)
Definition present (field : option string) : option string :=
  match field with
  | Some v => if bool_decide (v = "") then None else Some v
  | None => None
  end.

(** An answer of [changePassword]: one of the responses above, or
    [res.json({ success: text })]. *)
Inductive PasswordReply : Type :=
| Reply (r : Response)
| JsonSuccessText (success : string).

Section Accounts.
(** [bcrypt.hash(plain, 10)] as it turns out at this request,
    [bcrypt.compare(plain, hash)], the reading of filter values that are
    not texts, and [err.message]. *)
Variable bcrypt_hash : string → string.
Variable bcrypt_compare : string → string → option bool.
Variable String_filter : Field → option (option string → bool).
Variable Exn_message : Exn → option string.
(** What [isModified] answers, on a new document, for a path that the
    constructor was handed [undefined] for. *)
Variable isModified_undefined : bool.

(** The pre-save hook: it puts the hash in the place of the password
    when the password has been modified; bcryptjs rejects what is not a
    text. *)
Definition pre_save (password_modified : bool) (u : User.t) : M User.t :=
  if negb password_modified then ret u
  else match User.password u with
       | Some plain => ret (User_set_password (bcrypt_hash plain) u)
       | None => throw IllegalArguments
       end.

(** [user.save()]: validation, then the pre-save hook, then the write
    under the user's [_id]; the insertion of a new user is refused by the
    unique index on [email] when a stored user has the same email. *)
Definition User_save (isNew password_modified : bool) (u : Doc User.t)
  : M unit :=
  if User_validate (fields u) then
    stored ← pre_save password_modified (fields u) ;
    s ← get ;
    if isNew && bool_decide (is_Some (find_one (same_email stored) (users s)))
    then throw DuplicateKey
    else put_users (<[_id u := stored]> (users s))
  else throw ValidationError.

(** POST /auth/change-password. Assigning the password it already has
    does not mark a document's password as modified. *)
Definition changePassword
    (currentPassword newPassword confirmPassword : option string)
  : M PasswordReply :=
  try_catch
    (s ← get ;
     match session_user s with
     | None => ret (Reply (Json 401 (JError "Not logged in")))
     | Some me =>
         match present currentPassword, present newPassword,
               present confirmPassword with
         | Some current, Some new, Some confirm =>
             if negb (bool_decide (new = confirm))
             then ret (Reply (Json 400 (JError "New passwords do not match")))
             else
               found ← User_findById (_id me) ;
               match found with
               | None => ret (Reply (Json 404 (JError "User not found")))
               | Some user =>
                   isCurrentPasswordValid ←
                     comparePassword bcrypt_compare (Some (VText current))
                       (fields user) ;
                   if negb isCurrentPasswordValid
                   then ret (Reply (Json 400
                                      (JError "Current password is incorrect")))
                   else
                     User_save false
                       (negb (bool_decide
                                (User.password (fields user) = Some new)))
                       (_id user, User_set_password new (fields user)) ;;
                     ret (JsonSuccessText "Password changed successfully")
               end
         | _, _, _ =>
             ret (Reply (Json 400 (JError "All fields are required")))
         end
     end)
    (λ _, ret (Reply (Json 500 (JError "Error changing password")))).

(** The filter [{ email }]. *)
Definition by_email (email : option string) : option (Doc User.t → bool) :=
  on_email ← filter_on String_filter (text email) ;
  Some (λ u, on_email (User.email (fields u))).

(** [new User({ name, email, role, password, status: 'active' })]: a
    field that the form does not carry leaves its path unset, but for
    [role], which keeps its default. *)
Definition new_User (name email role password : option string) : User.t :=
  User.mk name email password (default "student" role) None None "active".

(** POST /admin/users/add *)
Definition admin_post_users_add (name email role password : option string)
  : M Response :=
  try_catch
    (match by_email email with
     | None => throw CastError
     | Some filter =>
         existingUser ← User_findOne filter ;
         match existingUser with
         | Some _ =>
             ret (Render 200 "pages/admin/dashboard"
                    (Some "User with this email already exists"))
         | None =>
             id ← new_User_ObjectId ;
             User_save true
               (match password with
                | Some _ => true
                | None => isModified_undefined
                end)
               (id, new_User name email role password) ;;
             ret (Redirect "/admin/dashboard?success=User+created+successfully")
         end
     end)
    (λ err, ret (Render 200 "pages/admin/dashboard"
                   (Some ("Failed to create user: "
                          ++ or_default (Exn_message err) "Unknown error")))).

(** POST /admin/users/toggle-status/:id *)
Definition admin_post_users_toggle_status (id : ObjectId) : M Response :=
  try_catch
    (found ← User_findById id ;
     match found with
     | None => ret (Render 404 "pages/error" (Some "User not found"))
     | Some u =>
         User_save false false
           (_id u,
            User_set_status
              (if bool_decide (User.status (fields u) = "active")
               then "inactive" else "active")
              (fields u)) ;;
         ret (Redirect "/admin/users")
     end)
    (λ _, ret (Render 200 "pages/error" (Some "Error updating status"))).
End Accounts.

(** The answer of the add-user route to a failure of [save]. *)
Definition creation_failed (Exn_message : Exn → option string) (e : Exn)
  : Response :=
  Render 200 "pages/admin/dashboard"
    (Some ("Failed to create user: "
           ++ or_default (Exn_message e) "Unknown error")).

(** No two stored users share an email. *)
Definition unique_emails (us : gmap N User.t) : Prop :=
  map_Forall (λ i u,
    map_Forall (λ j v, User.email u = User.email v → i = j) us) us.

#[global] Instance unique_emails_dec us : Decision (unique_emails us).
Proof. unfold unique_emails. apply _. Defined.

(** ** What the student pages show (the job routes of the student
    router) *)

(** What a page of the student router is rendered with. *)
Inductive StudentPage : Type :=
| JobsPage (jobs : list (Doc Job.t))
| JobDetailsPage (job : Doc Job.t) (hasApplied : bool)
| ErrorPage (error : string).

(** The filter [{ status: 'active', deadline: { $gt: new Date() } }]. *)
Definition visible (now : Z) (j : Doc Job.t) : bool :=
  bool_decide (Job.status (fields j) = "active")
  && match Job.deadline (fields j) with
     | Some d => bool_decide (now < d)%Z
     | None => false
     end.

(** GET /student/jobs: the jobs of the listing, the order aside. *)
Definition student_get_jobs (now : Z) : M StudentPage :=
  try_catch
    (found ← Job_find (visible now) ; ret (JobsPage found))
    (λ _, ret (ErrorPage "Error loading jobs")).

(** GET /student/jobs/:jobId *)
Definition student_get_job_details (jobId : ObjectId) : M StudentPage :=
  try_catch
    (found ← Job_findById jobId ;
     match found with
     | None => ret (ErrorPage "Job not found or no longer active")
     | Some job =>
         if negb (bool_decide (Job.status (fields job) = "active"))
         then ret (ErrorPage "Job not found or no longer active")
         else
           me ← the_session_user ;
           hasApplied ←
             Application_findOne (by_student_and_job (_id me) (_id job)) ;
           ret (JobDetailsPage job
                  match hasApplied with Some _ => true | None => false end)
     end)
    (λ _, ret (ErrorPage "Error loading job details")).

(** A hash function and its comparison, for the concrete runs. *)
Definition demo_hash (plain : string) : string := "hash:" ++ plain.
Definition demo_compare (plain hash : string) : option bool :=
  Some (bool_decide (hash = demo_hash plain)).

(** The small portal with the student's password stored as the hash of
    "old". *)
Definition demo_accounts (session : option (Doc User.t)) : State :=
  mkState
    (<[4%N := User_set_password (demo_hash "old") (fields Demo.sam)]>
       Demo.all_users)
    Demo.all_jobs ∅ session [].

(** The small portal with one more administrator, whose id has letters
    among its digits. *)
Definition dean : Doc User.t :=
  (173%N, User.mk (Some "Dean") (Some "dean@campus.example")
            (Some "hash-dean") "admin" None None "active").

Definition campus (session : option (Doc User.t)) : State :=
  mkState (<[173%N := fields dean]> Demo.all_users) Demo.all_jobs
    (applications (Demo.portal None)) session [].

(** * Properties *)

(** ** Collections *)

Section Collections.
Context {A : Type}.
Implicit Types (m : gmap N A) (P : Doc A → bool) (d : Doc A).

Lemma lookup_matching P m i x :
  matching P m !! i = Some x ↔ m !! i = Some x ∧ P (i, x) = true.
Proof. unfold matching. by rewrite map_lookup_filter_Some. Qed.

Lemma lookup_delete_many P m i x :
  delete_many P m !! i = Some x ↔ m !! i = Some x ∧ P (i, x) = false.
Proof. unfold delete_many. by rewrite map_lookup_filter_Some. Qed.

Lemma lookup_delete_many_None P m i :
  delete_many P m !! i = None ↔ ∀ x, m !! i = Some x → P (i, x) = true.
Proof.
  unfold delete_many. rewrite map_lookup_filter_None. split.
  - intros [Hi | Hi] x Hx; [congruence |].
    specialize (Hi x Hx). simpl in Hi. by destruct (P (i, x)).
  - intros H. destruct (m !! i) as [x |] eqn:Hx; [right | by left].
    intros y [= <-]. simpl. rewrite (H x eq_refl). discriminate.
Qed.

Lemma find_one_Some P m d :
  find_one P m = Some d → m !! _id d = Some (fields d) ∧ P d = true.
Proof.
  unfold find_one. intros H. apply head_Some_elem_of in H.
  destruct d as [i x]. apply elem_of_map_to_list in H.
  by apply lookup_matching in H.
Qed.

Lemma find_one_None P m :
  find_one P m = None ↔ ∀ i x, m !! i = Some x → P (i, x) = false.
Proof.
  unfold find_one. rewrite head_None, map_to_list_empty_iff, map_empty.
  split.
  - intros H i x Hx. specialize (H i).
    destruct (P (i, x)) eqn:HP; [| done].
    assert (matching P m !! i = Some x) by by apply lookup_matching.
    congruence.
  - intros H i. destruct (matching P m !! i) as [x |] eqn:Hx; [| done].
    apply lookup_matching in Hx as [Hx HP]. rewrite (H i x Hx) in HP.
    discriminate.
Qed.

Lemma find_one_is_Some P m i x :
  m !! i = Some x → P (i, x) = true → is_Some (find_one P m).
Proof.
  intros Hx HP. destruct (find_one P m) eqn:Hf; [by eexists |].
  rewrite find_one_None in Hf. rewrite (Hf i x Hx) in HP. discriminate.
Qed.

Lemma elem_of_find_all P m d :
  d ∈ find_all P m ↔ m !! _id d = Some (fields d) ∧ P d = true.
Proof.
  unfold find_all. destruct d as [i x].
  by rewrite elem_of_map_to_list, lookup_matching.
Qed.

Lemma elem_of_find_all_ids P m i :
  i ∈ _id <$> find_all P m ↔ ∃ x, m !! i = Some x ∧ P (i, x) = true.
Proof.
  rewrite list_elem_of_fmap. split.
  - intros [[j x] [-> Hd]]. apply elem_of_find_all in Hd. by exists x.
  - intros [x Hx]. exists (i, x). split; [done |]. by apply elem_of_find_all.
Qed.

Lemma find_by_id_Some m i d :
find_by_id i m = Some d ↔ _id d = i ∧ m !! i = Some (fields d).
Proof.
unfold find_by_id, _id, fields. destruct d as [j x]. simpl.
destruct (m !! i) as [y |]; simpl; split.
- by intros [= <- <-].
- by intros [<- [= <-]].
- done.
- by intros [_ ?].
Qed.
End Collections.

(** ** Running a handler *)

Ltac unfold_monad :=
  unfold mbind, mret, M_bind, M_ret, bind, ret, get, throw, try_catch, log,
    put_users, put_jobs, put_applications, set_session_user in *.

Ltac unfold_statics :=
  unfold the_session_user, new_ObjectId,
    User_findOne, User_findByIdAndDelete, User_findByIdAndUpdate_resume,
    Job_findById, Job_findOne, Job_find, Job_deleteMany, Job_findByIdAndDelete,
    Application_findById_populate_jobId,
    Application_findById, Application_findOne, Application_deleteMany,
    Application_save in *.

Ltac run := unfold_statics; unfold_monad; simpl.

(** ** Authorization gate *)

Lemma guarded_Respond gate handler s r :
  gate s = (Ok (Respond r), s) → guarded gate handler s = (Ok r, s).
Proof. intros H. unfold guarded. unfold_monad. by rewrite H. Qed.

Lemma guarded_Next gate handler s :
  gate s = (Ok Next, s) → guarded gate handler s = handler s.
Proof. intros H. unfold guarded. unfold_monad. by rewrite H. Qed.

Lemma role_gate_decision gate role s :
  role_gate gate role →
  if bool_decide (session_role s = Some role)
  then gate s = (Ok Next, s)
  else ∃ r, status_code r = 403 ∧ gate s = (Ok (Respond r), s).
Proof.
  intros Hg. destruct Hg; unfold isAdmin, isCompany, isStudent, requireRole;
    unfold_monad; case_bool_decide; try done;
    (eexists; split; [| reflexivity]; reflexivity).
Qed.

Lemma checkRole_decision roles s :
  checkRole roles s =
  (Ok match session_user s with
      | None => Respond (Redirect "/auth/login")
      | Some u =>
          if bool_decide (User.role (fields u) ∈ roles) then Next
          else Respond (Render 403 "pages/error"
                          (Some "Access denied. Insufficient privileges."))
      end, s).
Proof.
  unfold checkRole. unfold_monad. destruct (session_user s); [| done].
  by case_bool_decide.
Qed.

(** C8. Behind [checkRole roles] a request meets exactly one of three
    outcomes: redirect to the login page when there is no session user, a
    403 when the session user's role is not among [roles], the handler
    otherwise. Behind [isAdmin], [isCompany], [isStudent] and
    [requireRole role] it meets exactly one of two: the handler when the
    session user has the role, a 403 otherwise, also when there is no
    session user. Behind [isAuthenticated] it meets the handler when there
    is a session user and the redirect otherwise. On a redirect or a 403
    the state is the one the request found, with no store operation
    logged. *)
Theorem gate_outcomes (s : State) (handler : M Response) :
  (∀ roles,
     guarded (checkRole roles) handler s =
     match session_user s with
     | None => (Ok (Redirect "/auth/login"), s)
     | Some u =>
         if bool_decide (User.role (fields u) ∈ roles) then handler s
         else (Ok (Render 403 "pages/error"
                     (Some "Access denied. Insufficient privileges.")), s)
     end)
  ∧ (∀ gate role, role_gate gate role →
       if bool_decide (session_role s = Some role)
       then guarded gate handler s = handler s
       else ∃ r, status_code r = 403 ∧ guarded gate handler s = (Ok r, s))
  ∧ guarded isAuthenticated handler s =
    match session_user s with
    | None => (Ok (Redirect "/auth/login"), s)
    | Some _ => handler s
    end.
Proof.
  split; [| split].
  - intros roles. pose proof (checkRole_decision roles s) as H.
    destruct (session_user s) as [u |].
    + case_bool_decide.
      * by apply guarded_Next.
      * by apply guarded_Respond.
    + by apply guarded_Respond.
  - intros gate role Hg. pose proof (role_gate_decision gate role s Hg) as H.
    case_bool_decide.
    + by apply guarded_Next.
    + destruct H as (r & Hr & H). exists r. split; [done |].
      by apply guarded_Respond.
  - unfold guarded, isAuthenticated. unfold_monad.
    by destruct (session_user s).
Qed.

Lemma gate_outcomes_witness :
  let handler := student_post_jobs_apply 500 10 in
  guarded isStudent handler (Demo.portal (Some Demo.sam))
  = handler (Demo.portal (Some Demo.sam))
  ∧ ∃ r, status_code r = 403
         ∧ guarded isStudent handler (Demo.portal (Some Demo.acme))
           = (Ok r, Demo.portal (Some Demo.acme)).
Proof.
  intros handler. split.
  - destruct (gate_outcomes (Demo.portal (Some Demo.sam)) handler)
      as (_ & Hrole & _).
    apply (Hrole isStudent "student" role_gate_isStudent).
  - destruct (gate_outcomes (Demo.portal (Some Demo.acme)) handler)
      as (_ & Hrole & _).
    apply (Hrole isStudent "student" role_gate_isStudent).
Defined.

(** The student routes run behind [isStudent]. A request without a session
    user, here to the apply route, is answered by the gate with a 403:
    neither a redirect to the login page nor a 401. The apply handler's own
    401 is what it would answer if it were reached. *)
Lemma student_gate_without_session :
  let s := Demo.portal None in
  let denied := Render 403 "pages/error"
                  (Some "Access denied. Student account required.") in
  session_user s = None
  ∧ student_router (student_post_jobs_apply 500 10) s = (Ok denied, s)
  ∧ denied ≠ Redirect "/auth/login"
  ∧ status_code denied ≠ 401
  ∧ student_post_jobs_apply 500 10 s
    = (Ok (Json 401 (JError "Please login to apply")), s).
Proof. by vm_compute. Qed.

(** ** Login *)

Lemma strict_eq_env_true (v : Field) (e : option string) :
  strict_eq_env v e = true ↔ v = text e.
Proof.
  unfold strict_eq_env, text.
  destruct v as [[| b | m x | k | items | members] |], e as [k' |]; simpl;
    try (split; intros; congruence).
  rewrite bool_decide_eq_true. split; [by intros -> | by intros [= ->]].
Qed.

(** C6. A login with role admin and an admin key other than the
    configured one is answered with the invalid-key failure, whatever the
    email and the password, and the state is the one the request found: no
    user lookup is logged and the session is not set. *)
Theorem admin_login_wrong_key (ADMIN_KEY : option string)
    (bcrypt_compare : string → string → option bool)
    (String_filter : Field → option (option string → bool)) (s : State)
    (email password adminKey : Field) :
  adminKey ≠ text ADMIN_KEY →
  loginUser ADMIN_KEY bcrypt_compare String_filter email password
    (Some (VText "admin")) adminKey s
  = (Ok InvalidAdminKey, s).
Proof.
  intros Hkey. unfold loginUser. unfold_monad. simpl.
  destruct (strict_eq_env adminKey ADMIN_KEY) eqn:Hsame.
  - by apply strict_eq_env_true in Hsame.
  - simpl. by rewrite orb_true_r.
Qed.

Lemma admin_login_wrong_key_witness :
  loginUser (Some "s3cret") Demo.accept_any demo_String_filter
    (Some (VText "root@campus.example")) (Some (VText "any"))
    (Some (VText "admin")) (Some (VText "guess")) (Demo.portal None)
  = (Ok InvalidAdminKey, Demo.portal None).
Proof. by apply admin_login_wrong_key. Defined.

(** With the configured key the same request goes on to the user lookup
    and signs the administrator in. *)
Lemma admin_login_right_key :
  let r := loginUser (Some "s3cret") Demo.accept_any demo_String_filter
             (Some (VText "root@campus.example")) (Some (VText "any"))
             (Some (VText "admin")) (Some (VText "s3cret"))
             (Demo.portal None) in
  r.1 = Ok (Redirect "/admin/dashboard")
  ∧ session_user r.2 = Some Demo.admin
  ∧ oplog r.2 = [User_findOne_op].
Proof. vm_compute. done. Qed.

(** ** Deleting users and jobs *)

(** The guard of the deletion compares texts: an administrator's request
    whose parameter is, letter for letter, the rendering of the session
    user's id is answered with a 400, and the state is the one the request
    found. *)
Lemma admin_delete_own_rendering (ObjectId_toString : ObjectId → string)
    (ObjectId_cast : string → option ObjectId) (s : State) (me : Doc User.t)
    (query_role : option string) :
  session_user s = Some me →
  User.role (fields me) = "admin" →
  admin_router
    (admin_delete_user ObjectId_toString ObjectId_cast
       (ObjectId_toString (_id me)) query_role) s
  = (Ok (Json 400 (JError "You cannot delete your own account")), s).
Proof.
  intros Hme Hrole. unfold admin_router.
  rewrite guarded_Next.
  - unfold admin_delete_user. run. rewrite Hme.
    by rewrite bool_decide_eq_true_2.
  - unfold isAdmin, session_role. unfold_monad. rewrite Hme. simpl.
    rewrite Hrole. done.
Qed.

(** C9. The administrator Dean, whose id is rendered 0000000000000000000000ad,
    asks for the deletion of the user 0000000000000000000000AD. The guard
    compares the two texts, finds them different and lets the request
    through; the query casts the parameter to Dean's own id; the answer is
    the success message and Dean's account is gone. With the parameter in
    lower case the same request is answered with the 400. *)
Lemma admin_deletes_own_account :
  let s := campus (Some dean) in
  let delete userId :=
    admin_router
      (admin_delete_user demo_ObjectId_toString demo_ObjectId_cast userId
         None) s in
  demo_ObjectId_toString (_id dean) = "0000000000000000000000ad"
  ∧ demo_ObjectId_cast "0000000000000000000000AD" = Some (_id dean)
  ∧ users s !! _id dean = Some (fields dean)
  ∧ delete "0000000000000000000000ad"
    = (Ok (Json 400 (JError "You cannot delete your own account")), s)
  ∧ (delete "0000000000000000000000AD").1
    = Ok (Json 200 (JMessage "User deleted successfully"))
  ∧ users (delete "0000000000000000000000AD").2 !! _id dean = None.
Proof. by vm_compute. Qed.

(** ** Applying to a job *)

Lemma truthy_Some (o : option string) :
  truthy o = true ↔ ∃ r, o = Some r ∧ r ≠ "".
Proof.
  unfold truthy. destruct o as [r |].
  - rewrite negb_true_iff, bool_decide_eq_false. split.
    + intros Hr. by exists r.
    + by intros (r' & [= <-] & Hr).
  - split; [done |]. by intros (r & Hr & _).
Qed.

Lemma validate_new_application now user job :
  truthy (User.resume (fields user)) = true →
  Application.validate (new_application now user job) = true.
Proof.
  intros (r & Hr & Hne)%truthy_Some. unfold Application.validate. simpl.
  rewrite Hr. simpl. rewrite (bool_decide_eq_false_2 _ Hne). simpl.
  by rewrite (bool_decide_eq_false_2 _ Hne).
Qed.

(** What an apply request does to the state: nothing, or else every
    guard of the handler has let it through and one application has been
    stored under an unused [_id]. *)
Lemma apply_inversion (s : State) (now : Z) (jobId : ObjectId) :
  let r := student_post_jobs_apply now jobId s in
  users r.2 = users s ∧ jobs r.2 = jobs s
  ∧ session_user r.2 = session_user s
  ∧ ((applications r.2 = applications s
      ∧ r.1 ≠ Ok (Json 200 (JMessage "Application submitted successfully")))
     ∨ ∃ user job,
         session_user s = Some user
         ∧ truthy (User.resume (fields user)) = true
         ∧ jobs s !! jobId = Some job
         ∧ Job.status job = "active"
         ∧ deadline_passed now job = false
         ∧ find_one (by_student_and_job (_id user) jobId) (applications s)
           = None
         ∧ r.1 = Ok (Json 200 (JMessage "Application submitted successfully"))
         ∧ applications r.2
           = <[fresh (dom (applications s))
               := new_application now user (jobId, job)]> (applications s)).
Proof.
  intros r. assert (Hr : r = student_post_jobs_apply now jobId s) by done.
  clearbody r. revert Hr. unfold student_post_jobs_apply. run.
  destruct (session_user s) as [user |] eqn:Hsession; simpl;
    [| intros ->; by auto 10].
  destruct (truthy (User.resume (fields user))) eqn:Hresume; simpl;
    [| intros ->; by auto 10].
  unfold find_by_id.
  destruct (jobs s !! jobId) as [job |] eqn:Hjob; simpl;
    [| intros ->; by auto 10].
  case_bool_decide as Hactive; simpl; [| intros ->; by auto 10].
  destruct (deadline_passed now job) eqn:Hdeadline; simpl;
    [intros ->; by auto 10 |].
  destruct (find_one _ (applications s)) eqn:Hfind; simpl;
    [intros ->; by auto 10 |].
  pose proof (validate_new_application now user (jobId, job) Hresume) as Hv.
  unfold new_application in Hv. simpl in Hv. rewrite Hv. simpl.
  intros ->. simpl. do 3 (split; [done |]). right. exists user, job.
  by auto 10.
Qed.

Lemma unique_applications_insert (apps : gmap N Application.t) i a :
  apps !! i = None →
  (∀ j b, apps !! j = Some b →
          ¬ (Application.studentId b = Application.studentId a
             ∧ Application.jobId b = Application.jobId a)) →
  unique_applications apps → unique_applications (<[i := a]> apps).
Proof.
  intros Hi Hnew Huniq i1 a1 H1 i2 a2 H2 Hs Hj.
  rewrite lookup_insert_Some in H1. rewrite lookup_insert_Some in H2.
  destruct H1 as [[<- <-] | [Hne1 H1]], H2 as [[<- <-] | [Hne2 H2]].
  - done.
  - destruct (Hnew i2 a2 H2). by split.
  - destruct (Hnew i1 a1 H1). by split.
  - by apply (Huniq i1 a1 H1 i2 a2 H2).
Qed.

Lemma lookup_fresh_dom {A} (m : gmap N A) : m !! fresh (dom m) = None.
Proof. apply not_elem_of_dom, is_fresh. Qed.

Lemma find_one_by_student_and_job s studentId jobId :
  find_one (by_student_and_job studentId jobId) (applications s) = None
  ↔ ¬ has_applied s studentId jobId.
Proof.
  rewrite find_one_None. unfold has_applied, by_student_and_job. simpl.
  split.
  - intros H (i & a & Ha & Hs & Hj). specialize (H i a Ha).
    by rewrite !bool_decide_eq_true_2 in H.
  - intros H i a Ha. apply andb_false_iff.
    rewrite !bool_decide_eq_false.
    destruct (decide (Application.studentId a = studentId)) as [Hs |];
      [| by left].
    right. intros Hj. apply H. by exists i, a.
Qed.

(** An apply request keeps the invariant, whoever sends it and whatever
    the state. *)
Lemma apply_preserves_unique (s : State) (now : Z) (jobId : ObjectId) :
  unique_applications (applications s) →
  unique_applications (applications (student_post_jobs_apply now jobId s).2).
Proof.
  intros Huniq.
  destruct (apply_inversion s now jobId) as (_ & _ & _ & [[-> _] | H]);
    [done |].
  destruct H as (user & job & _ & _ & _ & _ & _ & Hnone & _ & ->).
  apply unique_applications_insert; [apply lookup_fresh_dom | | done].
  intros j b Hb [Hs Hj]. apply find_one_by_student_and_job in Hnone.
  apply Hnone. by exists j, b.
Qed.

(** C1. Apply keeps at most one application per (student,
    job) pair. When the student of the session already has an application
    to the job, a further apply request stores nothing and is answered
    with a failure: the duplicate-application failure when the student has
    a resume on file, the job is active and its deadline has not passed,
    and otherwise the failure of the guard that stops the request
    earlier. *)
Theorem at_most_one_application (s : State) (now : Z) (jobId : ObjectId) :
  unique_applications (applications s) →
  let r := student_post_jobs_apply now jobId s in
  unique_applications (applications r.2)
  ∧ ∀ user, session_user s = Some user →
            has_applied s (_id user) jobId →
            store r.2 = store s
            ∧ r.1 = Ok (second_apply_response s now user jobId).
Proof.
  intros Huniq r. split; [by apply apply_preserves_unique |].
  intros user Hsession Happlied. subst r.
  destruct (find_one (by_student_and_job (_id user) jobId) (applications s))
    as [existing |] eqn:Hfind;
    [| by apply find_one_by_student_and_job in Hfind].
  unfold second_apply_response, student_post_jobs_apply, store. run.
  rewrite Hsession. simpl.
  destruct (truthy (User.resume (fields user))); simpl; [| done].
  unfold find_by_id. destruct (jobs s !! jobId) as [job |]; simpl; [| done].
  case_bool_decide; simpl; [| done].
  destruct (deadline_passed now job); simpl; [done |].
  by rewrite Hfind.
Qed.

Lemma at_most_one_application_witness :
  let s := Demo.portal (Some Demo.sam) in
  let r := student_post_jobs_apply 500 10 s in
  unique_applications (applications s)
  ∧ unique_applications (applications r.2)
  ∧ store r.2 = store s
  ∧ r.1 = Ok DuplicateApplication.
Proof.
  intros s r.
  assert (Huniq : unique_applications (applications s))
    by (refine (bool_decide_unpack _ _); vm_compute; exact I).
  destruct (at_most_one_application s 500 10 Huniq) as [Hinv Hsecond].
  split; [exact Huniq |]. split; [exact Hinv |].
  apply (Hsecond Demo.sam); [reflexivity |].
  exists 20%N, (Demo.application_to 10). by vm_compute.
Defined.

(** The student has applied to job 11, which has since been closed: a
    further apply request is answered with the job-unavailable failure,
    not with the duplicate-application one. *)
Lemma second_apply_to_closed_job :
  let s := Demo.portal (Some Demo.sam) in
  has_applied s 4 11
  ∧ (student_post_jobs_apply 500 11 s).1 = Ok JobUnavailable
  ∧ (student_post_jobs_apply 500 11 s).1 ≠ Ok DuplicateApplication.
Proof.
  intros s. split; [| split].
  - exists 21%N, (Demo.application_to 11). by vm_compute.
  - by vm_compute.
  - by vm_compute.
Qed.

(** The controller [studentApply] checks for a duplicate right after it
    has found the job: a second application to a stored job is answered
    with its already-applied failure, and nothing is stored. *)
Lemma studentApply_second (s : State) (now : Z) (jobId : ObjectId)
    (coverLetter : option string) (user : Doc User.t) (job : Job.t) :
  session_user s = Some user →
  jobs s !! jobId = Some job →
  has_applied s (_id user) jobId →
  let r := studentApply now jobId coverLetter s in
  store r.2 = store s
  ∧ r.1 = Ok (Json 400 (JSuccess false (Some "Already applied"))).
Proof.
  intros Hsession Hjob Happlied.
  destruct (find_one (by_student_and_job (_id user) jobId) (applications s))
    as [existing |] eqn:Hfind;
    [| by apply find_one_by_student_and_job in Hfind].
  unfold studentApply, store, find_by_id. run.
  unfold find_by_id. rewrite Hjob. simpl. rewrite Hsession. simpl.
  by rewrite Hfind.
Qed.

Lemma studentApply_preserves_unique (s : State) (now : Z) (jobId : ObjectId)
    (coverLetter : option string) :
  unique_applications (applications s) →
  unique_applications (applications (studentApply now jobId coverLetter s).2).
Proof.
  intros Huniq. unfold studentApply. run. unfold find_by_id.
  destruct (jobs s !! jobId) as [job |]; simpl; [| done].
  destruct (session_user s) as [me |]; simpl; [| done].
  destruct (find_one _ (applications s)) eqn:Hfind; simpl; [done |].
  destruct (Application.validate _); simpl; [| done].
  apply unique_applications_insert; [apply lookup_fresh_dom | | done].
  simpl. intros j b Hb [Hs Hj]. apply find_one_by_student_and_job in Hfind.
  apply Hfind. by exists j, b.
Qed.

(** C2. An apply request for a job whose deadline has passed
    stores nothing and fails: with the deadline failure when the student
    has a resume on file and the job is active, with the job-unavailable
    failure when the job is not active (closed, say), and with the
    resume failure when the student has no resume on file. *)
Theorem apply_after_deadline (s : State) (now : Z) (jobId : ObjectId)
    (user : Doc User.t) (job : Job.t) (d : Z) :
  session_user s = Some user →
  jobs s !! jobId = Some job →
  Job.deadline job = Some d →
  (d < now)%Z →
  let r := student_post_jobs_apply now jobId s in
  store r.2 = store s
  ∧ r.1 = Ok (if negb (truthy (User.resume (fields user)))
              then ResumeRequired
              else if negb (bool_decide (Job.status job = "active"))
              then JobUnavailable
              else DeadlinePassed).
Proof.
  intros Hsession Hjob Hdeadline Hlt.
  unfold student_post_jobs_apply, store. run. rewrite Hsession. simpl.
  destruct (truthy (User.resume (fields user))); simpl; [| done].
  unfold find_by_id. rewrite Hjob. simpl.
  case_bool_decide; simpl; [| done].
  unfold deadline_passed. rewrite Hdeadline.
  by rewrite bool_decide_eq_true_2.
Qed.

Lemma apply_after_deadline_witness :
  let r := student_post_jobs_apply 5000 10 (Demo.portal (Some Demo.sam)) in
  store r.2 = store (Demo.portal (Some Demo.sam))
  ∧ r.1 = Ok DeadlinePassed.
Proof.
  apply (apply_after_deadline _ 5000 10 Demo.sam Demo.dev_job 1000);
    [reflexivity | reflexivity | reflexivity | lia].
Defined.

(** Job 11 is closed and its deadline has passed: the apply request is
    answered with the job-unavailable failure, not with the deadline one. *)
Lemma apply_to_closed_job_after_deadline :
  let s := Demo.portal (Some Demo.sam) in
  jobs s !! 11%N = Some Demo.ops_job
  ∧ Job.status Demo.ops_job = "closed"
  ∧ Job.deadline Demo.ops_job = Some 1000%Z
  ∧ (1000 < 5000)%Z
  ∧ (student_post_jobs_apply 5000 11 s).1 = Ok JobUnavailable
  ∧ (student_post_jobs_apply 5000 11 s).1 ≠ Ok DeadlinePassed.
Proof. by vm_compute. Qed.

(** Every guard lets the request through: the application is stored. *)
Lemma apply_success (s : State) (now : Z) (jobId : ObjectId)
    (user : Doc User.t) (job : Job.t) :
  session_user s = Some user →
  truthy (User.resume (fields user)) = true →
  jobs s !! jobId = Some job →
  Job.status job = "active" →
  deadline_passed now job = false →
  ¬ has_applied s (_id user) jobId →
  let r := student_post_jobs_apply now jobId s in
  r.1 = Ok (Json 200 (JMessage "Application submitted successfully"))
  ∧ applications r.2
    = <[fresh (dom (applications s))
        := new_application now user (jobId, job)]> (applications s).
Proof.
  intros Hsession Hresume Hjob Hactive Hdeadline Hnew.
  apply find_one_by_student_and_job in Hnew.
  pose proof (validate_new_application now user (jobId, job) Hresume) as Hv.
  unfold new_application in *. simpl in Hv.
  unfold student_post_jobs_apply. run. rewrite Hsession. simpl.
  rewrite Hresume. simpl. unfold find_by_id. rewrite Hjob. simpl.
  rewrite (bool_decide_eq_true_2 _ Hactive). simpl. rewrite Hdeadline.
  simpl. rewrite Hnew. by rewrite Hv.
Qed.

(** A resume upload never touches the applications. *)
Lemma resume_upload_keeps_applications (ObjectId_toString : ObjectId → string)
    (Z_toString : Z → string) (now : Z) (resumeFile : option UploadedFile)
    (wants_json : bool) (s : State) :
  applications
    (student_post_profile_resume ObjectId_toString Z_toString now resumeFile
       wants_json s).2
  = applications s.
Proof.
  unfold student_post_profile_resume. run.
  destruct resumeFile as [file |]; [| by destruct wants_json].
  destruct (includes "pdf" (mimetype file)); simpl;
    [| by destruct wants_json].
  destruct (session_user s) as [me |]; simpl; [| by destruct wants_json].
  destruct (mv_succeeds file); simpl; [| by destruct wants_json].
  destruct (users s !! _id me); simpl; by destruct wants_json.
Qed.

(** C7. A student whose session carries a resume reference and who
    applies to a stored, active job whose deadline lies ahead, with no
    application to it yet, gets one: it is stored under an unused [_id],
    with status pending and with the resume reference that the user of the
    session ([req.session.user]) carries at that instant. The handler does
    not read the stored profile: the reference is the profile's whenever
    the session and the profile agree. The reference is a copy: whatever
    is uploaded as a resume afterwards, the stored application keeps
    it. *)
Theorem apply_creates_pending_snapshot (s : State) (now : Z)
    (jobId : ObjectId) (user : Doc User.t) (job : Job.t) (resume : string)
    (d : Z) :
  session_user s = Some user →
  User.resume (fields user) = Some resume →
  resume ≠ "" →
  jobs s !! jobId = Some job →
  Job.status job = "active" →
  Job.deadline job = Some d →
  (now < d)%Z →
  ¬ has_applied s (_id user) jobId →
  let r := student_post_jobs_apply now jobId s in
  ∃ i a,
    applications s !! i = None
    ∧ r.1 = Ok (Json 200 (JMessage "Application submitted successfully"))
    ∧ applications r.2 = <[i := a]> (applications s)
    ∧ Application.studentId a = _id user
    ∧ Application.jobId a = jobId
    ∧ Application.companyId a = Job.companyId job
    ∧ Application.status a = Some "pending"
    ∧ Application.resume a = resume
    ∧ (∀ profile, users s !! _id user = Some profile →
                  User.resume profile = User.resume (fields user) →
                  User.resume profile = Some (Application.resume a))
    ∧ ∀ ObjectId_toString Z_toString later resumeFile wants_json,
        applications
          (student_post_profile_resume ObjectId_toString Z_toString later
             resumeFile wants_json r.2).2 !! i = Some a.
Proof.
  intros Hsession Hresume Hne Hjob Hactive Hdeadline Hlt Hnew r.
  assert (Htruthy : truthy (User.resume (fields user)) = true)
    by (apply truthy_Some; by exists resume).
  assert (Hopen : deadline_passed now job = false).
  { unfold deadline_passed. rewrite Hdeadline.
    apply bool_decide_eq_false_2. lia. }
  destruct (apply_success s now jobId user job) as [Hok Happs]; try done.
  exists (fresh (dom (applications s))), (new_application now user (jobId, job)).
  split; [apply lookup_fresh_dom |]. split; [done |]. split; [done |].
  do 4 (split; [done |]).
  assert (Hcopy : Application.resume (new_application now user (jobId, job))
                  = resume).
  { simpl. unfold or_default. rewrite Hresume.
    by rewrite (bool_decide_eq_false_2 _ Hne). }
  split; [done |]. split.
  - intros profile _ Hsync. by rewrite Hsync, Hcopy.
  - intros. rewrite resume_upload_keeps_applications. subst r.
    rewrite Happs. apply lookup_insert_eq.
Qed.

Lemma apply_creates_pending_snapshot_witness :
  let s := Demo.fresh_portal (Some Demo.sam) in
  let r := student_post_jobs_apply 500 10 s in
  ∃ i a,
    applications s !! i = None
    ∧ r.1 = Ok (Json 200 (JMessage "Application submitted successfully"))
    ∧ applications r.2 = <[i := a]> (applications s)
    ∧ Application.status a = Some "pending"
    ∧ Application.resume a = "/uploads/resumes/4-1.pdf".
Proof.
  intros s r.
  destruct (apply_creates_pending_snapshot s 500 10 Demo.sam Demo.dev_job
              "/uploads/resumes/4-1.pdf" 1000)
    as (i & a & Hi & Hok & Happs & _ & _ & _ & Hstatus & Hresume & _);
    [reflexivity | reflexivity | discriminate | reflexivity | reflexivity
    | reflexivity | lia | |].
  - intros (i & a & Ha & _). vm_compute in Ha. discriminate.
  - exists i, a. by repeat split.
Defined.

(** The student is signed in on two devices. From one the student
    uploads a new resume, which the stored profile then carries; from the
    other, whose session holds the user as it was at sign-in, the student
    then applies to job 10. The application is stored with the older
    reference of that session, not with the reference that the profile
    carries at that instant. *)
Lemma apply_with_outdated_session :
  let upload :=
    mkArrival 600 (Some Demo.sam)
      (PostStudentResume (Some (mkUploadedFile "application/pdf" true)) true) in
  let apply := mkArrival 700 (Some Demo.sam) (PostStudentApply 10) in
  let s1 := serve demo_env [upload] (Demo.fresh_portal None) in
  let s2 := serve demo_env [upload; apply] (Demo.fresh_portal None) in
  User.resume <$> users s1 !! 4%N
  = Some (Some "/uploads/resumes/000000000000000000000004-0.pdf")
  ∧ jobs s1 !! 10%N = Some Demo.dev_job
  ∧ Job.status Demo.dev_job = "active"
  ∧ Job.deadline Demo.dev_job = Some 1000%Z
  ∧ (700 < 1000)%Z
  ∧ applications s1 = ∅
  ∧ users s2 = users s1
  ∧ Application.status <$> applications s2 !! 0%N = Some (Some "pending")
  ∧ Application.resume <$> applications s2 !! 0%N
    = Some "/uploads/resumes/4-1.pdf".
Proof. by vm_compute. Qed.

(** The student applies, then uploads a new resume: the profile and the
    session carry the new reference, the application the one it was
    created with. *)
Lemma snapshot_after_upload :
  let upload := student_post_profile_resume (λ _, "4") (λ _, "2") 600
                  (Some (mkUploadedFile "application/pdf" true)) true in
  let r := (student_post_jobs_apply 500 10 ;; upload)
             (Demo.fresh_portal (Some Demo.sam)) in
  r.1 = Ok (Json 200 (JSuccess true (Some "Resume updated successfully")))
  ∧ User.resume <$> users r.2 !! 4%N = Some (Some "/uploads/resumes/4-2.pdf")
  ∧ User.resume ∘ fields <$> session_user r.2
    = Some (Some "/uploads/resumes/4-2.pdf")
  ∧ Application.resume <$> applications r.2 !! 0%N
    = Some "/uploads/resumes/4-1.pdf".
Proof. by vm_compute. Qed.

(** ** Cascades *)

Lemma delete_many_by_job (apps : gmap N Application.t) jobId i :
  delete_many (by_job jobId) apps !! i
  = match apps !! i with
    | Some a => if bool_decide (Application.jobId a = jobId) then None
                else Some a
    | None => None
    end.
Proof.
  destruct (apps !! i) as [a |] eqn:Ha.
  - case_bool_decide as Hj.
    + apply lookup_delete_many_None. intros x Hx.
      assert (x = a) as -> by congruence.
      unfold by_job. simpl. by apply bool_decide_eq_true_2.
    + apply lookup_delete_many. split; [done |].
      unfold by_job. simpl. by apply bool_decide_eq_false_2.
  - apply lookup_delete_many_None. congruence.
Qed.

Lemma find_by_id_None {A} (m : gmap N A) i :
  find_by_id i m = None ↔ m !! i = None.
Proof. unfold find_by_id. by destruct (m !! i). Qed.

(** What the admin's job deletion leaves: no application to the job, and
    no job under this id. *)
Lemma admin_delete_job_run (s : State) (jobId : ObjectId) :
  let r := admin_delete_job jobId s in
  r.1 = Ok (Json 200 (JMessage "Job deleted successfully"))
  ∧ users r.2 = users s
  ∧ jobs r.2 = delete jobId (jobs s)
  ∧ applications r.2 = delete_many (by_job jobId) (applications s).
Proof. by unfold admin_delete_job; run. Qed.

(** The company's job deletion does the same when the job is stored and
    the session user owns it. *)
Lemma company_delete_job_run (s : State) (jobId : ObjectId)
    (me : Doc User.t) (job : Job.t) :
  session_user s = Some me →
  jobs s !! jobId = Some job →
  Job.companyId job = _id me →
  let r := company_delete_job jobId s in
  r.1 = Ok (Json 200 (JMessage "Job deleted successfully"))
  ∧ users r.2 = users s
  ∧ jobs r.2 = delete jobId (jobs s)
  ∧ applications r.2 = delete_many (by_job jobId) (applications s).
Proof.
  intros Hsession Hjob Howner.
  assert (Hfound : is_Some (find_one (by_id_and_company jobId (_id me)) (jobs s))).
  { apply (find_one_is_Some _ _ jobId job); [done |].
    unfold by_id_and_company. simpl.
    by rewrite !bool_decide_eq_true_2. }
  destruct Hfound as [found Hfound].
  unfold company_delete_job. run. rewrite Hsession. simpl.
  by rewrite Hfound.
Qed.


(** C4. After a job has been deleted, by the administrator or by the
    company that owns it, every application that referenced the job is
    gone: looking it up by its id finds nothing. The job is gone too. *)
Theorem delete_job_cascades (s : State) (jobId i : ObjectId)
    (a : Application.t) :
  applications s !! i = Some a →
  Application.jobId a = jobId →
  (let r := admin_delete_job jobId s in
   r.1 = Ok (Json 200 (JMessage "Job deleted successfully"))
   ∧ find_by_id i (applications r.2) = None
   ∧ find_by_id jobId (jobs r.2) = None)
  ∧ (∀ me job,
       session_user s = Some me →
       jobs s !! jobId = Some job →
       Job.companyId job = _id me →
       let r := company_delete_job jobId s in
       r.1 = Ok (Json 200 (JMessage "Job deleted successfully"))
       ∧ find_by_id i (applications r.2) = None
       ∧ find_by_id jobId (jobs r.2) = None).
Proof.
  intros Ha Hj.
  assert (Hgone : delete_many (by_job jobId) (applications s) !! i = None).
  { rewrite delete_many_by_job, Ha. by rewrite bool_decide_eq_true_2. }
  split.
  - destruct (admin_delete_job_run s jobId) as (Hok & _ & Hjobs & Happs).
    split; [done |]. rewrite !find_by_id_None, Hjobs, Happs.
    split; [done |]. apply lookup_delete_eq.
  - intros me job Hsession Hjob Howner.
    destruct (company_delete_job_run s jobId me job)
      as (Hok & _ & Hjobs & Happs); try done.
    split; [done |]. rewrite !find_by_id_None, Hjobs, Happs.
    split; [done |]. apply lookup_delete_eq.
Qed.

Lemma delete_job_cascades_witness :
  let s := Demo.portal (Some Demo.acme) in
  (let r := admin_delete_job 10 s in
   r.1 = Ok (Json 200 (JMessage "Job deleted successfully"))
   ∧ find_by_id 20%N (applications r.2) = None
   ∧ find_by_id 10%N (jobs r.2) = None)
  ∧ (let r := company_delete_job 10 s in
     r.1 = Ok (Json 200 (JMessage "Job deleted successfully"))
     ∧ find_by_id 20%N (applications r.2) = None
     ∧ find_by_id 10%N (jobs r.2) = None).
Proof.
  intros s.
  destruct (delete_job_cascades s 10 20 (Demo.application_to 10))
    as [Hadmin Hcompany]; [reflexivity | reflexivity |].
  split; [exact Hadmin |].
  apply (Hcompany Demo.acme Demo.dev_job); reflexivity.
Defined.

(** The applications to other jobs stay. *)
Lemma delete_job_keeps_others (s : State) (jobId i : ObjectId)
    (a : Application.t) :
  applications s !! i = Some a →
  Application.jobId a ≠ jobId →
  applications (admin_delete_job jobId s).2 !! i = Some a.
Proof.
  intros Ha Hj. destruct (admin_delete_job_run s jobId) as (_ & _ & _ & ->).
  rewrite delete_many_by_job, Ha. by rewrite bool_decide_eq_false_2.
Qed.

(** The administrator deletes another user, with [role=company] in the
    query: the jobs of that company go, and with them the applications to
    these jobs. The parameter is any text other than the rendering of the
    session user's id that casts to an id. *)
Lemma admin_delete_user_company_run (ObjectId_toString : ObjectId → string)
    (ObjectId_cast : string → option ObjectId) (s : State) (me : Doc User.t)
    (param : string) (userId : ObjectId) :
  session_user s = Some me →
  param ≠ ObjectId_toString (_id me) →
  ObjectId_cast param = Some userId →
  let r := admin_delete_user ObjectId_toString ObjectId_cast param
             (Some "company") s in
  r.1 = Ok (Json 200 (JMessage "User deleted successfully"))
  ∧ users r.2 = delete userId (users s)
  ∧ jobs r.2 = delete_many (by_company userId) (jobs s)
  ∧ applications r.2
    = delete_many (by_job_in (_id <$> find_all (by_company userId) (jobs s)))
        (applications s).
Proof.
  intros Hsession Hother Hcast. unfold admin_delete_user, with_ObjectId. run.
  rewrite Hsession. simpl. rewrite (bool_decide_eq_false_2 _ Hother).
  simpl. by rewrite Hcast.
Qed.

(** With [role=student] the applications of that student go. *)
Lemma admin_delete_user_student_run (ObjectId_toString : ObjectId → string)
    (ObjectId_cast : string → option ObjectId) (s : State) (me : Doc User.t)
    (param : string) (userId : ObjectId) :
  session_user s = Some me →
  param ≠ ObjectId_toString (_id me) →
  ObjectId_cast param = Some userId →
  let r := admin_delete_user ObjectId_toString ObjectId_cast param
             (Some "student") s in
  r.1 = Ok (Json 200 (JMessage "User deleted successfully"))
  ∧ users r.2 = delete userId (users s)
  ∧ jobs r.2 = jobs s
  ∧ applications r.2 = delete_many (by_student userId) (applications s).
Proof.
  intros Hsession Hother Hcast. unfold admin_delete_user, with_ObjectId. run.
  rewrite Hsession. simpl. rewrite (bool_decide_eq_false_2 _ Hother).
  simpl. by rewrite Hcast.
Qed.

(** X8. With a query role that is neither student nor company (or none)
    the administrator's deletion removes the user and nothing else,
    whatever the role the user is stored with: the jobs and the
    applications are as they were. The parameter is any text other than
    the rendering of the session user's id that casts to an id. *)
Lemma admin_delete_user_plain_run (ObjectId_toString : ObjectId → string)
    (ObjectId_cast : string → option ObjectId) (s : State) (me : Doc User.t)
    (param : string) (userId : ObjectId) (query_role : option string) :
  session_user s = Some me →
  param ≠ ObjectId_toString (_id me) →
  ObjectId_cast param = Some userId →
  query_role ≠ Some "student" →
  query_role ≠ Some "company" →
  let r := admin_delete_user ObjectId_toString ObjectId_cast param
             query_role s in
  r.1 = Ok (Json 200 (JMessage "User deleted successfully"))
  ∧ users r.2 = delete userId (users s)
  ∧ jobs r.2 = jobs s
  ∧ applications r.2 = applications s.
Proof.
  intros Hsession Hother Hcast Hstudent Hcompany.
  unfold admin_delete_user, with_ObjectId. run.
  rewrite Hsession. simpl. rewrite (bool_decide_eq_false_2 _ Hother).
  rewrite (bool_decide_eq_false_2 _ Hstudent).
  rewrite (bool_decide_eq_false_2 _ Hcompany). simpl. by rewrite Hcast.
Qed.

(** A parameter that is not the spelling of an id makes the first query
    throw: the answer is a 500 and the store is as it was. *)
Lemma admin_delete_user_no_id (ObjectId_toString : ObjectId → string)
    (ObjectId_cast : string → option ObjectId) (s : State) (me : Doc User.t)
    (param : string) (query_role : option string) :
  session_user s = Some me →
  param ≠ ObjectId_toString (_id me) →
  ObjectId_cast param = None →
  let r := admin_delete_user ObjectId_toString ObjectId_cast param
             query_role s in
  r.1 = Ok (Json 500 (JError "Failed to delete user"))
  ∧ store r.2 = store s.
Proof.
  intros Hsession Hother Hcast.
  unfold admin_delete_user, with_ObjectId, store. run.
  rewrite Hsession. simpl. rewrite (bool_decide_eq_false_2 _ Hother).
  simpl. rewrite Hcast.
  by repeat (case_bool_decide; simpl).
Qed.

(** What the deletion does when the request carries [role=company] in
    its query: the user is removed, every job whose [companyId] is that
    user is removed, and every application to one of these jobs is
    removed. *)
Lemma admin_delete_company_cascades (ObjectId_toString : ObjectId → string)
    (ObjectId_cast : string → option ObjectId) (s : State) (me : Doc User.t)
    (param : string) (userId : ObjectId) :
  session_user s = Some me →
  param ≠ ObjectId_toString (_id me) →
  ObjectId_cast param = Some userId →
  let r := admin_delete_user ObjectId_toString ObjectId_cast param
             (Some "company") s in
  r.1 = Ok (Json 200 (JMessage "User deleted successfully"))
  ∧ users r.2 !! userId = None
  ∧ (∀ j job, jobs s !! j = Some job → Job.companyId job = userId →
              jobs r.2 !! j = None)
  ∧ (∀ i a job, applications s !! i = Some a →
                jobs s !! Application.jobId a = Some job →
                Job.companyId job = userId →
                applications r.2 !! i = None).
Proof.
  intros Hsession Hother Hcast.
  destruct (admin_delete_user_company_run ObjectId_toString ObjectId_cast s me
              param userId Hsession Hother Hcast)
    as (Hok & Husers & Hjobs & Happs).
  simpl. split; [done |]. rewrite Husers, Hjobs, Happs.
  split; [apply lookup_delete_eq |]. split.
  - intros j job Hj Hc. apply lookup_delete_many_None.
    intros x Hx. assert (x = job) as -> by congruence.
    unfold by_company. simpl. by apply bool_decide_eq_true_2.
  - intros i a job Ha Hj Hc. apply lookup_delete_many_None.
    intros x Hx. assert (x = a) as -> by congruence.
    unfold by_job_in. simpl. apply bool_decide_eq_true_2.
    apply elem_of_find_all_ids. exists job. split; [done |].
    unfold by_company. simpl. by apply bool_decide_eq_true_2.
Qed.

(** C5. User 2 is stored with the company role and owns job 10, to which
    application 20 refers. The administrator deletes user 2 with no role
    in the query: the user goes, the job and the application stay, and
    they now refer to a company that is not on record. With [role=company]
    in the query the same deletion takes them along. *)
Lemma admin_delete_company_without_query :
  let s := Demo.portal (Some Demo.admin) in
  let delete query_role :=
    admin_delete_user demo_ObjectId_toString demo_ObjectId_cast
      "000000000000000000000002" query_role s in
  User.role <$> users s !! 2%N = Some "company"
  ∧ (delete None).1 = Ok (Json 200 (JMessage "User deleted successfully"))
  ∧ users (delete None).2 !! 2%N = None
  ∧ jobs (delete None).2 !! 10%N = Some Demo.dev_job
  ∧ Job.companyId Demo.dev_job = 2%N
  ∧ applications (delete None).2 !! 20%N = Some (Demo.application_to 10)
  ∧ jobs (delete (Some "company")).2 !! 10%N = None
  ∧ applications (delete (Some "company")).2 !! 20%N = None.
Proof. by vm_compute. Qed.

(** ** Updating the status of an application *)



Lemma owned_application_owner (s : State) (applicationId : ObjectId)
    (a : Application.t) (job : Job.t) (me : Doc User.t) :
  applications s !! applicationId = Some a →
  jobs s !! Application.jobId a = Some job →
  session_user s = Some me →
  Job.companyId job = _id me →
  let r := owned_application applicationId s in
  r.1 = Ok (Some (applicationId, a)) ∧ store r.2 = store s
  ∧ session_user r.2 = session_user s.
Proof.
  intros Ha Hjob Hsession Hown. unfold owned_application, store. run.
  unfold find_by_id. rewrite Ha. simpl. rewrite Hjob. simpl.
  rewrite Hsession. simpl. by rewrite (bool_decide_eq_true_2 _ Hown).
Qed.





Lemma when_supplied_cases {A} (field : option string)
    (assign : string → A → A) (target : A) :
  (truthy field = false ∧ when_supplied field assign target = target)
  ∨ ∃ v, field = Some v ∧ v ≠ ""
         ∧ when_supplied field assign target = assign v target.
Proof.
  unfold when_supplied, truthy. destruct field as [v |]; [| by left].
  case_bool_decide; [by left |]. right. by exists v.
Qed.

(** An attribute after the four guarded assignments: as it was, or the
    value of its own form field when that field is supplied. *)
Lemma assign_interview_fields (Date_parse : string → JsDate)
    (form : InterviewForm) (a : Application.t) :
  let a' := assign_interview Date_parse form a in
  Application.status a' = Application.status a
  ∧ (Application.interviewDate a' = Application.interviewDate a
     ∨ ∃ v, interviewDate form = Some v ∧ v ≠ ""
            ∧ Application.interviewDate a' = Some (Date_parse v))
  ∧ (Application.interviewMode a' = Application.interviewMode a
     ∨ ∃ v, interviewMode form = Some v ∧ v ≠ ""
            ∧ Application.interviewMode a' = Some v)
  ∧ (Application.interviewLocation a' = Application.interviewLocation a
     ∨ ∃ v, interviewLocation form = Some v ∧ v ≠ ""
            ∧ Application.interviewLocation a' = Some v)
  ∧ (Application.interviewLink a' = Application.interviewLink a
     ∨ ∃ v, interviewLink form = Some v ∧ v ≠ ""
            ∧ Application.interviewLink a' = Some v).
Proof.
  unfold assign_interview.
  destruct (when_supplied_cases (interviewDate form)
              (λ d, Application.set_interviewDate (Date_parse d)) a)
    as [[_ ->] | (d & Hd & Hd' & ->)];
  match goal with |- context [when_supplied (interviewMode form) ?f ?t] =>
    destruct (when_supplied_cases (interviewMode form) f t)
      as [[_ ->] | (m & Hm & Hm' & ->)] end;
  match goal with |- context [when_supplied (interviewLocation form) ?f ?t] =>
    destruct (when_supplied_cases (interviewLocation form) f t)
      as [[_ ->] | (l & Hl & Hl' & ->)] end;
  match goal with |- context [when_supplied (interviewLink form) ?f ?t] =>
    destruct (when_supplied_cases (interviewLink form) f t)
      as [[_ ->] | (k & Hk & Hk' & ->)] end;
  simpl; repeat split; eauto.
Qed.

(** The status route, asked by the company that owns the application's
    job: the updated document is stored when it passes validation, and
    nothing is stored when it does not. *)
Lemma status_route_owner (Date_parse : string → JsDate) (s : State)
    (appId : ObjectId) (a : Application.t) (job : Job.t) (me : Doc User.t)
    (st : string) (form : InterviewForm) :
  applications s !! appId = Some a →
  jobs s !! Application.jobId a = Some job →
  session_user s = Some me →
  Job.companyId job = _id me →
  let a' := updated_application Date_parse st form a in
  let r := company_post_application_status Date_parse appId (Some st) form s in
  users r.2 = users s ∧ jobs r.2 = jobs s
  ∧ if Application.validate a'
    then r.1 = Ok (Json 200 (JMessage "Application status updated successfully"))
         ∧ applications r.2 = <[appId := a']> (applications s)
    else r.1 = Ok (Json 500 (JError "Failed to update status"))
         ∧ applications r.2 = applications s.
Proof.
  intros Ha Hjob Hsession Hown a' r. subst r a'.
  destruct (owned_application_owner s appId a job me Ha Hjob Hsession Hown)
    as (Hres & Hstore & _).
  unfold company_post_application_status, updated_application.
  unfold_monad. destruct (owned_application appId s) as [res s'].
  simpl in Hres, Hstore. subst res. injection Hstore as Hu Hj Happs.
  simpl. unfold Application_save. unfold_monad. simpl.
  match goal with |- context [Application.validate ?x] =>
    destruct (Application.validate x) end; simpl; by rewrite ?Happs.
Qed.

Lemma toLowerCase_not_shortlisted (st : string) :
  toLowerCase st ≠ "shortlisted" →
  bool_decide (st = "shortlisted") || bool_decide (st = "Shortlisted") = false.
Proof.
  intros Hst. apply orb_false_iff.
  split; apply bool_decide_eq_false_2; intros ->; by apply Hst.
Qed.

(** C10. When the company that owns the job changes the status of an
    application through the status route, the application stays on record
    and: if the new status is not shortlisted, its four interview
    attributes are as they were, whatever interview fields the request
    carries; and an interview attribute that has changed has been given
    the value of its own form field, that field was supplied, and the
    application's status is now shortlisted. *)
Theorem status_update_interview_fields (Date_parse : string → JsDate)
    (s : State) (appId : ObjectId) (a : Application.t) (job : Job.t)
    (me : Doc User.t) (st : string) (form : InterviewForm) :
  applications s !! appId = Some a →
  jobs s !! Application.jobId a = Some job →
  session_user s = Some me →
  Job.companyId job = _id me →
  let r := company_post_application_status Date_parse appId (Some st) form s in
  ∃ a',
    applications r.2 !! appId = Some a'
    ∧ (toLowerCase st ≠ "shortlisted" →
       interview_fields a' = interview_fields a)
    ∧ (Application.interviewDate a' = Application.interviewDate a
       ∨ Application.status a' = Some "shortlisted"
         ∧ ∃ v, interviewDate form = Some v ∧ v ≠ ""
                ∧ Application.interviewDate a' = Some (Date_parse v))
    ∧ (Application.interviewMode a' = Application.interviewMode a
       ∨ Application.status a' = Some "shortlisted"
         ∧ ∃ v, interviewMode form = Some v ∧ v ≠ ""
                ∧ Application.interviewMode a' = Some v)
    ∧ (Application.interviewLocation a' = Application.interviewLocation a
       ∨ Application.status a' = Some "shortlisted"
         ∧ ∃ v, interviewLocation form = Some v ∧ v ≠ ""
                ∧ Application.interviewLocation a' = Some v)
    ∧ (Application.interviewLink a' = Application.interviewLink a
       ∨ Application.status a' = Some "shortlisted"
         ∧ ∃ v, interviewLink form = Some v ∧ v ≠ ""
                ∧ Application.interviewLink a' = Some v).
Proof.
  intros Ha Hjob Hsession Hown r.
  destruct (status_route_owner Date_parse s appId a job me st form
              Ha Hjob Hsession Hown) as (_ & _ & Hrun).
  fold r in Hrun.
  destruct (Application.validate (updated_application Date_parse st form a));
    destruct Hrun as [_ Happs]; rewrite Happs; clear Happs;
    [| exists a; by auto 10].
  exists (updated_application Date_parse st form a).
  split; [apply lookup_insert_eq |].
  unfold updated_application.
  destruct (bool_decide (st = "shortlisted") || bool_decide (st = "Shortlisted"))
    eqn:Hraw.
  - assert (Hlower : toLowerCase st = "shortlisted").
    { apply orb_true_iff in Hraw as [Hst | Hst];
        apply bool_decide_eq_true_1 in Hst; by subst st. }
    rewrite Hlower.
    destruct (assign_interview_fields Date_parse form
                (Application.set_status "shortlisted" a))
      as (Hstatus & Hdate & Hmode & Hlocation & Hlink).
    simpl in Hstatus, Hdate, Hmode, Hlocation, Hlink.
    split; [by intros Hne |].
    repeat split.
    + destruct Hdate as [-> | Hdate]; [by left | right; by split].
    + destruct Hmode as [-> | Hmode]; [by left | right; by split].
    + destruct Hlocation as [-> | Hlocation]; [by left | right; by split].
    + destruct Hlink as [-> | Hlink]; [by left | right; by split].
  - simpl. by auto 10.
Qed.

Lemma status_update_interview_fields_witness :
  let s := Demo.portal (Some Demo.acme) in
  let form := mkInterviewForm (Some "2030-01-01") (Some "Online")
                (Some "Room 4") (Some "https://meet.example/x") in
  let r := company_post_application_status Demo.epoch 20 (Some "Hired")
             form s in
  ∃ a',
    applications r.2 !! 20%N = Some a'
    ∧ interview_fields a' = interview_fields (Demo.application_to 10).
Proof.
  intros s form r.
  destruct (status_update_interview_fields Demo.epoch s 20
              (Demo.application_to 10) Demo.dev_job Demo.acme "Hired" form)
    as (a' & Ha' & Hkept & _);
    [reflexivity | reflexivity | reflexivity | reflexivity |].
  exists a'. split; [exact Ha' |]. apply Hkept. discriminate.
Defined.

(** The assignments are made when the status comes as "shortlisted" or
    "Shortlisted", and the updated application passes validation: every
    supplied field is then stored. *)
Lemma status_update_shortlisted_assigns (Date_parse : string → JsDate)
    (s : State) (appId : ObjectId) (a : Application.t) (job : Job.t)
    (me : Doc User.t) (st : string) (form : InterviewForm) :
  applications s !! appId = Some a →
  jobs s !! Application.jobId a = Some job →
  session_user s = Some me →
  Job.companyId job = _id me →
  st = "shortlisted" ∨ st = "Shortlisted" →
  let a' := Application.set_status "shortlisted" a in
  Application.validate (assign_interview Date_parse form a') = true →
  let r := company_post_application_status Date_parse appId (Some st) form s in
  r.1 = Ok (Json 200 (JMessage "Application status updated successfully"))
  ∧ applications r.2 !! appId = Some (assign_interview Date_parse form a').
Proof.
  intros Ha Hjob Hsession Hown Hst a' Hvalid r.
  destruct (status_route_owner Date_parse s appId a job me st form
              Ha Hjob Hsession Hown) as (_ & _ & Hrun).
  fold r in Hrun.
  assert (Hupd : updated_application Date_parse st form a
                 = assign_interview Date_parse form a')
    by (destruct Hst as [-> | ->]; reflexivity).
  rewrite Hupd, Hvalid in Hrun. destruct Hrun as [Hok Happs].
  split; [done |]. rewrite Happs. apply lookup_insert_eq.
Qed.

(** Three requests of the owning company on application 20, each with a
    full interview form: "Shortlisted" stores the four attributes;
    "hired" stores none of them; "SHORTLISTED" sets the status to
    shortlisted and stores none of them either. *)
Lemma status_update_runs :
  let s := Demo.portal (Some Demo.acme) in
  let form := mkInterviewForm (Some "2030-01-01") (Some "Online")
                (Some "Room 4") (Some "https://meet.example/x") in
  let after st :=
    (λ a, (Application.status a, interview_fields a))
      <$> applications
            (company_post_application_status Demo.epoch 20 (Some st) form s).2
          !! 20%N in
  after "Shortlisted"
  = Some (Some "shortlisted",
          (Some (ValidDate 2000), Some "Online", Some "Room 4",
           Some "https://meet.example/x"))
  ∧ after "hired" = Some (Some "hired", (None, None, None, None))
  ∧ after "SHORTLISTED" = Some (Some "shortlisted", (None, None, None, None)).
Proof. by vm_compute. Qed.

(** ** The invariant along any sequence of requests *)

Lemma unique_applications_update (apps : gmap N Application.t) i a a' :
  apps !! i = Some a →
  Application.studentId a' = Application.studentId a →
  Application.jobId a' = Application.jobId a →
  unique_applications apps → unique_applications (<[i := a']> apps).
Proof.
  intros Hi Hs Hj Huniq i1 a1 H1 i2 a2 H2 Hs12 Hj12.
  rewrite lookup_insert_Some in H1. rewrite lookup_insert_Some in H2.
  destruct H1 as [[<- <-] | [Hne1 H1]], H2 as [[<- <-] | [Hne2 H2]].
  - done.
  - apply (Huniq i a Hi i2 a2 H2); congruence.
  - apply (Huniq i1 a1 H1 i a Hi); congruence.
  - by apply (Huniq i1 a1 H1 i2 a2 H2).
Qed.

Lemma unique_applications_delete_many P (apps : gmap N Application.t) :
  unique_applications apps → unique_applications (delete_many P apps).
Proof.
  intros Huniq i1 a1 H1 i2 a2 H2.
  apply lookup_delete_many in H1 as [H1 _].
  apply lookup_delete_many in H2 as [H2 _].
  by apply (Huniq i1 a1 H1 i2 a2 H2).
Qed.

Lemma assign_interview_pair (Date_parse : string → JsDate)
    (form : InterviewForm) (a : Application.t) :
  Application.studentId (assign_interview Date_parse form a)
  = Application.studentId a
  ∧ Application.jobId (assign_interview Date_parse form a)
    = Application.jobId a.
Proof.
  unfold assign_interview, when_supplied.
  destruct (interviewDate form), (interviewMode form),
    (interviewLocation form), (interviewLink form);
    repeat case_bool_decide; done.
Qed.

Lemma updated_application_pair (Date_parse : string → JsDate) (st : string)
    (form : InterviewForm) (a : Application.t) :
  Application.studentId (updated_application Date_parse st form a)
  = Application.studentId a
  ∧ Application.jobId (updated_application Date_parse st form a)
    = Application.jobId a.
Proof.
  unfold updated_application.
  destruct (bool_decide (st = "shortlisted") || bool_decide (st = "Shortlisted"));
    [| done].
  apply (assign_interview_pair Date_parse form
           (Application.set_status (toLowerCase st) a)).
Qed.

(** The guard of the company routes reads, and writes nothing. *)
Lemma owned_application_run (s : State) (applicationId : ObjectId) :
  let r := owned_application applicationId s in
  store r.2 = store s
  ∧ ∀ d, r.1 = Ok (Some d) →
         _id d = applicationId
         ∧ applications s !! applicationId = Some (fields d).
Proof.
  unfold owned_application, store. run. unfold find_by_id.
  destruct (applications s !! applicationId) as [a |]; simpl; [| done].
  destruct (jobs s !! Application.jobId a) as [job |]; simpl; [| done].
  destruct (session_user s) as [me |]; simpl; [| done].
  case_bool_decide; simpl; [| done].
  split; [done |]. by intros d [= <-].
Qed.

Lemma keeps_pairs_unique before after :
  keeps_pairs before after →
  unique_applications before → unique_applications after.
Proof.
  intros [-> | [[P ->] | (i & a & a' & Hi & Hs & Hj & ->)]] Huniq.
  - done.
  - by apply unique_applications_delete_many.
  - by apply (unique_applications_update before i a a').
Qed.

Lemma save_existing_keeps_pairs (s s' : State) (d : Doc Application.t)
    (a' : Application.t) :
  store s' = store s →
  applications s !! _id d = Some (fields d) →
  Application.studentId a' = Application.studentId (fields d) →
  Application.jobId a' = Application.jobId (fields d) →
  keeps_pairs (applications s)
    (applications (Application_save (_id d, a') s').2).
Proof.
  intros [= _ _ Happs] Hd Hs Hj. unfold Application_save. unfold_monad.
  simpl. destruct (Application.validate a'); simpl.
  - right. right. exists (_id d), (fields d), a'. by rewrite Happs.
  - left. done.
Qed.

Lemma status_route_keeps_pairs (Date_parse : string → JsDate) (s : State)
    (applicationId : ObjectId) (status : option string)
    (form : InterviewForm) :
  keeps_pairs (applications s)
    (applications
       (company_post_application_status Date_parse applicationId status
          form s).2).
Proof.
  destruct (owned_application_run s applicationId) as [Hstore Hd].
  unfold company_post_application_status. unfold_monad.
  destruct (owned_application applicationId s) as [[[d |] | e] s'];
    simpl in *; try (left; by injection Hstore).
  destruct (Hd d eq_refl) as [<- Ha].
  destruct status as [st |]; simpl; [| left; by injection Hstore].
  pose proof (save_existing_keeps_pairs s s' d
                (updated_application Date_parse st form (fields d)) Hstore Ha)
    as Hsave.
  destruct (updated_application_pair Date_parse st form (fields d)) as [Hs Hj].
  specialize (Hsave Hs Hj). unfold updated_application in Hsave.
  by destruct (Application_save _ s') as [[[] | e] s''].
Qed.

Lemma schedule_route_keeps_pairs (Date_parse : string → JsDate) (s : State)
    (applicationId : ObjectId) (form : InterviewForm) :
  keeps_pairs (applications s)
    (applications
       (company_post_schedule_interview Date_parse applicationId form s).2).
Proof.
  destruct (owned_application_run s applicationId) as [Hstore Hd].
  unfold company_post_schedule_interview. unfold_monad.
  destruct (owned_application applicationId s) as [[[d |] | e] s'];
    simpl in *; try (left; by injection Hstore).
  destruct (Hd d eq_refl) as [<- Ha].
  pose proof (save_existing_keeps_pairs s s' d
                (assign_interview Date_parse form (fields d)) Hstore Ha)
    as Hsave.
  destruct (assign_interview_pair Date_parse form (fields d)) as [Hs Hj].
  specialize (Hsave Hs Hj).
  by destruct (Application_save _ s') as [[[] | e] s''].
Qed.

Lemma updateApplicationStatus_keeps_pairs (s : State) (appId : ObjectId)
    (status : option string) :
  keeps_pairs (applications s)
    (applications (updateApplicationStatus appId status s).2).
Proof.
  unfold updateApplicationStatus. run. unfold find_by_id.
  destruct (applications s !! appId) as [a |] eqn:Ha; simpl; [| by left].
  destruct (session_user s) as [me |]; simpl; [| by left].
  case_bool_decide; simpl; [| by left].
  destruct (Application.validate _); simpl; [| by left].
  right. right. eexists appId, a, _. split; [done |].
  split; [| split; [| done]]; by destruct status.
Qed.

Lemma delete_routes_keep_pairs (s : State) :
  (∀ jobId, keeps_pairs (applications s)
              (applications (company_delete_job jobId s).2))
  ∧ (∀ jobId, keeps_pairs (applications s)
                (applications (admin_delete_job jobId s).2))
  ∧ (∀ ObjectId_toString ObjectId_cast userId query_role,
       keeps_pairs (applications s)
         (applications
            (admin_delete_user ObjectId_toString ObjectId_cast userId
               query_role s).2)).
Proof.
  split; [| split].
  - intros jobId. unfold company_delete_job. run.
    destruct (session_user s) as [me |]; simpl; [| by left].
    destruct (find_one _ (jobs s)); simpl; [| by left].
    right. left. by eexists.
  - intros jobId. unfold admin_delete_job. run. right. left. by eexists.
  - intros ObjectId_toString ObjectId_cast userId query_role.
    unfold admin_delete_user, with_ObjectId. run.
    destruct (session_user s) as [me |]; simpl; [| by left].
    case_bool_decide; simpl; [by left |].
    destruct (ObjectId_cast userId) as [id |]; simpl;
      [| repeat (case_bool_decide; simpl); by left].
    case_bool_decide; simpl; [right; left; by eexists |].
    case_bool_decide; simpl; [right; left; by eexists | by left].
Qed.

(** What a login leaves of the state it found: everything, but for the
    log and, when it ends in a redirect, the session. *)
Lemma loginUser_run (ADMIN_KEY : option string)
    (bcrypt_compare : string → string → option bool)
    (String_filter : Field → option (option string → bool))
    (email password role adminKey : Field) (s : State) :
  let r := loginUser ADMIN_KEY bcrypt_compare String_filter email password
             role adminKey s in
  store r.2 = store s
  ∧ ((∃ url, r.1 = Ok (Redirect url)) ∨ session_user r.2 = session_user s).
Proof.
  unfold loginUser, comparePassword, store. run.
  destruct (is_text "admin" role && _); simpl; [by auto |].
  destruct (by_email_and_role String_filter email role) as [filter |]; simpl;
    [| by auto].
  destruct (find_one filter (users s)) as [u |]; simpl; [| by auto].
  destruct password as [[| b | m x | plain | items | members] |]; simpl;
    try by auto.
  destruct (User.password (fields u)) as [hash |]; simpl; [| by auto].
  destruct (bcrypt_compare plain hash) as [[|] |]; simpl; [| by auto..].
  split; [done |]. left. by eexists.
Qed.

Lemma loginUser_keeps_applications (ADMIN_KEY : option string)
    (bcrypt_compare : string → string → option bool)
    (String_filter : Field → option (option string → bool))
    (email password role adminKey : Field) (s : State) :
  applications
    (loginUser ADMIN_KEY bcrypt_compare String_filter email password role
       adminKey s).2
  = applications s.
Proof.
  destruct (loginUser_run ADMIN_KEY bcrypt_compare String_filter email
              password role adminKey s) as [Hstore _].
  by injection Hstore.
Qed.

(** A gate reads the session and leaves the state as it is. *)
Lemma guarded_role_gate gate role handler s :
  role_gate gate role →
  guarded gate handler s = handler s
  ∨ ∃ r, guarded gate handler s = (Ok r, s).
Proof.
  intros Hg. pose proof (role_gate_decision gate role s Hg) as H.
  case_bool_decide.
  - left. by apply guarded_Next.
  - right. destruct H as (r & _ & H). exists r. by apply guarded_Respond.
Qed.

Lemma handle_preserves_unique (env : Env) (now : Z) (req : Request)
    (s : State) :
  unique_applications (applications s) →
  unique_applications (applications (handle env now req s).2).
Proof.
  intros Huniq.
  assert (Hgate : ∀ gate role handler,
            role_gate gate role →
            unique_applications (applications (handler s).2) →
            unique_applications (applications (guarded gate handler s).2)).
  { intros gate role handler Hg Hh.
    destruct (guarded_role_gate gate role handler s Hg) as [-> | [r ->]];
      done. }
  destruct (delete_routes_keep_pairs s) as (Hcompany & Hjob & Huser).
  destruct req; simpl.
  - by rewrite loginUser_keeps_applications.
  - apply (Hgate _ _ _ role_gate_isStudent).
    by apply apply_preserves_unique.
  - apply (Hgate _ _ _ role_gate_isStudent).
    by rewrite resume_upload_keeps_applications.
  - apply (Hgate _ _ _ role_gate_isCompany).
    by apply (keeps_pairs_unique _ _ (Hcompany jobId)).
  - apply (Hgate _ _ _ role_gate_isCompany).
    by apply (keeps_pairs_unique _ _
                (status_route_keeps_pairs _ s applicationId status form)).
  - apply (Hgate _ _ _ role_gate_isCompany).
    by apply (keeps_pairs_unique _ _
                (schedule_route_keeps_pairs _ s applicationId form)).
  - apply (Hgate _ _ _ role_gate_isAdmin).
    by apply (keeps_pairs_unique _ _ (Huser _ _ userId query_role)).
  - apply (Hgate _ _ _ role_gate_isAdmin).
    by apply (keeps_pairs_unique _ _ (Hjob jobId)).
  - by apply studentApply_preserves_unique.
  - by apply (keeps_pairs_unique _ _
                (updateApplicationStatus_keeps_pairs s appId status)).
Qed.

(** X1. Whatever requests arrive, in whatever order and from whatever
    sessions, a portal that has at most one application per (student, job)
    pair still has. *)
Theorem unique_applications_invariant (env : Env) (arrivals : list Arrival)
    (s : State) :
  unique_applications (applications s) →
  unique_applications (applications (serve env arrivals s)).
Proof.
  revert s. induction arrivals as [| a rest IH]; intros s Huniq; [done |].
  simpl. apply IH. by apply handle_preserves_unique.
Qed.

(** * More properties *)

Lemma unique_applications_invariant_witness :
  unique_applications
    (applications (serve demo_env demo_morning (Demo.portal None))).
Proof.
  apply unique_applications_invariant.
  refine (bool_decide_unpack _ _). vm_compute. exact I.
Defined.

(** ** One request, seen from the jobs and the applications *)

Lemma Application_save_run (d : Doc Application.t) (s : State) :
  Application_save d s
  = if Application.validate (fields d)
    then (Ok tt, mkState (users s) (jobs s)
                   (<[_id d := fields d]> (applications s))
                   (session_user s) (oplog s ++ [Application_save_op]))
    else (Throw ValidationError, s).
Proof.
  unfold Application_save. unfold_monad.
  by destruct (Application.validate (fields d)).
Qed.

Lemma assign_interview_core (Date_parse : string → JsDate)
    (form : InterviewForm) (a : Application.t) :
  application_core (assign_interview Date_parse form a) = application_core a.
Proof.
  unfold assign_interview, when_supplied.
  destruct (interviewDate form), (interviewMode form),
    (interviewLocation form), (interviewLink form);
    repeat case_bool_decide; done.
Qed.

Lemma updated_application_core (Date_parse : string → JsDate) (st : string)
    (form : InterviewForm) (a : Application.t) :
  application_core (updated_application Date_parse st form a)
  = application_core a.
Proof.
  unfold updated_application.
  destruct (bool_decide (st = "shortlisted") || bool_decide (st = "Shortlisted"));
    [| done].
  by rewrite assign_interview_core.
Qed.

Lemma store_step_guarded gate role handler s :
  role_gate gate role →
  store_step s (handler s).2 → store_step s (guarded gate handler s).2.
Proof.
  intros Hg Hh.
  destruct (guarded_role_gate gate role handler s Hg) as [-> | [r ->]];
    [done | by apply step_same].
Qed.

Lemma loginUser_store_step (ADMIN_KEY : option string)
    (bcrypt_compare : string → string → option bool)
    (String_filter : Field → option (option string → bool))
    (email password role adminKey : Field) (s : State) :
  store_step s
    (loginUser ADMIN_KEY bcrypt_compare String_filter email password role
       adminKey s).2.
Proof.
  destruct (loginUser_run ADMIN_KEY bcrypt_compare String_filter email
              password role adminKey s) as [Hstore _].
  injection Hstore as _ Hjobs Happs. by apply step_same.
Qed.

Lemma apply_store_step (s : State) (now : Z) (jobId : ObjectId) :
  store_step s (student_post_jobs_apply now jobId s).2.
Proof.
  destruct (apply_inversion s now jobId)
    as (_ & Hjobs & _ & [[Happs _] | Hdone]); [by apply step_same |].
  destruct Hdone as (user & job & _ & Hresume & Hjob & _ & _ & Hnone & _ & Happs).
  apply (step_create s _ (fresh (dom (applications s)))
           (new_application now user (jobId, job)) job); try done.
  - apply lookup_fresh_dom.
  - by apply validate_new_application.
  - by apply find_one_by_student_and_job.
Qed.

Lemma resume_upload_store_step (ObjectId_toString : ObjectId → string)
    (Z_toString : Z → string) (now : Z) (resumeFile : option UploadedFile)
    (wants_json : bool) (s : State) :
  store_step s
    (student_post_profile_resume ObjectId_toString Z_toString now resumeFile
       wants_json s).2.
Proof.
  unfold student_post_profile_resume. run.
  destruct resumeFile as [file |]; [| destruct wants_json; by apply step_same].
  destruct (includes "pdf" (mimetype file)); simpl;
    [| destruct wants_json; by apply step_same].
  destruct (session_user s) as [me |]; simpl;
    [| destruct wants_json; by apply step_same].
  destruct (mv_succeeds file); simpl;
    [| destruct wants_json; by apply step_same].
  destruct (users s !! _id me); simpl; destruct wants_json; by apply step_same.
Qed.

Lemma company_delete_job_store_step (s : State) (jobId : ObjectId) :
  store_step s (company_delete_job jobId s).2.
Proof.
  unfold company_delete_job. run.
  destruct (session_user s) as [me |]; simpl; [| by apply step_same].
  destruct (find_one _ (jobs s)); simpl; [| by apply step_same].
  by apply (step_delete_job s _ jobId).
Qed.

Lemma admin_delete_job_store_step (s : State) (jobId : ObjectId) :
  store_step s (admin_delete_job jobId s).2.
Proof. unfold admin_delete_job. run. by apply (step_delete_job s _ jobId). Qed.

Lemma admin_delete_user_store_step (ObjectId_toString : ObjectId → string)
    (ObjectId_cast : string → option ObjectId) (s : State) (userId : string)
    (query_role : option string) :
  store_step s
    (admin_delete_user ObjectId_toString ObjectId_cast userId query_role s).2.
Proof.
  unfold admin_delete_user, with_ObjectId. run.
  destruct (session_user s) as [me |]; simpl; [| by apply step_same].
  case_bool_decide; simpl; [by apply step_same |].
  destruct (ObjectId_cast userId) as [id |]; simpl;
    [| repeat (case_bool_decide; simpl); by apply step_same].
  case_bool_decide; simpl; [by apply (step_delete_student s _ id) |].
  case_bool_decide; simpl;
    [by apply (step_delete_company s _ id) | by apply step_same].
Qed.

Lemma save_existing_store_step (s s' : State) (d : Doc Application.t)
    (a' : Application.t) :
  store s' = store s →
  applications s !! _id d = Some (fields d) →
  application_core a' = application_core (fields d) →
  store_step s (Application_save (_id d, a') s').2.
Proof.
  intros [= _ Hjobs Happs] Hd Hcore. rewrite Application_save_run. simpl.
  destruct (Application.validate a') eqn:Hvalid; simpl.
  - apply (step_update s _ (_id d) (fields d) a'); try done.
    simpl. by rewrite Happs.
  - by apply step_same.
Qed.

Lemma status_route_store_step (Date_parse : string → JsDate) (s : State)
    (applicationId : ObjectId) (status : option string)
    (form : InterviewForm) :
  store_step s
    (company_post_application_status Date_parse applicationId status
       form s).2.
Proof.
  destruct (owned_application_run s applicationId) as [Hstore Hd].
  unfold company_post_application_status. unfold_monad.
  destruct (owned_application applicationId s) as [[[d |] | e] s'];
    simpl in *; try (injection Hstore as _ Hj Ha; by apply step_same).
  destruct (Hd d eq_refl) as [<- Ha].
  destruct status as [st |]; simpl;
    [| injection Hstore as _ Hj Ha'; by apply step_same].
  pose proof (save_existing_store_step s s' d
                (updated_application Date_parse st form (fields d)) Hstore Ha
                (updated_application_core Date_parse st form (fields d)))
    as Hsave.
  unfold updated_application in Hsave.
  by destruct (Application_save _ s') as [[[] | e] s''].
Qed.

Lemma schedule_route_store_step (Date_parse : string → JsDate) (s : State)
    (applicationId : ObjectId) (form : InterviewForm) :
  store_step s
    (company_post_schedule_interview Date_parse applicationId form s).2.
Proof.
  destruct (owned_application_run s applicationId) as [Hstore Hd].
  unfold company_post_schedule_interview. unfold_monad.
  destruct (owned_application applicationId s) as [[[d |] | e] s'];
    simpl in *; try (injection Hstore as _ Hj Ha; by apply step_same).
  destruct (Hd d eq_refl) as [<- Ha].
  pose proof (save_existing_store_step s s' d
                (assign_interview Date_parse form (fields d)) Hstore Ha
                (assign_interview_core Date_parse form (fields d)))
    as Hsave.
  by destruct (Application_save _ s') as [[[] | e] s''].
Qed.

Lemma updateApplicationStatus_store_step (s : State) (appId : ObjectId)
    (status : option string) :
  store_step s (updateApplicationStatus appId status s).2.
Proof.
  unfold updateApplicationStatus. run. unfold find_by_id.
  destruct (applications s !! appId) as [a |] eqn:Ha; simpl;
    [| by apply step_same].
  destruct (session_user s) as [me |]; simpl; [| by apply step_same].
  case_bool_decide; simpl; [| by apply step_same].
  destruct (Application.validate _) eqn:Hvalid; simpl; [| by apply step_same].
  eapply (step_update s _ appId a); [done | done | | exact Hvalid | done].
  by destruct status.
Qed.

Lemma studentApply_store_step (s : State) (now : Z) (jobId : ObjectId)
    (coverLetter : option string) :
  store_step s (studentApply now jobId coverLetter s).2.
Proof.
  unfold studentApply. run. unfold find_by_id.
  destruct (jobs s !! jobId) as [job |] eqn:Hjob; simpl; [| by apply step_same].
  destruct (session_user s) as [me |]; simpl; [| by apply step_same].
  destruct (find_one _ (applications s)) eqn:Hfind; simpl;
    [by apply step_same |].
  destruct (Application.validate _) eqn:Hvalid; simpl; [| by apply step_same].
  match goal with |- context [<[_ := ?a]> (applications s)] =>
    apply (step_create s _ (fresh (dom (applications s))) a job) end;
    try done.
  - apply lookup_fresh_dom.
  - simpl. by apply find_one_by_student_and_job.
Qed.

Lemma handle_store_step (env : Env) (now : Z) (req : Request) (s : State) :
  store_step s (handle env now req s).2.
Proof.
  destruct req; simpl.
  - apply loginUser_store_step.
  - apply (store_step_guarded _ _ _ _ role_gate_isStudent), apply_store_step.
  - apply (store_step_guarded _ _ _ _ role_gate_isStudent),
      resume_upload_store_step.
  - apply (store_step_guarded _ _ _ _ role_gate_isCompany),
      company_delete_job_store_step.
  - apply (store_step_guarded _ _ _ _ role_gate_isCompany),
      status_route_store_step.
  - apply (store_step_guarded _ _ _ _ role_gate_isCompany),
      schedule_route_store_step.
  - apply (store_step_guarded _ _ _ _ role_gate_isAdmin),
      admin_delete_user_store_step.
  - apply (store_step_guarded _ _ _ _ role_gate_isAdmin),
      admin_delete_job_store_step.
  - apply studentApply_store_step.
  - apply updateApplicationStatus_store_step.
Qed.

(** ** Invariants of the store *)

Lemma linked_applications_spec (s : State) :
  linked_applications s ↔
  ∀ i a, applications s !! i = Some a →
         ∃ job, jobs s !! Application.jobId a = Some job
                ∧ Application.companyId a = Job.companyId job.
Proof.
  unfold linked_applications, map_Forall. split; intros H i a Ha.
  - specialize (H i a Ha).
    destruct (jobs s !! Application.jobId a) as [job |]; [| done].
    injection H as H. by exists job.
  - destruct (H i a Ha) as (job & -> & ->). done.
Qed.

Lemma store_step_linked (s s' : State) :
  store_step s s' → linked_applications s → linked_applications s'.
Proof.
  rewrite !linked_applications_spec.
  intros [Hj Ha | i a a' Hj Hi Hcore _ Ha | i a job Hj Hi Hjob Hc _ _ _ Ha
          | jobId Hj Ha | userId Hj Ha | userId Hj Ha] Hlinked k b Hb;
    rewrite Ha in Hb; rewrite Hj.
  - by apply (Hlinked k).
  - apply lookup_insert_Some in Hb as [[<- <-] | [_ Hb]];
      [| by apply (Hlinked k)].
    injection Hcore as _ Hjob Hcompany _ _ _ _.
    rewrite Hjob, Hcompany. by apply (Hlinked i).
  - apply lookup_insert_Some in Hb as [[<- <-] | [_ Hb]];
      [by exists job | by apply (Hlinked k)].
  - apply lookup_delete_many in Hb as [Hb Hother].
    unfold by_job in Hother. simpl in Hother.
    apply bool_decide_eq_false in Hother.
    rewrite lookup_delete_ne by done. by apply (Hlinked k).
  - apply lookup_delete_many in Hb as [Hb Hother].
    unfold by_job_in in Hother. simpl in Hother.
    apply bool_decide_eq_false in Hother.
    destruct (Hlinked k b Hb) as (job & Hjob & Hcompany).
    exists job. split; [| done].
    apply lookup_delete_many. split; [done |].
    unfold by_company. simpl. apply bool_decide_eq_false. intros Hown.
    apply Hother, elem_of_find_all_ids. exists job. split; [done |].
    unfold by_company. simpl. by apply bool_decide_eq_true.
  - apply lookup_delete_many in Hb as [Hb _]. by apply (Hlinked k).
Qed.

Lemma store_step_valid (s s' : State) :
  store_step s s' →
  valid_applications (applications s) → valid_applications (applications s').
Proof.
  unfold valid_applications, map_Forall.
  intros [Hj Ha | i a a' Hj Hi _ Hv Ha | i a job Hj Hi _ _ _ Hv _ Ha
          | jobId Hj Ha | userId Hj Ha | userId Hj Ha] Hvalid k b Hb;
    rewrite Ha in Hb.
  - by apply (Hvalid k).
  - apply lookup_insert_Some in Hb as [[<- <-] | [_ Hb]];
      [done | by apply (Hvalid k)].
  - apply lookup_insert_Some in Hb as [[<- <-] | [_ Hb]];
      [done | by apply (Hvalid k)].
  - apply lookup_delete_many in Hb as [Hb _]. by apply (Hvalid k).
  - apply lookup_delete_many in Hb as [Hb _]. by apply (Hvalid k).
  - apply lookup_delete_many in Hb as [Hb _]. by apply (Hvalid k).
Qed.

(** X2. Over any sequence of requests, every application keeps referring
    to a stored job and carrying the company of that job, if this was so
    at the start: the deletions take the applications along, and nothing
    else can detach one. *)
Theorem linked_applications_invariant (env : Env) (arrivals : list Arrival)
    (s : State) :
  linked_applications s → linked_applications (serve env arrivals s).
Proof.
  revert s. induction arrivals as [| a rest IH]; intros s Hlinked; [done |].
  simpl. apply IH.
  apply (store_step_linked (with_session (session a) s));
    [apply handle_store_step | done].
Qed.

Lemma linked_applications_invariant_witness :
  linked_applications (serve demo_env demo_morning (Demo.portal None)).
Proof.
  apply linked_applications_invariant.
  refine (bool_decide_unpack _ _). vm_compute. exact I.
Defined.

(** X3. Over any sequence of requests, every stored application passes
    the validation of its schema, if this was so at the start: a status
    that is unset or within the enum, a resume reference, an interview
    mode that is unset or within its enum, and an interview date that is
    unset or valid. *)
Theorem valid_applications_invariant (env : Env) (arrivals : list Arrival)
    (s : State) :
  valid_applications (applications s) →
  valid_applications (applications (serve env arrivals s)).
Proof.
  revert s. induction arrivals as [| a rest IH]; intros s Hvalid; [done |].
  simpl. apply IH.
  apply (store_step_valid (with_session (session a) s));
    [apply handle_store_step | done].
Qed.

Lemma valid_applications_invariant_witness :
  valid_applications
    (applications (serve demo_env demo_morning (Demo.portal None))).
Proof.
  apply valid_applications_invariant.
  refine (bool_decide_unpack _ _). vm_compute. exact I.
Defined.

(** X4. No request creates or changes a job, and no request changes the
    student, the job, the company, the applied date, the resume, the cover
    letter or the feedback of a stored application: a request can only
    delete jobs and applications, add an application, and change the status
    and the interview attributes of one. *)
Theorem request_keeps_application_core (env : Env) (now : Z) (req : Request)
    (s : State) :
  let s' := (handle env now req s).2 in
  (∀ j job, jobs s' !! j = Some job → jobs s !! j = Some job)
  ∧ (∀ i a a', applications s !! i = Some a →
               applications s' !! i = Some a' →
               application_core a' = application_core a).
Proof.
  intros s'.
  destruct (handle_store_step env now req s)
    as [Hj Ha | i a a' Hj Hi Hcore _ Ha | i a job Hj Hi _ _ _ _ _ Ha
        | jobId Hj Ha | userId Hj Ha | userId Hj Ha];
    fold s' in Hj, Ha; rewrite Hj, Ha;
    (split; [intros j job' Hjob' | intros k b b' Hb Hb']);
    try done; try congruence.
  - apply lookup_insert_Some in Hb' as [[<- <-] | [_ Hb']]; congruence.
  - apply lookup_insert_Some in Hb' as [[<- <-] | [_ Hb']]; congruence.
  - by apply lookup_delete_Some in Hjob' as [_ ?].
  - apply lookup_delete_many in Hb' as [Hb' _]. congruence.
  - by apply lookup_delete_many in Hjob' as [? _].
  - apply lookup_delete_many in Hb' as [Hb' _]. congruence.
  - apply lookup_delete_many in Hb' as [Hb' _]. congruence.
Qed.

Lemma request_keeps_application_core_witness :
  let s := Demo.portal (Some Demo.acme) in
  let s' := (handle demo_env 520
               (PostCompanyStatus 20 (Some "hired")
                  (mkInterviewForm None (Some "Online") None None)) s).2 in
  Application.status <$> applications s' !! 20%N = Some (Some "hired")
  ∧ ∀ a', applications s' !! 20%N = Some a' →
          application_core a' = application_core (Demo.application_to 10).
Proof.
  intros s s'. split; [reflexivity |]. intros a' Ha'.
  destruct (request_keeps_application_core demo_env 520
              (PostCompanyStatus 20 (Some "hired")
                 (mkInterviewForm None (Some "Online") None None)) s)
    as [_ Hcore].
  by apply (Hcore 20%N (Demo.application_to 10) a').
Defined.

(** ** Deletions *)


Lemma admin_delete_user_plain_run_witness :
  let s := Demo.portal (Some Demo.admin) in
  let r := admin_delete_user demo_ObjectId_toString demo_ObjectId_cast
             "000000000000000000000002" (Some "Company") s in
  r.1 = Ok (Json 200 (JMessage "User deleted successfully"))
  ∧ users r.2 = delete 2%N (users s)
  ∧ jobs r.2 = jobs s
  ∧ applications r.2 = applications s.
Proof.
  apply (admin_delete_user_plain_run _ _ _ Demo.admin);
    [reflexivity | discriminate | reflexivity | discriminate | discriminate].
Defined.

(** X6. Deleting a job, by the administrator or through the company
    route (whoever asks, and whether or not the deletion goes through),
    leaves the users, every other job and every application to another job
    as they were. *)
Theorem delete_job_keeps_rest (s : State) (jobId : ObjectId) :
  (let r := admin_delete_job jobId s in
   users r.2 = users s
   ∧ (∀ j, j ≠ jobId → jobs r.2 !! j = jobs s !! j)
   ∧ (∀ i a, applications s !! i = Some a →
             Application.jobId a ≠ jobId →
             applications r.2 !! i = Some a))
  ∧ (let r := company_delete_job jobId s in
     users r.2 = users s
     ∧ (∀ j, j ≠ jobId → jobs r.2 !! j = jobs s !! j)
     ∧ (∀ i a, applications s !! i = Some a →
               Application.jobId a ≠ jobId →
               applications r.2 !! i = Some a)).
Proof.
  assert (Hkept : ∀ i a, applications s !! i = Some a →
                         Application.jobId a ≠ jobId →
                         delete_many (by_job jobId) (applications s) !! i
                         = Some a).
  { intros i a Ha Hj. rewrite delete_many_by_job, Ha.
    by rewrite bool_decide_eq_false_2. }
  split; cbv zeta.
  - destruct (admin_delete_job_run s jobId) as (_ & -> & -> & ->).
    split; [done |]. split; [| done].
    intros j Hj. by apply lookup_delete_ne.
  - unfold company_delete_job. run.
    destruct (session_user s) as [me |]; simpl; [| done].
    destruct (find_one _ (jobs s)); simpl; [| done].
    split; [done |]. split; [| done].
    intros j Hj. by apply lookup_delete_ne.
Qed.

Lemma delete_job_keeps_rest_witness :
  let s := Demo.portal (Some Demo.admin) in
  let r := admin_delete_job 10 s in
  applications r.2 !! 20%N = None
  ∧ applications r.2 !! 21%N = Some (Demo.application_to 11)
  ∧ jobs r.2 !! 11%N = Some Demo.ops_job.
Proof.
  intros s r. split; [reflexivity |].
  destruct (delete_job_keeps_rest s 10) as [(_ & Hjobs & Happs) _].
  split.
  - by apply (Happs 21%N (Demo.application_to 11)).
  - fold r in Hjobs. by rewrite Hjobs.
Defined.

(** X7. When the administrator deletes another user with [role=student]
    in the query, the user goes and with it exactly the applications whose
    student it is: every other application stays, and so does every job.
    The parameter is any text other than the rendering of the session
    user's id that casts to the id of the user. *)
Theorem admin_delete_student_cascade (ObjectId_toString : ObjectId → string)
    (ObjectId_cast : string → option ObjectId) (s : State) (me : Doc User.t)
    (param : string) (userId : ObjectId) :
  session_user s = Some me →
  param ≠ ObjectId_toString (_id me) →
  ObjectId_cast param = Some userId →
  let r := admin_delete_user ObjectId_toString ObjectId_cast param
             (Some "student") s in
  r.1 = Ok (Json 200 (JMessage "User deleted successfully"))
  ∧ users r.2 !! userId = None
  ∧ jobs r.2 = jobs s
  ∧ ∀ i a, applications r.2 !! i = Some a
           ↔ applications s !! i = Some a
             ∧ Application.studentId a ≠ userId.
Proof.
  intros Hsession Hother Hcast.
  destruct (admin_delete_user_student_run ObjectId_toString ObjectId_cast s me
              param userId Hsession Hother Hcast)
    as (Hok & Husers & Hjobs & Happs).
  simpl. rewrite Husers, Happs.
  split; [done |]. split; [apply lookup_delete_eq |]. split; [done |].
  intros i a. rewrite lookup_delete_many. unfold by_student. simpl.
  by rewrite bool_decide_eq_false.
Qed.

Lemma admin_delete_student_cascade_witness :
  let s := Demo.portal (Some Demo.admin) in
  let r := admin_delete_user demo_ObjectId_toString demo_ObjectId_cast
             "000000000000000000000004" (Some "student") s in
  r.1 = Ok (Json 200 (JMessage "User deleted successfully"))
  ∧ users r.2 !! 4%N = None
  ∧ jobs r.2 = jobs s
  ∧ applications r.2 !! 20%N = None.
Proof.
  intros s r.
  destruct (admin_delete_student_cascade demo_ObjectId_toString
              demo_ObjectId_cast s Demo.admin "000000000000000000000004" 4)
    as (Hok & Huser & Hjobs & Happs);
    [reflexivity | discriminate | reflexivity |].
  split; [exact Hok |]. split; [exact Huser |]. split; [exact Hjobs |].
  destruct (applications r.2 !! 20%N) as [a |] eqn:Ha; [| reflexivity].
  apply Happs in Ha as [Ha Hne]. vm_compute in Ha. injection Ha as <-.
  by destruct Hne.
Defined.

(** ** Interviews and statuses *)


Lemma schedule_route_owner (Date_parse : string → JsDate) (s : State)
    (appId : ObjectId) (a : Application.t) (job : Job.t) (me : Doc User.t)
    (form : InterviewForm) :
  applications s !! appId = Some a →
  jobs s !! Application.jobId a = Some job →
  session_user s = Some me →
  Job.companyId job = _id me →
  let a' := assign_interview Date_parse form a in
  let r := company_post_schedule_interview Date_parse appId form s in
  users r.2 = users s ∧ jobs r.2 = jobs s
  ∧ if Application.validate a'
    then r.1 = Ok (Json 200 (JMessage "Interview scheduled successfully"))
         ∧ applications r.2 = <[appId := a']> (applications s)
    else r.1 = Ok (Json 500 (JError "Failed to schedule interview"))
         ∧ applications r.2 = applications s.
Proof.
  intros Ha Hjob Hsession Hown a' r. subst r a'.
  destruct (owned_application_owner s appId a job me Ha Hjob Hsession Hown)
    as (Hres & Hstore & _).
  unfold company_post_schedule_interview.
  unfold_monad. destruct (owned_application appId s) as [res s'].
  simpl in Hres, Hstore. subst res. injection Hstore as Hu Hj Happs.
  simpl. rewrite Application_save_run. simpl.
  destruct (Application.validate _); simpl; by rewrite ?Happs.
Qed.

(** X9. When the company that owns the job schedules an interview, the
    application stays on record with its status and everything else but
    the four interview attributes as they were; each interview attribute
    is as it was or has the value of its own form field, which was then
    supplied; and when the result passes validation it is what is
    stored. *)
Theorem schedule_interview_by_owner (Date_parse : string → JsDate)
    (s : State) (appId : ObjectId) (a : Application.t) (job : Job.t)
    (me : Doc User.t) (form : InterviewForm) :
  applications s !! appId = Some a →
  jobs s !! Application.jobId a = Some job →
  session_user s = Some me →
  Job.companyId job = _id me →
  let r := company_post_schedule_interview Date_parse appId form s in
  ∃ a',
    applications r.2 !! appId = Some a'
    ∧ Application.status a' = Application.status a
    ∧ application_core a' = application_core a
    ∧ (Application.interviewDate a' = Application.interviewDate a
       ∨ ∃ v, interviewDate form = Some v ∧ v ≠ ""
              ∧ Application.interviewDate a' = Some (Date_parse v))
    ∧ (Application.interviewMode a' = Application.interviewMode a
       ∨ ∃ v, interviewMode form = Some v ∧ v ≠ ""
              ∧ Application.interviewMode a' = Some v)
    ∧ (Application.interviewLocation a' = Application.interviewLocation a
       ∨ ∃ v, interviewLocation form = Some v ∧ v ≠ ""
              ∧ Application.interviewLocation a' = Some v)
    ∧ (Application.interviewLink a' = Application.interviewLink a
       ∨ ∃ v, interviewLink form = Some v ∧ v ≠ ""
              ∧ Application.interviewLink a' = Some v)
    ∧ (Application.validate (assign_interview Date_parse form a) = true →
       r.1 = Ok (Json 200 (JMessage "Interview scheduled successfully"))
       ∧ a' = assign_interview Date_parse form a).
Proof.
  intros Ha Hjob Hsession Hown r.
  destruct (schedule_route_owner Date_parse s appId a job me form
              Ha Hjob Hsession Hown) as (_ & _ & Hrun).
  fold r in Hrun.
  destruct (Application.validate (assign_interview Date_parse form a));
    destruct Hrun as [Hok Happs]; rewrite Happs; clear Happs.
  - exists (assign_interview Date_parse form a).
    split; [apply lookup_insert_eq |].
    destruct (assign_interview_fields Date_parse form a)
      as (Hstatus & Hdate & Hmode & Hlocation & Hlink).
    split; [done |]. split; [apply assign_interview_core |].
    by repeat split.
  - exists a. repeat split; try (by left); done.
Qed.

Lemma schedule_interview_by_owner_witness :
  let s := Demo.portal (Some Demo.acme) in
  let form := mkInterviewForm None (Some "Offline") (Some "Room 4") None in
  let r := company_post_schedule_interview Demo.epoch 20 form s in
  ∃ a',
    applications r.2 !! 20%N = Some a'
    ∧ Application.status a' = Some "pending"
    ∧ r.1 = Ok (Json 200 (JMessage "Interview scheduled successfully"))
    ∧ interview_fields a' = (None, Some "Offline", Some "Room 4", None).
Proof.
  intros s form r.
  destruct (schedule_interview_by_owner Demo.epoch s 20
              (Demo.application_to 10) Demo.dev_job Demo.acme form)
    as (a' & Ha' & Hstatus & _ & _ & _ & _ & _ & Hstored);
    [reflexivity | reflexivity | reflexivity | reflexivity |].
  destruct Hstored as [Hok ->]; [reflexivity |].
  exists (assign_interview Demo.epoch form (Demo.application_to 10)).
  split; [exact Ha' |]. split; [exact Hstatus |]. split; [exact Hok |].
  reflexivity.
Defined.



Lemma assign_interview_status (Date_parse : string → JsDate)
    (form : InterviewForm) (a : Application.t) :
  Application.status (assign_interview Date_parse form a)
  = Application.status a.
Proof. by destruct (assign_interview_fields Date_parse form a) as [? _]. Qed.

Lemma updated_application_status (Date_parse : string → JsDate) (st : string)
    (form : InterviewForm) (a : Application.t) :
  Application.status (updated_application Date_parse st form a)
  = Some (toLowerCase st).
Proof.
  unfold updated_application.
  destruct (bool_decide (st = "shortlisted") || bool_decide (st = "Shortlisted"));
    [| done].
  by rewrite assign_interview_status.
Qed.

(** X11. The status route cannot take an application out of the status
    enum: when the owning company sends a status that, in lower case, is
    none of pending, shortlisted, rejected and hired, the answer is a 500
    and the store is as it was. *)
Theorem status_route_rejects_unknown_status (Date_parse : string → JsDate)
    (s : State) (appId : ObjectId) (a : Application.t) (job : Job.t)
    (me : Doc User.t) (st : string) (form : InterviewForm) :
  applications s !! appId = Some a →
  jobs s !! Application.jobId a = Some job →
  session_user s = Some me →
  Job.companyId job = _id me →
  toLowerCase st ∉ Application.status_enum →
  let r := company_post_application_status Date_parse appId (Some st) form s in
  r.1 = Ok (Json 500 (JError "Failed to update status"))
  ∧ store r.2 = store s.
Proof.
  intros Ha Hjob Hsession Hown Hunknown r.
  destruct (status_route_owner Date_parse s appId a job me st form
              Ha Hjob Hsession Hown) as (Husers & Hjobs & Hrun).
  fold r in Husers, Hjobs, Hrun.
  assert (Hinvalid : Application.validate
                       (updated_application Date_parse st form a) = false).
  { unfold Application.validate. rewrite updated_application_status.
    by rewrite (bool_decide_eq_false_2 _ Hunknown). }
  rewrite Hinvalid in Hrun. destruct Hrun as [Hok Happs].
  split; [done |]. unfold store. by rewrite Husers, Hjobs, Happs.
Qed.

Lemma status_route_rejects_unknown_status_witness :
  let s := Demo.portal (Some Demo.acme) in
  let r := company_post_application_status Demo.epoch 20 (Some "Accepted")
             (mkInterviewForm None None None None) s in
  r.1 = Ok (Json 500 (JError "Failed to update status"))
  ∧ store r.2 = store s.
Proof.
  apply (status_route_rejects_unknown_status Demo.epoch _ 20
           (Demo.application_to 10) Demo.dev_job Demo.acme);
    [reflexivity | reflexivity | reflexivity | reflexivity |].
  intros Hin. vm_compute in Hin.
  repeat (apply elem_of_cons in Hin as [Hin | Hin]; [discriminate |]).
  by apply elem_of_nil in Hin.
Defined.

(** X12. Both company routes answer 500, and change nothing, when the
    application is on record but the job it refers to is not: reading the
    company of the missing job throws. *)
Theorem company_routes_missing_job (Date_parse : string → JsDate)
    (s : State) (appId : ObjectId) (a : Application.t)
    (status : option string) (form : InterviewForm) :
  applications s !! appId = Some a →
  jobs s !! Application.jobId a = None →
  (let r := company_post_application_status Date_parse appId status form s in
   r.1 = Ok (Json 500 (JError "Failed to update status"))
   ∧ store r.2 = store s)
  ∧ (let r := company_post_schedule_interview Date_parse appId form s in
     r.1 = Ok (Json 500 (JError "Failed to schedule interview"))
     ∧ store r.2 = store s).
Proof.
  intros Ha Hjob.
  split; unfold company_post_application_status,
           company_post_schedule_interview, owned_application, store; run;
    unfold find_by_id; rewrite Ha; simpl; by rewrite Hjob.
Qed.

Lemma company_routes_missing_job_witness :
  let s := mkState Demo.all_users (delete 10%N Demo.all_jobs)
             (applications (Demo.portal None)) (Some Demo.acme) [] in
  (company_post_application_status Demo.epoch 20 (Some "hired")
     (mkInterviewForm None None None None) s).1
  = Ok (Json 500 (JError "Failed to update status")).
Proof.
  intros s.
  destruct (company_routes_missing_job Demo.epoch s 20
              (Demo.application_to 10) (Some "hired")
              (mkInterviewForm None None None None))
    as [[Hstatus _] _]; [reflexivity | reflexivity |].
  exact Hstatus.
Defined.

(** ** Signing in *)

(** The filter [{ email, role }] on a user, when both fields are texts. *)
Lemma login_filter_spec (email role : string) (i : N) (u : User.t) :
  (bool_decide (User.email (fields (i, u)) = Some email)
   && bool_decide (Some (User.role (fields (i, u))) = Some role)) = true
  ↔ User.email u = Some email ∧ User.role u = role.
Proof.
  rewrite andb_true_iff, !bool_decide_eq_true. simpl.
  split; intros [? ?]; split; congruence.
Qed.

(** A user that the filter selects has the email and the role of the
    request, as far as these are texts. *)
Lemma by_email_and_role_Some
    (String_filter : Field → option (option string → bool))
    (email role : Field) (filter : Doc User.t → bool) (u : Doc User.t) :
  by_email_and_role String_filter email role = Some filter →
  filter u = true →
  (∀ e, email = Some (VText e) → User.email (fields u) = Some e)
  ∧ (∀ ro, role = Some (VText ro) → User.role (fields u) = ro).
Proof.
  unfold by_email_and_role. intros Hfilter Hmatch.
  destruct (filter_on String_filter email) as [on_email |] eqn:Hemail;
    [| done].
  destruct (filter_on String_filter role) as [on_role |] eqn:Hrole; [| done].
  injection Hfilter as <-. apply andb_true_iff in Hmatch as [He Hr].
  split.
  - intros e ->. simpl in Hemail. injection Hemail as <-.
    by apply bool_decide_eq_true in He.
  - intros ro ->. simpl in Hrole. injection Hrole as <-.
    apply bool_decide_eq_true in Hr. by injection Hr.
Qed.

(** A wrong password: when the role is not the text admin and every user
    that the filter selects has a hash that the password does not match,
    the login is answered with the invalid-credentials failure. *)
Lemma login_wrong_password (ADMIN_KEY : option string)
    (bcrypt_compare : string → string → option bool)
    (String_filter : Field → option (option string → bool)) (s : State)
    (email role adminKey : Field) (plain : string)
    (filter : Doc User.t → bool) :
  is_text "admin" role = false →
  by_email_and_role String_filter email role = Some filter →
  (∀ i u, users s !! i = Some u → filter (i, u) = true →
          ∃ hash, User.password u = Some hash
                  ∧ bcrypt_compare plain hash = Some false) →
  (loginUser ADMIN_KEY bcrypt_compare String_filter email
     (Some (VText plain)) role adminKey s).1
  = Ok InvalidCredentials.
Proof.
  intros Hrole Hfilter Hwrong. unfold loginUser, comparePassword. run.
  rewrite Hrole. simpl. rewrite Hfilter. simpl.
  destruct (find_one filter (users s)) as [[i u] |] eqn:Hfind; simpl;
    [| done].
  apply find_one_Some in Hfind as [Hu Hmatch]. simpl in Hu.
  destruct (Hwrong i u Hu Hmatch) as (hash & -> & Hpw). simpl.
  by rewrite Hpw.
Qed.

(** The user whom a login finds, when the role of the request is not the
    text admin, the filter selects one stored user only, and the password
    matches the hash of that user: whatever the role the user is stored
    with, no admin key is asked for. *)
Lemma login_succeeds (ADMIN_KEY : option string)
    (bcrypt_compare : string → string → option bool)
    (String_filter : Field → option (option string → bool)) (s : State)
    (email role adminKey : Field) (plain hash : string)
    (filter : Doc User.t → bool) (i : ObjectId) (u : User.t) :
  is_text "admin" role = false →
  by_email_and_role String_filter email role = Some filter →
  users s !! i = Some u →
  filter (i, u) = true →
  (∀ j v, users s !! j = Some v → filter (j, v) = true → j = i) →
  User.password u = Some hash →
  bcrypt_compare plain hash = Some true →
  let r := loginUser ADMIN_KEY bcrypt_compare String_filter email
             (Some (VText plain)) role adminKey s in
  (∃ url, r.1 = Ok (Redirect url))
  ∧ session_user r.2 = Some (i, u)
  ∧ store r.2 = store s.
Proof.
  intros Hrole Hfilter Hu Hmatch Honly Hhash Hpw.
  unfold loginUser, comparePassword, store. run.
  rewrite Hrole. simpl. rewrite Hfilter. simpl.
  destruct (find_one filter (users s)) as [[j v] |] eqn:Hfind; simpl.
  - apply find_one_Some in Hfind as [Hv Hm]. simpl in Hv.
    assert (j = i) as -> by by apply (Honly j v).
    assert (v = u) as -> by congruence.
    rewrite Hhash. simpl. rewrite Hpw. simpl. split; [by eexists | done].
  - rewrite find_one_None in Hfind. by rewrite (Hfind i u Hu) in Hmatch.
Qed.

(** The administrator's email, any password that the stored hash matches,
    and as role the object [{ $ne: "student" }], with no admin key: the
    test for the text admin fails, the key is not asked for, the filter
    selects the administrator, and the login redirects to the admin
    dashboard. With the text admin as role the same request is answered
    with the invalid-key failure. *)
Lemma login_operator_role_skips_admin_key :
  let login role :=
    loginUser (Some "s3cret") Demo.accept_any demo_String_filter
      (Some (VText "root@campus.example")) (Some (VText "pw")) role None
      (Demo.portal None) in
  (login (Some (VText "admin"))).1 = Ok InvalidAdminKey
  ∧ (login (Some (VObject [("$ne", VText "student")]))).1
    = Ok (Redirect "/admin/dashboard")
  ∧ session_user (login (Some (VObject [("$ne", VText "student")]))).2
    = Some Demo.admin.
Proof. by vm_compute. Qed.

(** X13. A login is refused, with the session and the store as they
    were, when no stored user that the filter of the request selects has a
    password hash that the password of the request, a text, matches: an
    unknown email, a role other than the stored one and a wrong password
    end this way, and so do a password that is missing or not a text, a
    user stored without a password, a hash that bcrypt rejects and a field
    that the query cannot cast, which the handler catches. The answer is
    the invalid-key, the invalid-credentials or the login-failed page. *)
Theorem login_rejects_unmatched (ADMIN_KEY : option string)
    (bcrypt_compare : string → string → option bool)
    (String_filter : Field → option (option string → bool)) (s : State)
    (email password role adminKey : Field) :
  (∀ filter i u plain hash,
     by_email_and_role String_filter email role = Some filter →
     users s !! i = Some u →
     filter (i, u) = true →
     password = Some (VText plain) →
     User.password u = Some hash →
     bcrypt_compare plain hash ≠ Some true) →
  let r := loginUser ADMIN_KEY bcrypt_compare String_filter email password
             role adminKey s in
  (r.1 = Ok InvalidAdminKey ∨ r.1 = Ok InvalidCredentials
   ∨ r.1 = Ok LoginFailed)
  ∧ session_user r.2 = session_user s
  ∧ store r.2 = store s.
Proof.
  intros Hnone. unfold loginUser, comparePassword, store. run.
  destruct (is_text "admin" role && _); simpl; [by auto |].
  destruct (by_email_and_role String_filter email role) as [filter |]
    eqn:Hfilter; simpl; [| by auto 10].
  destruct (find_one filter (users s)) as [[i u] |] eqn:Hfind; simpl;
    [| by auto 10].
  apply find_one_Some in Hfind as [Hu Hmatch]. simpl in Hu.
  destruct password as [[| b | m x | plain | items | members] |]; simpl;
    try by auto 10.
  destruct (User.password u) as [hash |] eqn:Hhash; simpl; [| by auto 10].
  destruct (bcrypt_compare plain hash) as [[|] |] eqn:Hpw; simpl;
    [| by auto 10..].
  by destruct (Hnone filter i u plain hash).
Qed.

Lemma login_rejects_unmatched_witness :
  let r := loginUser (Some "s3cret") Demo.accept_any demo_String_filter
             (Some (VText "sam@campus.example")) None
             (Some (VText "student")) None (Demo.portal None) in
  r.1 = Ok LoginFailed
  ∧ session_user r.2 = None
  ∧ store r.2 = store (Demo.portal None).
Proof.
  intros r.
  destruct (login_rejects_unmatched (Some "s3cret") Demo.accept_any
              demo_String_filter (Demo.portal None)
              (Some (VText "sam@campus.example")) None
              (Some (VText "student")) None)
    as (_ & Hsession & Hstore); [by intros | ].
  split; [reflexivity |]. by split.
Defined.

(** X14. A login that ends in a redirect has signed in a stored user that
    the filter of the request selects, and the password of the request is
    a text that the stored hash of that user matches; the store is as it
    was. The user has the email and the role of the request as far as
    these are texts, and the redirect goes to the dashboard of the user's
    role. When the role of the request is the text admin, the admin key
    was supplied and is the configured one. *)
Theorem login_signs_in_stored_user (ADMIN_KEY : option string)
    (bcrypt_compare : string → string → option bool)
    (String_filter : Field → option (option string → bool)) (s : State)
    (email password role adminKey : Field) (url : string) :
  (loginUser ADMIN_KEY bcrypt_compare String_filter email password role
     adminKey s).1
  = Ok (Redirect url) →
  let r := loginUser ADMIN_KEY bcrypt_compare String_filter email password
             role adminKey s in
  store r.2 = store s
  ∧ (role = Some (VText "admin") →
     truthy_value adminKey = true ∧ adminKey = text ADMIN_KEY)
  ∧ ∃ u filter plain hash,
      session_user r.2 = Some u
      ∧ users s !! _id u = Some (fields u)
      ∧ by_email_and_role String_filter email role = Some filter
      ∧ filter u = true
      ∧ password = Some (VText plain)
      ∧ User.password (fields u) = Some hash
      ∧ bcrypt_compare plain hash = Some true
      ∧ (∀ e, email = Some (VText e) → User.email (fields u) = Some e)
      ∧ (∀ ro, role = Some (VText ro) → User.role (fields u) = ro)
      ∧ (User.role (fields u) = "admin" → url = "/admin/dashboard")
      ∧ (User.role (fields u) = "company" → url = "/company/dashboard")
      ∧ (User.role (fields u) = "student" → url = "/student/dashboard").
Proof.
  unfold loginUser, comparePassword, store. run.
  destruct (is_text "admin" role && _) eqn:Hkey; simpl; [done |].
  destruct (by_email_and_role String_filter email role) as [filter |]
    eqn:Hfilter; simpl; [| done].
  destruct (find_one filter (users s)) as [[i u] |] eqn:Hfind; simpl;
    [| done].
  apply find_one_Some in Hfind as [Hu Hmatch]. simpl in Hu.
  destruct password as [[| b | m x | plain | items | members] |]; simpl;
    try done.
  destruct (User.password u) as [hash |] eqn:Hhash; simpl; [| done].
  destruct (bcrypt_compare plain hash) as [[|] |] eqn:Hpw; simpl;
    [| done..].
  intros [= <-]. split; [done |]. split.
  - intros ->. simpl in Hkey. apply orb_false_iff in Hkey as [Hsupplied Hsame].
    apply negb_false_iff in Hsupplied, Hsame.
    by apply strict_eq_env_true in Hsame.
  - exists (i, u), filter, plain, hash.
    destruct (by_email_and_role_Some String_filter email role filter (i, u)
                Hfilter Hmatch) as [Hemail Hrole].
    do 7 (split; [done |]). split; [done |]. split; [done |].
    simpl. by repeat split; intros ->.
Qed.

Lemma login_signs_in_stored_user_witness :
  let r := loginUser (Some "s3cret") Demo.accept_any demo_String_filter
             (Some (VText "hr@acme.example")) (Some (VText "pw"))
             (Some (VText "company")) None (Demo.portal None) in
  r.1 = Ok (Redirect "/company/dashboard")
  ∧ ∃ u, session_user r.2 = Some u
         ∧ User.email (fields u) = Some "hr@acme.example"
         ∧ User.role (fields u) = "company".
Proof.
  intros r. split; [reflexivity |].
  destruct (login_signs_in_stored_user (Some "s3cret") Demo.accept_any
              demo_String_filter (Demo.portal None)
              (Some (VText "hr@acme.example")) (Some (VText "pw"))
              (Some (VText "company")) None "/company/dashboard")
    as (_ & _ & u & _ & _ & _ & Hsession & _ & _ & _ & _ & _ & _ & Hemail
        & Hrole & _);
    [reflexivity |].
  exists u. split; [exact Hsession |].
  split; [by apply Hemail | by apply Hrole].
Defined.

(** ** The two controllers *)

Lemma validate_pending (studentId jobId companyId : ObjectId) (now : Z)
    (resume : option string) (coverLetter : option string) :
  Application.validate
    (Application.mk studentId jobId companyId (Some "pending") now
       (or_default resume "") coverLetter None None None None None)
  = truthy resume.
Proof.
  unfold Application.validate, truthy, or_default. simpl.
  destruct resume as [r |]; [| done].
  destruct (bool_decide (r = "")) eqn:Hr; simpl; [done |].
  by rewrite Hr.
Qed.

(** X15. The controller [studentApply] looks at neither the status nor the
    deadline of the job: for any stored job to which the session's student
    has not applied, it stores a pending application carrying the job's
    company and the student's resume when the student has a resume on
    file, and answers 500 and stores nothing when the student has none. *)
Theorem studentApply_any_stored_job (s : State) (now : Z) (jobId : ObjectId)
    (coverLetter : option string) (me : Doc User.t) (job : Job.t) :
  session_user s = Some me →
  jobs s !! jobId = Some job →
  ¬ has_applied s (_id me) jobId →
  let r := studentApply now jobId coverLetter s in
  if truthy (User.resume (fields me))
  then r.1 = Ok (Json 200 (JSuccess true (Some "Applied successfully")))
       ∧ ∃ i a, applications s !! i = None
                ∧ applications r.2 = <[i := a]> (applications s)
                ∧ Application.studentId a = _id me
                ∧ Application.jobId a = jobId
                ∧ Application.companyId a = Job.companyId job
                ∧ Application.status a = Some "pending"
                ∧ Some (Application.resume a) = User.resume (fields me)
  else r.1 = Ok (Json 500 (JSuccess false (Some "Error applying")))
       ∧ store r.2 = store s.
Proof.
  intros Hsession Hjob Hnew.
  apply find_one_by_student_and_job in Hnew.
  unfold studentApply, store. run. unfold find_by_id. rewrite Hjob. simpl.
  rewrite Hsession. simpl. rewrite Hnew. rewrite validate_pending.
  destruct (truthy (User.resume (fields me))) eqn:Hresume; simpl; [| done].
  split; [done |]. eexists _, _. split; [apply lookup_fresh_dom |].
  split; [done |]. simpl. do 4 (split; [done |]).
  apply truthy_Some in Hresume as (resume & -> & Hne). simpl.
  by rewrite bool_decide_eq_false_2.
Qed.

Lemma studentApply_any_stored_job_witness :
  let s := Demo.fresh_portal (Some Demo.sam) in
  let r := studentApply 5000 11 None s in
  r.1 = Ok (Json 200 (JSuccess true (Some "Applied successfully")))
  ∧ ∃ i a, applications r.2 = <[i := a]> (applications s)
           ∧ Application.jobId a = 11%N
           ∧ Application.status a = Some "pending".
Proof.
  intros s r.
  pose proof (studentApply_any_stored_job s 5000 11 None Demo.sam
                Demo.ops_job) as H.
  destruct H as (Hok & i & a & _ & Happs & _ & Hjob & _ & Hstatus & _);
    [reflexivity | reflexivity | |].
  - intros (i & a & Ha & _). vm_compute in Ha. discriminate.
  - split; [exact Hok |]. by exists i, a.
Defined.

Lemma validate_set_status (status : string) (a : Application.t) :
  Application.validate a = true →
  Application.validate (Application.set_status status a)
  = bool_decide (status ∈ Application.status_enum).
Proof.
  unfold Application.validate. simpl. intros Hvalid.
  apply andb_true_iff in Hvalid as [Hvalid Hdate].
  apply andb_true_iff in Hvalid as [Hvalid Hmode].
  apply andb_true_iff in Hvalid as [_ Hresume].
  rewrite Hresume, Hmode, Hdate. by rewrite !andb_true_r.
Qed.

Lemma validate_unset_status (a : Application.t) :
  Application.validate a = true →
  Application.validate (Application.unset_status a) = true.
Proof.
  unfold Application.validate. simpl. intros Hvalid.
  apply andb_true_iff in Hvalid as [Hvalid Hdate].
  apply andb_true_iff in Hvalid as [Hvalid Hmode].
  apply andb_true_iff in Hvalid as [_ Hresume].
  by rewrite Hresume, Hmode, Hdate.
Qed.

(** X16. The controller [updateApplicationStatus], asked by the company of
    a valid application, stores the status exactly as it is sent when it
    is one of pending, shortlisted, rejected and hired, and leaves
    everything else in the application as it was; any other text, also
    one that differs only in case, is answered 500 and stores nothing; and
    a request without a status is answered with success and leaves the
    application on record without a status. *)
Theorem updateApplicationStatus_by_owner (s : State) (appId : ObjectId)
    (status : option string) (a : Application.t) (me : Doc User.t) :
  applications s !! appId = Some a →
  session_user s = Some me →
  Application.companyId a = _id me →
  Application.validate a = true →
  let r := updateApplicationStatus appId status s in
  users r.2 = users s ∧ jobs r.2 = jobs s
  ∧ match status with
    | Some st =>
        if bool_decide (st ∈ Application.status_enum)
        then r.1 = Ok (Json 200 (JSuccess true None))
             ∧ applications r.2
               = <[appId := Application.set_status st a]> (applications s)
        else r.1 = Ok (Json 500 (JSuccess false (Some "Error updating status")))
             ∧ applications r.2 = applications s
    | None =>
        r.1 = Ok (Json 200 (JSuccess true None))
        ∧ applications r.2
          = <[appId := Application.unset_status a]> (applications s)
    end.
Proof.
  intros Ha Hsession Hown Hvalid.
  unfold updateApplicationStatus. run. unfold find_by_id.
  rewrite Ha. simpl. rewrite Hsession. simpl.
  rewrite (bool_decide_eq_true_2 _ Hown). simpl.
  destruct status as [st |].
  - rewrite (validate_set_status st a Hvalid). by case_bool_decide.
  - by rewrite (validate_unset_status a Hvalid).
Qed.

Lemma updateApplicationStatus_by_owner_witness :
  let s := Demo.portal (Some Demo.acme) in
  (updateApplicationStatus 20 (Some "hired") s).1
  = Ok (Json 200 (JSuccess true None))
  ∧ (updateApplicationStatus 20 (Some "Hired") s).1
    = Ok (Json 500 (JSuccess false (Some "Error updating status")))
  ∧ (updateApplicationStatus 20 None s).1 = Ok (Json 200 (JSuccess true None))
  ∧ Application.status <$> applications (updateApplicationStatus 20 None s).2
                           !! 20%N
    = Some None.
Proof.
  intros s.
  pose proof (updateApplicationStatus_by_owner s 20 (Some "hired")
                (Demo.application_to 10) Demo.acme) as Hhired.
  pose proof (updateApplicationStatus_by_owner s 20 (Some "Hired")
                (Demo.application_to 10) Demo.acme) as Hcase.
  pose proof (updateApplicationStatus_by_owner s 20 None
                (Demo.application_to 10) Demo.acme) as Hnone.
  destruct Hhired as (_ & _ & Hok & _);
    [reflexivity | reflexivity | reflexivity | reflexivity |].
  destruct Hcase as (_ & _ & Hfail & _);
    [reflexivity | reflexivity | reflexivity | reflexivity |].
  destruct Hnone as (_ & _ & Hunset & Happs);
    [reflexivity | reflexivity | reflexivity | reflexivity |].
  split; [exact Hok |]. split; [exact Hfail |]. split; [exact Hunset |].
  exact (eq_trans (f_equal (λ apps, Application.status <$> apps !! 20%N) Happs)
           eq_refl).
Defined.

(** ** Uploading a resume *)

Lemma resume_upload_run (ObjectId_toString : ObjectId → string)
    (Z_toString : Z → string) (now : Z) (file : UploadedFile)
    (wants_json : bool) (s : State) (me : Doc User.t) (profile : User.t) :
  session_user s = Some me →
  users s !! _id me = Some profile →
  includes "pdf" (mimetype file) = true →
  mv_succeeds file = true →
  let updated :=
    User.set_resume
      (resume_path ObjectId_toString Z_toString (_id me) now) profile in
  student_post_profile_resume ObjectId_toString Z_toString now (Some file)
    wants_json s
  = (Ok (if wants_json
         then Json 200 (JSuccess true (Some "Resume updated successfully"))
         else Redirect "/student/profile?success=Resume+updated+successfully"),
     mkState (<[_id me := updated]> (users s)) (jobs s) (applications s)
       (Some (_id me, updated)) (oplog s ++ [User_findByIdAndUpdate_op])).
Proof.
  intros Hsession Hprofile Hpdf Hmv. unfold student_post_profile_resume.
  run. rewrite Hpdf. simpl. rewrite Hsession. simpl. rewrite Hmv. simpl.
  rewrite Hprofile. simpl. by destruct wants_json.
Qed.

(** X17. An upload that carries no file, or a file whose type does not
    contain "pdf", or a file that cannot be moved into place, leaves the
    store and the session as they were and is not answered with
    success. *)
Theorem resume_upload_rejected (ObjectId_toString : ObjectId → string)
    (Z_toString : Z → string) (now : Z) (resumeFile : option UploadedFile)
    (wants_json : bool) (s : State) :
  (∀ file, resumeFile = Some file →
           includes "pdf" (mimetype file) && mv_succeeds file = false) →
  let r := student_post_profile_resume ObjectId_toString Z_toString now
             resumeFile wants_json s in
  store r.2 = store s
  ∧ session_user r.2 = session_user s
  ∧ ∃ resp, r.1 = Ok resp
            ∧ resp ≠ Json 200 (JSuccess true (Some "Resume updated successfully"))
            ∧ resp ≠ Redirect
                       "/student/profile?success=Resume+updated+successfully".
Proof.
  intros Hbad. unfold student_post_profile_resume, store. run.
  destruct resumeFile as [file |];
    [| destruct wants_json;
       (split; [done | split; [done | eexists; by repeat split]])].
  specialize (Hbad file eq_refl).
  destruct (includes "pdf" (mimetype file)); simpl;
    [| destruct wants_json;
       (split; [done | split; [done | eexists; by repeat split]])].
  simpl in Hbad.
  destruct (session_user s) as [me |] eqn:Hsession; simpl;
    [| destruct wants_json;
       (split; [done | split; [done | eexists; by repeat split]])].
  rewrite Hbad. simpl.
  destruct wants_json;
    (split; [done | split; [done | eexists; by repeat split]]).
Qed.

Lemma resume_upload_rejected_witness :
  let s := Demo.portal (Some Demo.sam) in
  let r := student_post_profile_resume (λ _, "4") (λ _, "2") 600
             (Some (mkUploadedFile "image/png" true)) true s in
  store r.2 = store s ∧ session_user r.2 = session_user s.
Proof.
  intros s r.
  destruct (resume_upload_rejected (λ _, "4") (λ _, "2") 600
              (Some (mkUploadedFile "image/png" true)) true s)
    as (Hstore & Hsession & _).
  - by intros file [= <-].
  - by split.
Defined.

(** X18. An accepted upload writes the new reference into the stored
    profile of the session's user and makes that stored profile, so
    updated, the user of the session; the other users, the jobs and the
    applications are as they were. *)
Theorem resume_upload_success (ObjectId_toString : ObjectId → string)
    (Z_toString : Z → string) (now : Z) (file : UploadedFile)
    (wants_json : bool) (s : State) (me : Doc User.t) (profile : User.t) :
  session_user s = Some me →
  users s !! _id me = Some profile →
  includes "pdf" (mimetype file) = true →
  mv_succeeds file = true →
  let path := resume_path ObjectId_toString Z_toString (_id me) now in
  let r := student_post_profile_resume ObjectId_toString Z_toString now
             (Some file) wants_json s in
  users r.2 !! _id me = Some (User.set_resume path profile)
  ∧ session_user r.2 = Some (_id me, User.set_resume path profile)
  ∧ (∀ other, other ≠ _id me → users r.2 !! other = users s !! other)
  ∧ jobs r.2 = jobs s
  ∧ applications r.2 = applications s.
Proof.
  intros Hsession Hprofile Hpdf Hmv path r. subst r.
  rewrite (resume_upload_run _ _ now file wants_json s me profile) by done.
  simpl. split; [apply lookup_insert_eq |]. split; [done |].
  split; [| done]. intros other Hother. by apply lookup_insert_ne.
Qed.

Lemma resume_upload_success_witness :
  let r := student_post_profile_resume (λ _, "4") (λ _, "2") 600
             (Some (mkUploadedFile "application/pdf" true)) false
             (Demo.portal (Some Demo.sam)) in
  User.resume <$> users r.2 !! 4%N = Some (Some "/uploads/resumes/4-2.pdf")
  ∧ User.resume ∘ fields <$> session_user r.2
    = Some (Some "/uploads/resumes/4-2.pdf").
Proof.
  intros r.
  destruct (resume_upload_success (λ _, "4") (λ _, "2") 600
              (mkUploadedFile "application/pdf" true) false
              (Demo.portal (Some Demo.sam)) Demo.sam (fields Demo.sam))
    as (Hprofile & Hsession & _);
    [reflexivity | reflexivity | reflexivity | reflexivity |].
  split.
  - exact (f_equal (fmap User.resume) Hprofile).
  - exact (f_equal (fmap (User.resume ∘ fields)) Hsession).
Defined.

(** X19. A student without a resume on file is refused by the apply
    route; once an upload has been accepted, the same request to an active
    job whose deadline lies ahead stores an application that carries the
    uploaded reference. *)
Theorem apply_after_upload (ObjectId_toString : ObjectId → string)
    (Z_toString : Z → string) (uploaded_at now : Z) (file : UploadedFile)
    (wants_json : bool) (s : State) (me : Doc User.t) (profile : User.t)
    (jobId : ObjectId) (job : Job.t) (d : Z) :
  session_user s = Some me →
  truthy (User.resume (fields me)) = false →
  users s !! _id me = Some profile →
  includes "pdf" (mimetype file) = true →
  mv_succeeds file = true →
  jobs s !! jobId = Some job →
  Job.status job = "active" →
  Job.deadline job = Some d →
  (now < d)%Z →
  ¬ has_applied s (_id me) jobId →
  let s1 := (student_post_profile_resume ObjectId_toString Z_toString
               uploaded_at (Some file) wants_json s).2 in
  let r := student_post_jobs_apply now jobId s1 in
  (student_post_jobs_apply now jobId s).1 = Ok ResumeRequired
  ∧ r.1 = Ok (Json 200 (JMessage "Application submitted successfully"))
  ∧ ∃ i a, applications r.2 !! i = Some a
           ∧ Application.studentId a = _id me
           ∧ Application.jobId a = jobId
           ∧ Application.resume a
             = resume_path ObjectId_toString Z_toString (_id me) uploaded_at.
Proof.
  intros Hsession Hnone Hprofile Hpdf Hmv Hjob Hactive Hdeadline Hlt Hnew s1 r.
  split.
  { unfold student_post_jobs_apply. run. rewrite Hsession. simpl.
    by rewrite Hnone. }
  subst r s1.
  rewrite (resume_upload_run _ _ uploaded_at file wants_json s me profile)
    by done.
  simpl.
  set (path := resume_path ObjectId_toString Z_toString (_id me) uploaded_at).
  set (s1 := mkState _ _ _ _ _).
  assert (Hpath : path ≠ "") by done.
  destruct (apply_success s1 now jobId (_id me, User.set_resume path profile)
              job) as [Hok Happs]; try done.
  - unfold deadline_passed. rewrite Hdeadline.
    apply bool_decide_eq_false_2. lia.
  - split; [done |]. rewrite Happs.
    eexists _, _. split; [apply lookup_insert_eq |]. simpl.
    by do 2 (split; [done |]).
Qed.

Lemma apply_after_upload_witness :
  let nobody := (4%N, User.mk (Some "Sam") (Some "sam@campus.example")
                         (Some "hash-sam") "student" None None "active") in
  let s := Demo.fresh_portal (Some nobody) in
  let s1 := (student_post_profile_resume (λ _, "4") (λ _, "2") 400
               (Some (mkUploadedFile "application/pdf" true)) true s).2 in
  (student_post_jobs_apply 500 10 s).1 = Ok ResumeRequired
  ∧ (student_post_jobs_apply 500 10 s1).1
    = Ok (Json 200 (JMessage "Application submitted successfully")).
Proof.
  intros nobody s s1.
  destruct (apply_after_upload (λ _, "4") (λ _, "2") 400 500
              (mkUploadedFile "application/pdf" true) true s nobody
              (fields Demo.sam) 10 Demo.dev_job 1000)
    as (Hrefused & Hok & _);
    [reflexivity | reflexivity | reflexivity | reflexivity | reflexivity
    | reflexivity | reflexivity | reflexivity | lia | |].
  - intros (i & a & Ha & _). vm_compute in Ha. discriminate.
  - by split.
Defined.

(** ** Passwords *)

Ltac run_accounts :=
  unfold User_findById, new_User_ObjectId, User_save, pre_save,
    comparePassword in *; run.

Lemma present_Some (field : option string) (v : string) :
  present field = Some v ↔ field = Some v ∧ v ≠ "".
Proof.
  unfold present. destruct field as [w |].
  - case_bool_decide as Hw; split.
    + done.
    + intros [[= ->] Hv]. by destruct Hv.
    + intros [= <-]. done.
    + by intros [-> _].
  - split; [done | by intros [? _]].
Qed.

(** X20. Without the current password nothing changes: when the password
    sent as the current one does not match the stored hash of the session's
    user (or none is sent, or the user is stored without a password, or
    bcrypt rejects the hash), [changePassword] leaves the store and the
    session as they were and does not answer with success, whatever new
    password is asked for. *)
Theorem changePassword_needs_current_password
    (bcrypt_hash : string → string)
    (bcrypt_compare : string → string → option bool) (s : State)
    (currentPassword newPassword confirmPassword : option string)
    (me : Doc User.t) (u : User.t) :
  session_user s = Some me →
  users s !! _id me = Some u →
  (∀ c hash, currentPassword = Some c → User.password u = Some hash →
             bcrypt_compare c hash ≠ Some true) →
  let r := changePassword bcrypt_hash bcrypt_compare currentPassword
             newPassword confirmPassword s in
  store r.2 = store s
  ∧ session_user r.2 = session_user s
  ∧ r.1 ≠ Ok (JsonSuccessText "Password changed successfully").
Proof.
  intros Hsession Hu Hwrong. unfold changePassword, store. run_accounts.
  rewrite Hsession. simpl.
  destruct (present currentPassword) as [c |] eqn:Hc; simpl; [| done].
  apply present_Some in Hc as [Hc _].
  destruct (present newPassword) as [n |]; simpl; [| done].
  destruct (present confirmPassword) as [k |]; simpl; [| done].
  case_bool_decide; simpl; [| done].
  unfold find_by_id. rewrite Hu. simpl.
  destruct (User.password u) as [hash |] eqn:Hhash; simpl; [| done].
  specialize (Hwrong c hash Hc eq_refl).
  by destruct (bcrypt_compare c hash) as [[|] |].
Qed.

Lemma changePassword_needs_current_password_witness :
  let s := Demo.portal (Some Demo.sam) in
  let r := changePassword demo_hash demo_compare
             (Some "guess") (Some "new-pw") (Some "new-pw") s in
  store r.2 = store s ∧ session_user r.2 = session_user s.
Proof.
  intros s r.
  destruct (changePassword_needs_current_password demo_hash demo_compare s
              (Some "guess") (Some "new-pw") (Some "new-pw")
              Demo.sam (fields Demo.sam))
    as (Hstore & Hsession & _); [reflexivity | reflexivity | |].
  - by intros c hash [= <-] [= <-].
  - by split.
Defined.

(** What a password change with the current password does. *)
Lemma changePassword_run (bcrypt_hash : string → string)
    (bcrypt_compare : string → string → option bool) (s : State)
    (current new hash : string) (me : Doc User.t) (u : User.t) :
  session_user s = Some me →
  users s !! _id me = Some u →
  User_validate u = true →
  current ≠ "" →
  new ≠ "" →
  User.password u = Some hash →
  bcrypt_compare current hash = Some true →
  changePassword bcrypt_hash bcrypt_compare (Some current) (Some new)
    (Some new) s
  = (Ok (JsonSuccessText "Password changed successfully"),
     mkState
       (<[_id me
          := User_set_password
               (if bool_decide (new = hash) then hash else bcrypt_hash new)
               u]> (users s))
       (jobs s) (applications s) (session_user s) (oplog s)).
Proof.
  intros Hsession Hu Hvalid Hcurrent Hnew Hhash Hmatch.
  unfold changePassword. run_accounts. rewrite Hsession. simpl.
  unfold present. rewrite !bool_decide_eq_false_2 by done. simpl.
  rewrite bool_decide_eq_true_2 by done. simpl.
  unfold find_by_id. rewrite Hu. simpl. rewrite Hhash. simpl.
  rewrite Hmatch. simpl.
  unfold User_validate in *. simpl. rewrite Hvalid. simpl.
  destruct (decide (new = hash)) as [-> | Hother].
  - rewrite !bool_decide_eq_true_2 by done. simpl. by rewrite Hsession.
  - rewrite (bool_decide_eq_false_2 (Some hash = Some new)) by congruence.
    rewrite (bool_decide_eq_false_2 _ Hother). simpl. by rewrite Hsession.
Qed.

(** X21. With the current password, a new password that is sent twice
    alike replaces the stored one by its hash (the stored value stays as
    it is when the new password is that very value); the rest of the user,
    the other users, the jobs, the applications and the session are as
    they were. *)
Theorem changePassword_success (bcrypt_hash : string → string)
    (bcrypt_compare : string → string → option bool) (s : State)
    (current new hash : string) (me : Doc User.t) (u : User.t) :
  session_user s = Some me →
  users s !! _id me = Some u →
  User_validate u = true →
  current ≠ "" →
  new ≠ "" →
  User.password u = Some hash →
  bcrypt_compare current hash = Some true →
  let r := changePassword bcrypt_hash bcrypt_compare (Some current)
             (Some new) (Some new) s in
  let stored := if bool_decide (new = hash) then hash else bcrypt_hash new in
  r.1 = Ok (JsonSuccessText "Password changed successfully")
  ∧ users r.2 !! _id me = Some (User_set_password stored u)
  ∧ (∀ other, other ≠ _id me → users r.2 !! other = users s !! other)
  ∧ jobs r.2 = jobs s
  ∧ applications r.2 = applications s
  ∧ session_user r.2 = session_user s.
Proof.
  intros Hsession Hu Hvalid Hcurrent Hnew Hhash Hmatch r stored. subst r.
  rewrite (changePassword_run bcrypt_hash bcrypt_compare s current new hash
             me u) by done.
  simpl. split; [done |]. split; [apply lookup_insert_eq |].
  split; [| done]. intros other Hother. by apply lookup_insert_ne.
Qed.

Lemma changePassword_success_witness :
  let s := demo_accounts (Some Demo.sam) in
  let r := changePassword demo_hash demo_compare
             (Some "old") (Some "new") (Some "new") s in
  r.1 = Ok (JsonSuccessText "Password changed successfully")
  ∧ User.password <$> users r.2 !! 4%N = Some (Some "hash:new").
Proof.
  intros s r.
  destruct (changePassword_success demo_hash demo_compare s "old" "new"
              "hash:old" Demo.sam
              (User_set_password (demo_hash "old") (fields Demo.sam)))
    as (Hok & Hstored & _);
    [reflexivity | reflexivity | reflexivity | discriminate | discriminate
    | reflexivity | reflexivity |].
  split; [exact Hok |].
  exact (f_equal (fmap User.password) Hstored).
Defined.

(** X22. After a password change the new password signs the user in and
    the old one no longer does, for a user who is the only one with that
    email and role, whose role is not admin, and when the hash of the new
    password matches the new password and not the old one. *)
Theorem login_after_changePassword (ADMIN_KEY : option string)
    (bcrypt_hash : string → string)
    (bcrypt_compare : string → string → option bool)
    (String_filter : Field → option (option string → bool)) (s : State)
    (current new email hash : string) (adminKey : Field) (me : Doc User.t)
    (u : User.t) :
  session_user s = Some me →
  users s !! _id me = Some u →
  User_validate u = true →
  User.role u ≠ "admin" →
  User.email u = Some email →
  User.password u = Some hash →
  (∀ j v, users s !! j = Some v →
          User.email v = Some email → User.role v = User.role u →
          j = _id me) →
  current ≠ "" →
  new ≠ "" →
  new ≠ hash →
  bcrypt_compare current hash = Some true →
  bcrypt_compare new (bcrypt_hash new) = Some true →
  bcrypt_compare current (bcrypt_hash new) = Some false →
  let s' := (changePassword bcrypt_hash bcrypt_compare (Some current)
               (Some new) (Some new) s).2 in
  let login password :=
    loginUser ADMIN_KEY bcrypt_compare String_filter (Some (VText email))
      (Some (VText password)) (Some (VText (User.role u))) adminKey s' in
  (∃ url, (login new).1 = Ok (Redirect url))
  ∧ (login current).1 = Ok InvalidCredentials.
Proof.
  intros Hsession Hu Hvalid Hrole Hemail Hhash Honly Hcurrent Hnew Hfresh Hold
    Hnewhash Hstale s' login.
  assert (Husers : users s'
                   = <[_id me := User_set_password (bcrypt_hash new) u]>
                       (users s)).
  { subst s'.
    rewrite (changePassword_run bcrypt_hash bcrypt_compare s current new hash
               me u) by done.
    simpl. by rewrite (bool_decide_eq_false_2 _ Hfresh). }
  set (u' := User_set_password (bcrypt_hash new) u) in *.
  assert (Hu' : users s' !! _id me = Some u')
    by (rewrite Husers; apply lookup_insert_eq).
  assert (Hnotadmin : is_text "admin" (Some (VText (User.role u))) = false)
    by (by apply bool_decide_eq_false_2).
  set (filter := λ v : Doc User.t,
         bool_decide (User.email (fields v) = Some email)
         && bool_decide (Some (User.role (fields v)) = Some (User.role u))).
  assert (Hfilter : by_email_and_role String_filter (Some (VText email))
                      (Some (VText (User.role u))) = Some filter)
    by reflexivity.
  assert (Honly' : ∀ j v, users s' !! j = Some v → filter (j, v) = true →
                          j = _id me).
  { intros j v Hv Hmatch. apply login_filter_spec in Hmatch as [He Hr].
    rewrite Husers in Hv.
    apply lookup_insert_Some in Hv as [[<- _] | [_ Hv]]; [done |].
    by apply (Honly j v). }
  assert (Hmine : filter (_id me, u') = true).
  { apply login_filter_spec. by split. }
  subst login. cbv beta. split.
  - by destruct (login_succeeds ADMIN_KEY bcrypt_compare String_filter s'
                   (Some (VText email)) (Some (VText (User.role u))) adminKey
                   new (bcrypt_hash new) filter (_id me) u'
                   Hnotadmin Hfilter Hu' Hmine Honly' eq_refl Hnewhash)
      as [Hurl _].
  - apply (login_wrong_password ADMIN_KEY bcrypt_compare String_filter s'
             (Some (VText email)) (Some (VText (User.role u))) adminKey
             current filter Hnotadmin Hfilter).
    intros j v Hv Hmatch.
    assert (j = _id me) as -> by by apply (Honly' j v).
    assert (v = u') as -> by congruence.
    by exists (bcrypt_hash new).
Qed.

Lemma login_after_changePassword_witness :
  let s' := (changePassword demo_hash demo_compare (Some "old") (Some "new")
               (Some "new") (demo_accounts (Some Demo.sam))).2 in
  let login password :=
    loginUser None demo_compare demo_String_filter
      (Some (VText "sam@campus.example")) (Some (VText password))
      (Some (VText "student")) None s' in
  (∃ url, (login "new").1 = Ok (Redirect url))
  ∧ (login "old").1 = Ok InvalidCredentials.
Proof.
  apply (login_after_changePassword None demo_hash demo_compare
           demo_String_filter (demo_accounts (Some Demo.sam)) "old" "new"
           "sam@campus.example" "hash:old" None Demo.sam
           (User_set_password (demo_hash "old") (fields Demo.sam)));
    try reflexivity; try discriminate.
  refine (bool_decide_unpack
            (map_Forall (λ j v,
               User.email v = Some "sam@campus.example" →
               User.role v = "student" → j = 4%N)
               (users (demo_accounts (Some Demo.sam)))) _).
  vm_compute. exact I.
Defined.

(** ** Accounts *)

Lemma by_email_text
    (String_filter : Field → option (option string → bool)) (email : string) :
  by_email String_filter (Some email)
  = Some (λ u, bool_decide (User.email (fields u) = Some email)).
Proof. reflexivity. Qed.

Lemma find_one_by_email (us : gmap N User.t) (email : option string) :
  find_one (λ u, bool_decide (User.email (fields u) = email)) us = None
  ↔ ∀ i u, us !! i = Some u → User.email u ≠ email.
Proof.
  rewrite find_one_None. simpl.
  split; intros H i u Hu; specialize (H i u Hu).
  - by apply bool_decide_eq_false in H.
  - by apply bool_decide_eq_false.
Qed.

(** What [save] does with a user. *)
Lemma User_save_run (bcrypt_hash : string → string)
    (isNew password_modified : bool) (d : Doc User.t) (s : State) :
  User_save bcrypt_hash isNew password_modified d s
  = if negb (User_validate (fields d)) then (Throw ValidationError, s)
    else
      match (if negb password_modified then Some (fields d)
             else (λ plain, User_set_password (bcrypt_hash plain) (fields d))
                    <$> User.password (fields d)) with
      | None => (Throw IllegalArguments, s)
      | Some stored =>
          if isNew
             && bool_decide (is_Some (find_one (same_email stored) (users s)))
          then (Throw DuplicateKey, s)
          else (Ok tt, mkState (<[_id d := stored]> (users s)) (jobs s)
                         (applications s) (session_user s) (oplog s))
      end.
Proof.
  unfold User_save, pre_save. unfold_monad.
  destruct (User_validate (fields d)); simpl; [| done].
  destruct password_modified; simpl.
  - destruct (User.password (fields d)); simpl; [| done].
    by destruct (isNew && _).
  - by destruct (isNew && _).
Qed.

(** X23. The administrator cannot add a user under an email that a stored
    user already has, whatever the role: the request is answered with the
    email-exists error and the store is as it was. *)
Theorem admin_add_user_duplicate_email (bcrypt_hash : string → string)
    (String_filter : Field → option (option string → bool))
    (Exn_message : Exn → option string) (isModified_undefined : bool)
    (s : State) (name role password : option string) (email : string)
    (i : ObjectId) (u : User.t) :
  users s !! i = Some u →
  User.email u = Some email →
  let r := admin_post_users_add bcrypt_hash String_filter Exn_message
             isModified_undefined name (Some email) role password s in
  r.1 = Ok (Render 200 "pages/admin/dashboard"
              (Some "User with this email already exists"))
  ∧ store r.2 = store s.
Proof.
  intros Hu Hemail.
  destruct (find_one (λ u, bool_decide (User.email (fields u) = Some email))
              (users s)) as [found |] eqn:Hfind.
  - unfold admin_post_users_add, store. rewrite by_email_text. run.
    by rewrite Hfind.
  - rewrite find_one_by_email in Hfind. by destruct (Hfind i u Hu).
Qed.

Lemma admin_add_user_duplicate_email_witness :
  let s := Demo.portal (Some Demo.admin) in
  let r := admin_post_users_add demo_hash demo_String_filter (λ _, None) true
             (Some "Sam Two") (Some "sam@campus.example") (Some "company")
             (Some "pw") s in
  r.1 = Ok (Render 200 "pages/admin/dashboard"
              (Some "User with this email already exists"))
  ∧ store r.2 = store s.
Proof.
  by apply (admin_add_user_duplicate_email demo_hash demo_String_filter
              (λ _, None) true _ (Some "Sam Two") (Some "company") (Some "pw")
              "sam@campus.example" 4 (fields Demo.sam)).
Defined.

Lemma admin_add_user_run (bcrypt_hash : string → string)
    (String_filter : Field → option (option string → bool))
    (Exn_message : Exn → option string) (isModified_undefined : bool)
    (s : State) (name role password : option string) (email : string) :
  (∀ i u, users s !! i = Some u → User.email u ≠ Some email) →
  let r := admin_post_users_add bcrypt_hash String_filter Exn_message
             isModified_undefined name (Some email) role password s in
  let created hash :=
    (Ok (Redirect "/admin/dashboard?success=User+created+successfully"),
     mkState
       (<[fresh (dom (users s))
          := User.mk name (Some email) hash (default "student" role) None
               None "active"]> (users s))
       (jobs s) (applications s) (session_user s)
       (oplog s ++ [User_findOne_op])) in
  let failed e :=
    (Ok (creation_failed Exn_message e),
     mkState (users s) (jobs s) (applications s) (session_user s)
       (oplog s ++ [User_findOne_op])) in
  r = if negb (bool_decide (default "student" role ∈ User_role_enum))
      then failed ValidationError
      else match password with
           | Some plain => created (Some (bcrypt_hash plain))
           | None => if isModified_undefined then failed IllegalArguments
                     else created None
           end.
Proof.
  intros Hnew r created failed. subst r created failed.
  pose proof Hnew as Hnone. apply find_one_by_email in Hnone.
  unfold admin_post_users_add. rewrite by_email_text.
  unfold User_findOne, new_User_ObjectId. unfold_monad. simpl.
  rewrite Hnone. simpl. rewrite User_save_run. simpl.
  unfold User_validate, new_User. simpl.
  destruct (bool_decide (default "student" role ∈ User_role_enum)); simpl;
    [| done].
  assert (Hindex : ∀ hash,
            find_one
              (same_email
                 (User.mk name (Some email) hash (default "student" role) None
                    None "active")) (users s) = None).
  { intros hash. apply find_one_None. intros i u Hu. unfold same_email. simpl.
    apply bool_decide_eq_false_2. by apply (Hnew i u). }
  destruct password as [plain |]; simpl.
  - unfold User_set_password. simpl. by rewrite Hindex.
  - destruct isModified_undefined; simpl; [done |]. by rewrite Hindex.
Qed.

(** X24. Under an email that no stored user has, the administrator's
    request stores a new user when the role is one of student, company and
    admin, or when the form carries no role, in which case the user is a
    student: under an unused id, with status active and with the hash of
    the password in the place of the password; with any other role it is
    answered with the creation error and stores nothing. When the form
    carries no password, the request either fails in the same way or
    stores the user without a password, as [isModified] decides. *)
Theorem admin_add_user_new_email (bcrypt_hash : string → string)
    (String_filter : Field → option (option string → bool))
    (Exn_message : Exn → option string) (isModified_undefined : bool)
    (s : State) (name role password : option string) (email : string) :
  (∀ i u, users s !! i = Some u → User.email u ≠ Some email) →
  let r := admin_post_users_add bcrypt_hash String_filter Exn_message
             isModified_undefined name (Some email) role password s in
  let created hash :=
    r.1 = Ok (Redirect "/admin/dashboard?success=User+created+successfully")
    ∧ jobs r.2 = jobs s ∧ applications r.2 = applications s
    ∧ ∃ id, users s !! id = None
            ∧ users r.2
              = <[id := User.mk name (Some email) hash
                          (default "student" role) None None "active"]>
                  (users s) in
  let failed :=
    (∃ error, r.1 = Ok (Render 200 "pages/admin/dashboard" (Some error)))
    ∧ store r.2 = store s in
  if bool_decide (default "student" role ∈ User_role_enum)
  then match password with
       | Some plain => created (Some (bcrypt_hash plain))
       | None => if isModified_undefined then failed else created None
       end
  else failed.
Proof.
  intros Hnew r created failed. subst created failed.
  pose proof (admin_add_user_run bcrypt_hash String_filter Exn_message
                isModified_undefined s name role password email Hnew) as Hrun.
  cbv zeta in Hrun. fold r in Hrun.
  destruct (bool_decide (default "student" role ∈ User_role_enum)); simpl in *;
    [| rewrite Hrun; split; [by eexists | done]].
  destruct password as [plain |];
    [| destruct isModified_undefined;
       [rewrite Hrun; split; [by eexists | done] |]];
    rewrite Hrun; simpl; (do 3 (split; [done |]));
    exists (fresh (dom (users s))); (split; [apply lookup_fresh_dom | done]).
Qed.

Lemma admin_add_user_new_email_witness :
  let s := Demo.portal (Some Demo.admin) in
  let r := admin_post_users_add demo_hash demo_String_filter (λ _, None) true
             (Some "Kim") (Some "kim@campus.example") None (Some "pw") s in
  r.1 = Ok (Redirect "/admin/dashboard?success=User+created+successfully")
  ∧ ∃ id, users s !! id = None
          ∧ User.password <$> users r.2 !! id = Some (Some "hash:pw")
          ∧ User.role <$> users r.2 !! id = Some "student".
Proof.
  intros s r.
  pose proof (admin_add_user_new_email demo_hash demo_String_filter
                (λ _, None) true s (Some "Kim") None (Some "pw")
                "kim@campus.example") as H.
  destruct H as (Hok & _ & _ & id & Hid & Husers).
  - refine (bool_decide_unpack
              (map_Forall (λ _ u, User.email u ≠ Some "kim@campus.example")
                 (users s)) _).
    vm_compute. exact I.
  - split; [exact Hok |]. exists id. split; [exact Hid |].
    fold r in Husers. rewrite Husers, lookup_insert_eq. by split.
Defined.

(** X25. The administrator's add-user request keeps the emails of the
    stored users pairwise different, whatever the form carries: a text
    for the email, or none. *)
Theorem admin_add_user_keeps_emails_unique (bcrypt_hash : string → string)
    (String_filter : Field → option (option string → bool))
    (Exn_message : Exn → option string) (isModified_undefined : bool)
    (s : State) (name email role password : option string) :
  unique_emails (users s) →
  unique_emails
    (users (admin_post_users_add bcrypt_hash String_filter Exn_message
              isModified_undefined name email role password s).2).
Proof.
  intros Huniq. unfold admin_post_users_add.
  unfold User_findOne, new_User_ObjectId. unfold_monad. simpl.
  destruct (by_email String_filter email) as [filter |]; simpl; [| done].
  destruct (find_one filter (users s)); simpl; [done |].
  rewrite User_save_run. simpl.
  destruct (negb (User_validate _)); simpl; [done |].
  match goal with |- context [match ?o with Some _ => _ | None => _ end] =>
    destruct o as [stored |] eqn:Hstored end; simpl; [| done].
  assert (Hemail : User.email stored = email).
  { destruct (negb _) in Hstored; [by injection Hstored as <- |].
    destruct password as [plain |]; [| done]. by injection Hstored as <-. }
  destruct (find_one (same_email stored) (users s)) as [other |] eqn:Hindex;
    simpl; [by rewrite ?bool_decide_eq_true_2 |].
  rewrite ?bool_decide_eq_false_2 by (by intros [? ?]). simpl.
  rewrite find_one_None in Hindex.
  intros i u Hu j v Hv Hsame.
  apply lookup_insert_Some in Hu as [[<- <-] | [_ Hu]];
    apply lookup_insert_Some in Hv as [[<- <-] | [_ Hv]].
  - done.
  - specialize (Hindex j v Hv). unfold same_email in Hindex. simpl in Hindex.
    by apply bool_decide_eq_false in Hindex.
  - specialize (Hindex i u Hu). unfold same_email in Hindex. simpl in Hindex.
    by apply bool_decide_eq_false in Hindex.
  - by apply (Huniq i u Hu j v Hv).
Qed.

Lemma admin_add_user_keeps_emails_unique_witness :
  unique_emails
    (users (admin_post_users_add demo_hash demo_String_filter (λ _, None) true
              (Some "Kim") (Some "kim@campus.example") (Some "student")
              (Some "pw") (Demo.portal (Some Demo.admin))).2).
Proof.
  apply admin_add_user_keeps_emails_unique.
  refine (bool_decide_unpack _ _). vm_compute. exact I.
Defined.

Lemma toggle_status_run (bcrypt_hash : string → string) (s : State)
    (id : ObjectId) (u : User.t) :
  users s !! id = Some u →
  User_validate u = true →
  let flipped :=
    if bool_decide (User.status u = "active") then "inactive" else "active" in
  admin_post_users_toggle_status bcrypt_hash id s
  = (Ok (Redirect "/admin/users"),
     mkState (<[id := User_set_status flipped u]> (users s)) (jobs s)
       (applications s) (session_user s) (oplog s)).
Proof.
  intros Hu Hvalid. unfold admin_post_users_toggle_status. run_accounts.
  unfold find_by_id. rewrite Hu. simpl.
  unfold User_validate in *. simpl. by rewrite Hvalid.
Qed.

(** X26. The administrator's toggle turns an active user into an inactive
    one and an inactive one into an active one, changing nothing else in
    the user; toggling twice gives back the users as they were. *)
Theorem toggle_status_twice (bcrypt_hash : string → string) (s : State)
    (id : ObjectId) (u : User.t) :
  users s !! id = Some u →
  User_validate u = true →
  User.status u = "active" ∨ User.status u = "inactive" →
  let s1 := (admin_post_users_toggle_status bcrypt_hash id s).2 in
  let s2 := (admin_post_users_toggle_status bcrypt_hash id s1).2 in
  users s1 !! id
  = Some (User_set_status
            (if bool_decide (User.status u = "active") then "inactive"
             else "active") u)
  ∧ users s2 = users s.
Proof.
  intros Hu Hvalid Hstatus s1 s2. subst s2 s1.
  rewrite (toggle_status_run bcrypt_hash s id u Hu Hvalid). simpl.
  split; [apply lookup_insert_eq |].
  erewrite toggle_status_run;
    [| simpl; apply lookup_insert_eq | done].
  simpl. rewrite insert_insert_eq. apply insert_id. rewrite Hu. f_equal.
  destruct u as [n e p r cv cn st]. simpl in *.
  destruct Hstatus as [-> | ->]; reflexivity.
Qed.

Lemma toggle_status_twice_witness :
  let s := Demo.portal (Some Demo.admin) in
  let s1 := (admin_post_users_toggle_status demo_hash 4 s).2 in
  let s2 := (admin_post_users_toggle_status demo_hash 4 s1).2 in
  User.status <$> users s1 !! 4%N = Some "inactive" ∧ users s2 = users s.
Proof.
  intros s s1 s2.
  destruct (toggle_status_twice demo_hash s 4 (fields Demo.sam))
    as [Hflipped Hback]; [reflexivity | reflexivity | by left |].
  split; [| exact Hback]. fold s1 in Hflipped. by rewrite Hflipped.
Defined.

(** X27. A user whom the administrator has made inactive can still sign
    in: the login looks at the email, the role and the password, not at
    the status. *)
Theorem deactivated_user_can_sign_in (ADMIN_KEY : option string)
    (bcrypt_hash : string → string)
    (bcrypt_compare : string → string → option bool)
    (String_filter : Field → option (option string → bool)) (s : State)
    (id : ObjectId) (u : User.t) (email password hash : string)
    (adminKey : Field) :
  users s !! id = Some u →
  User_validate u = true →
  User.status u = "active" →
  User.role u ≠ "admin" →
  User.email u = Some email →
  User.password u = Some hash →
  (∀ j v, users s !! j = Some v →
          User.email v = Some email → User.role v = User.role u → j = id) →
  bcrypt_compare password hash = Some true →
  let s1 := (admin_post_users_toggle_status bcrypt_hash id s).2 in
  let r := loginUser ADMIN_KEY bcrypt_compare String_filter
             (Some (VText email)) (Some (VText password))
             (Some (VText (User.role u))) adminKey s1 in
  (∃ url, r.1 = Ok (Redirect url))
  ∧ session_user r.2 = Some (id, User_set_status "inactive" u).
Proof.
  intros Hu Hvalid Hactive Hrole Hemail Hhash Honly Hpw s1 r. subst r s1.
  rewrite (toggle_status_run bcrypt_hash s id u Hu Hvalid).
  rewrite (bool_decide_eq_true_2 _ Hactive). simpl.
  set (s1 := mkState _ _ _ _ _).
  set (filter := λ v : Doc User.t,
         bool_decide (User.email (fields v) = Some email)
         && bool_decide (Some (User.role (fields v)) = Some (User.role u))).
  destruct (login_succeeds ADMIN_KEY bcrypt_compare String_filter s1
              (Some (VText email)) (Some (VText (User.role u))) adminKey
              password hash filter id (User_set_status "inactive" u))
    as (Hurl & Hsession & _); try done.
  - by apply bool_decide_eq_false_2.
  - apply lookup_insert_eq.
  - apply login_filter_spec. by split.
  - intros j v Hv Hmatch. apply login_filter_spec in Hmatch as [He Hr].
    simpl in Hv.
    apply lookup_insert_Some in Hv as [[<- _] | [_ Hv]]; [done |].
    by apply (Honly j v).
Qed.

Lemma deactivated_user_can_sign_in_witness :
  let s1 := (admin_post_users_toggle_status demo_hash 4
               (demo_accounts (Some Demo.admin))).2 in
  let r := loginUser None demo_compare demo_String_filter
             (Some (VText "sam@campus.example")) (Some (VText "old"))
             (Some (VText "student")) None s1 in
  (∃ url, r.1 = Ok (Redirect url))
  ∧ User.status ∘ fields <$> session_user r.2 = Some "inactive".
Proof.
  intros s1 r.
  destruct (deactivated_user_can_sign_in None demo_hash demo_compare
              demo_String_filter (demo_accounts (Some Demo.admin)) 4
              (User_set_password (demo_hash "old") (fields Demo.sam))
              "sam@campus.example" "old" "hash:old" None)
    as [Hurl Hsession];
    try reflexivity; try discriminate.
  - refine (bool_decide_unpack
              (map_Forall (λ j v,
                 User.email v = Some "sam@campus.example" →
                 User.role v = "student" → j = 4%N)
                 (users (demo_accounts (Some Demo.admin)))) _).
    vm_compute. exact I.
  - split; [exact Hurl |].
    exact (f_equal (fmap (User.status ∘ fields)) Hsession).
Defined.

(** ** What the student sees and what the student can do *)

Lemma student_get_jobs_run (now : Z) (s : State) :
  (student_get_jobs now s).1
  = Ok (JobsPage (find_all (visible now) (jobs s))).
Proof. by unfold student_get_jobs; run. Qed.

Lemma visible_spec (now : Z) (jobId : ObjectId) (job : Job.t) :
  visible now (jobId, job) = true
  ↔ Job.status job = "active"
    ∧ ∃ d, Job.deadline job = Some d ∧ (now < d)%Z.
Proof.
  unfold visible. simpl. rewrite andb_true_iff, bool_decide_eq_true.
  destruct (Job.deadline job) as [d |].
  - rewrite bool_decide_eq_true. split.
    + intros [? ?]. split; [done |]. by exists d.
    + by intros [? (d' & [= <-] & ?)].
  - split; [by intros [_ ?] | by intros [_ (d & ? & _)]].
Qed.

(** X28. Every job that the student's listing shows can be applied to at
    that instant: a student with a resume on file and no application to it
    yet gets the application stored. *)
Theorem listed_job_accepts_application (s : State) (now : Z)
    (me : Doc User.t) (listed : list (Doc Job.t)) (job : Doc Job.t) :
  session_user s = Some me →
  truthy (User.resume (fields me)) = true →
  (student_get_jobs now s).1 = Ok (JobsPage listed) →
  job ∈ listed →
  ¬ has_applied s (_id me) (_id job) →
  let r := student_post_jobs_apply now (_id job) s in
  r.1 = Ok (Json 200 (JMessage "Application submitted successfully"))
  ∧ ∃ i a, applications r.2 !! i = Some a
           ∧ Application.studentId a = _id me
           ∧ Application.jobId a = _id job.
Proof.
  intros Hsession Hresume Hpage Hlisted Hnew r.
  rewrite student_get_jobs_run in Hpage. injection Hpage as <-.
  apply elem_of_find_all in Hlisted as [Hjob Hvisible].
  destruct job as [jobId job]. simpl in *.
  apply visible_spec in Hvisible as (Hactive & d & Hdeadline & Hlt).
  destruct (apply_success s now jobId me job) as [Hok Happs]; try done.
  { unfold deadline_passed. rewrite Hdeadline.
    apply bool_decide_eq_false_2. lia. }
  split; [done |]. subst r. rewrite Happs.
  eexists _, _. split; [apply lookup_insert_eq | done].
Qed.

Lemma listed_job_accepts_application_witness :
  let s := Demo.fresh_portal (Some Demo.sam) in
  (student_get_jobs 500 s).1 = Ok (JobsPage [(10%N, Demo.dev_job)])
  ∧ (student_post_jobs_apply 500 10 s).1
    = Ok (Json 200 (JMessage "Application submitted successfully")).
Proof.
  intros s.
  assert (Hpage : (student_get_jobs 500 s).1
                  = Ok (JobsPage [(10%N, Demo.dev_job)])) by reflexivity.
  split; [exact Hpage |].
  destruct (listed_job_accepts_application s 500 Demo.sam
              [(10%N, Demo.dev_job)] (10%N, Demo.dev_job))
    as [Hok _]; [reflexivity | reflexivity | exact Hpage | | | exact Hok].
  - apply list_elem_of_singleton. reflexivity.
  - intros (i & a & Ha & _). vm_compute in Ha. discriminate.
Defined.

(** X29. The listing is stricter than the apply route at the deadline: an
    active job whose deadline is the very instant of the request is not
    listed, and yet an application to it is accepted. *)
Theorem apply_accepts_unlisted_deadline (s : State) (now : Z)
    (me : Doc User.t) (jobId : ObjectId) (job : Job.t) :
  session_user s = Some me →
  truthy (User.resume (fields me)) = true →
  jobs s !! jobId = Some job →
  Job.status job = "active" →
  Job.deadline job = Some now →
  ¬ has_applied s (_id me) jobId →
  (∀ listed, (student_get_jobs now s).1 = Ok (JobsPage listed) →
             (jobId, job) ∉ listed)
  ∧ (student_post_jobs_apply now jobId s).1
    = Ok (Json 200 (JMessage "Application submitted successfully")).
Proof.
  intros Hsession Hresume Hjob Hactive Hdeadline Hnew. split.
  - intros listed Hpage Hlisted.
    rewrite student_get_jobs_run in Hpage. injection Hpage as <-.
    apply elem_of_find_all in Hlisted as [_ Hvisible].
    apply visible_spec in Hvisible as (_ & d & Hd & Hlt).
    rewrite Hdeadline in Hd. injection Hd as <-. lia.
  - apply (apply_success s now jobId me job); try done.
    unfold deadline_passed. rewrite Hdeadline.
    apply bool_decide_eq_false_2. lia.
Qed.

Lemma apply_accepts_unlisted_deadline_witness :
  let s := Demo.fresh_portal (Some Demo.sam) in
  (student_get_jobs 1000 s).1 = Ok (JobsPage [])
  ∧ (student_post_jobs_apply 1000 10 s).1
    = Ok (Json 200 (JMessage "Application submitted successfully")).
Proof.
  intros s. split; [reflexivity |].
  destruct (apply_accepts_unlisted_deadline s 1000 Demo.sam 10 Demo.dev_job)
    as [_ Hok]; [reflexivity | reflexivity | reflexivity | reflexivity
                | reflexivity | | exact Hok].
  intros (i & a & Ha & _). vm_compute in Ha. discriminate.
Defined.

Lemma job_details_run (s : State) (jobId : ObjectId) (job : Job.t)
    (me : Doc User.t) :
  session_user s = Some me →
  jobs s !! jobId = Some job →
  Job.status job = "active" →
  (student_get_job_details jobId s).1
  = Ok (JobDetailsPage (jobId, job)
          match find_one (by_student_and_job (_id me) jobId) (applications s)
          with Some _ => true | None => false end).
Proof.
  intros Hsession Hjob Hactive. unfold student_get_job_details. run.
  unfold find_by_id. rewrite Hjob. simpl.
  rewrite (bool_decide_eq_true_2 _ Hactive). simpl. rewrite Hsession. simpl.
  by destruct (find_one _ (applications s)).
Qed.

(** X30. The details page of an active job tells the student whether an
    application is on record: it shows "not applied" before the apply
    request goes through and "applied" after it. *)
Theorem job_details_after_apply (s : State) (now : Z) (jobId : ObjectId)
    (me : Doc User.t) (job : Job.t) :
  session_user s = Some me →
  truthy (User.resume (fields me)) = true →
  jobs s !! jobId = Some job →
  Job.status job = "active" →
  deadline_passed now job = false →
  ¬ has_applied s (_id me) jobId →
  let s1 := (student_post_jobs_apply now jobId s).2 in
  (student_get_job_details jobId s).1
  = Ok (JobDetailsPage (jobId, job) false)
  ∧ (student_get_job_details jobId s1).1
    = Ok (JobDetailsPage (jobId, job) true).
Proof.
  intros Hsession Hresume Hjob Hactive Hdeadline Hnew s1.
  destruct (apply_inversion s now jobId) as (_ & Hjobs & Hsession1 & _).
  destruct (apply_success s now jobId me job) as [_ Happs]; try done.
  fold s1 in Hjobs, Hsession1, Happs.
  split.
  - rewrite (job_details_run s jobId job me) by done.
    apply find_one_by_student_and_job in Hnew. by rewrite Hnew.
  - rewrite (job_details_run s1 jobId job me) by congruence.
    destruct (find_one (by_student_and_job (_id me) jobId) (applications s1))
      eqn:Hfind; [done |].
    apply find_one_by_student_and_job in Hfind. destruct Hfind.
    eexists _, _. rewrite Happs. split; [apply lookup_insert_eq | done].
Qed.

Lemma job_details_after_apply_witness :
  let s := Demo.fresh_portal (Some Demo.sam) in
  let s1 := (student_post_jobs_apply 500 10 s).2 in
  (student_get_job_details 10 s).1
  = Ok (JobDetailsPage (10%N, Demo.dev_job) false)
  ∧ (student_get_job_details 10 s1).1
    = Ok (JobDetailsPage (10%N, Demo.dev_job) true).
Proof.
  apply (job_details_after_apply _ 500 10 Demo.sam Demo.dev_job);
    try reflexivity.
  intros (i & a & Ha & _). vm_compute in Ha. discriminate.
Defined.
